(** * fasttrips/Transfer.py: the transfer-link catalogue

    A shallow embedding of the [Transfer] class of fast-trips: the
    constructor that merges the GTFS transfer list with [transfers_ft.txt],
    derives walk times and checks them, the numeric stop id step and the
    export of the table read by the path-finding extension.

    Python values are a small tagged union, floats are IEEE binary64
    (Rocq's primitive floats), a pandas frame is a list of column labels
    with one finite map per row, exceptions are values of [exn], and the
    logger, the file system and the store of frame objects are threaded
    through a state monad. *)

From Stdlib Require Import ZArith Floats Uint63 Lia.
From stdpp Require Import base option list gmap strings pretty.

Local Open Scope Z_scope.
Local Open Scope string_scope.
Local Open Scope nat_scope.
Local Open Scope list_scope.

(** ** Python values *)

Inductive value : Type :=
| PyNone
| PyStr (s : string)
| PyInt (z : Z)
| PyFloat (f : float)
| PyTimedelta (minutes : float).

(** [float(z)] for a Python int within the int64 range. *)
Definition float_of_Z (z : Z) : float :=
  match z with
  | Z0 => 0%float
  | Zpos _ => of_uint63 (Uint63.of_Z z)
  | Zneg p => (- of_uint63 (Uint63.of_Z (Zpos p)))%float
  end.

Definition NaN : value := PyFloat nan.

(** [pandas.isnull] on one cell. *)
Definition isnull (v : value) : bool :=
  match v with
  | PyNone => true
  | PyFloat f => is_nan f
  | _ => false
  end.

(** A Python dict from strings to values, in insertion order. *)
Abbreviation dict := (list (string * value)).

Fixpoint dict_get (d : dict) (k : string) : option value :=
  match d with
  | [] => None
  | (k', v) :: d' => if bool_decide (k' = k) then Some v else dict_get d' k
  end.

Fixpoint dict_set (d : dict) (k : string) (v : value) : dict :=
  match d with
  | [] => [(k, v)]
  | (k', v') :: d' =>
      if bool_decide (k' = k) then (k, v) :: d' else (k', v') :: dict_set d' k v
  end.

(** ** Exceptions and fallible computations *)

Inductive exn : Type :=
| NetworkInputError (filename : string) (message : string)
| AssertionError
| KeyError (key : string)
| ValueError
| TypeError
| OverflowError
| MergeError
| IOError (path : string)
| ReferenceError.

Inductive res (A : Type) : Type :=
| Ok (a : A)
| Raise (e : exn).
Arguments Ok {A} a.
Arguments Raise {A} e.

#[export] Instance res_ret : MRet res := λ A a, Ok a.
#[export] Instance res_bind : MBind res := λ A B f m,
  match m with
  | Ok a => f a
  | Raise e => Raise e
  end.

(** ** Python builtins used by the class *)

#[export] Instance nat_gt_dec (x y : nat) : Decision (x > y) := decide (y < x).

Definition nl : string := String (Ascii.ascii_of_nat 10) EmptyString.

(** [s.rjust(n)]: what [%ns] and [%nd] do to a shorter text. *)
Definition rjust (n : nat) (s : string) : string :=
  String.concat EmptyString (replicate (n - String.length s) " ") +:+ s.

(** [os.path.join] of a directory and a file name. *)
Definition os_path_join (dir file : string) : string := dir +:+ "/" +:+ file.

(** [datetime.timedelta(minutes=x)]: a NaN cannot be converted, and a value
    of a thousand million days or more does not fit. *)
Definition timedelta (minutes : value) : res value :=
  match minutes with
  | PyFloat x =>
      if is_nan x then Raise ValueError
      else if (abs x <? 1440000000000)%float then Ok (PyTimedelta x)
      else Raise OverflowError
  | PyInt z =>
      if (Z.abs z <? 1440000000000)%Z then Ok (PyTimedelta (float_of_Z z))
      else Raise OverflowError
  | _ => Raise TypeError
  end.

(** ** pandas *)

Module pandas.

Abbreviation Series := (list value).

(** A frame: the names of the index levels (none for the default
    [RangeIndex]), the column labels in order, and the rows. *)
Record DataFrame : Type := {
  index : list string;
  columns : list string;
  rows : list (gmap string value)
}.

Definition cell (r : gmap string value) (c : string) : value :=
  default NaN (r !! c).

Definition len (df : DataFrame) : nat := length (rows df).

(** [pandas.DataFrame(columns=cols)] *)
Definition DataFrame_columns (cols : list string) : DataFrame :=
  {| index := []; columns := cols; rows := [] |}.

Definition add_label (cols : list string) (c : string) : list string :=
  if bool_decide (c ∈ cols) then cols else cols ++ [c].

(** [pandas.DataFrame(data=records)] for a list of dicts: the columns are
    the keys in order of first appearance, a missing key is NaN. *)
Definition DataFrame_data (data : list dict) : DataFrame :=
  let cols := foldl (λ acc d, foldl add_label acc (d.*1)) [] data in
  {| index := [];
     columns := cols;
     rows := (λ d, list_to_map ((λ c, (c, default NaN (dict_get d c))) <$> cols)) <$> data |}.

(** [df.replace(to_replace={col: {old: new}})] for strings. *)
Definition replace (df : DataFrame) (col old new : string) : DataFrame :=
  {| index := index df;
     columns := columns df;
     rows := (λ r, match r !! col with
                   | Some (PyStr s) => if bool_decide (s = old) then <[col := PyStr new]> r else r
                   | _ => r
                   end) <$> rows df |}.

(** [df[col]] *)
Definition getitem (df : DataFrame) (col : string) : res Series :=
  if bool_decide (col ∈ columns df) then Ok ((λ r, cell r col) <$> rows df)
  else Raise (KeyError col).

(** [df[col] = series] *)
Definition setitem (df : DataFrame) (col : string) (s : Series) : DataFrame :=
  {| index := index df;
     columns := add_label (columns df) col;
     rows := zip_with (λ r v, <[col := v]> r) (rows df) s |}.

(** [df[col] = scalar] *)
Definition setitem_scalar (df : DataFrame) (col : string) (v : value) : DataFrame :=
  {| index := index df;
     columns := add_label (columns df) col;
     rows := (λ r, <[col := v]> r) <$> rows df |}.

(** [df.loc[mask]] *)
Definition loc (df : DataFrame) (mask : list bool) : DataFrame :=
  {| index := index df;
     columns := columns df;
     rows := (filter (λ rb, rb.2 = true) (zip (rows df) mask)).*1 |}.

(** [df.loc[mask, col] = scalar] *)
Definition loc_set_scalar (df : DataFrame) (mask : list bool) (col : string) (v : value) : DataFrame :=
  {| index := index df;
     columns := add_label (columns df) col;
     rows := zip_with (λ r (b : bool), if b then <[col := v]> r else r) (rows df) mask |}.

(** [df.loc[mask, col] = series] *)
Definition loc_set (df : DataFrame) (mask : list bool) (col : string) (s : Series) : DataFrame :=
  {| index := index df;
     columns := add_label (columns df) col;
     rows := zip_with (λ r (bv : bool * value), if bv.1 then <[col := bv.2]> r else r)
               (rows df) (zip mask s) |}.

(** [df.head()] *)
Definition head (df : DataFrame) : DataFrame :=
  {| index := index df; columns := columns df; rows := take 5 (rows df) |}.

(** Numbers as floats; arithmetic on anything else is a [TypeError]. *)
Definition to_float (v : value) : res float :=
  match v with
  | PyInt z => Ok (float_of_Z z)
  | PyFloat f => Ok f
  | _ => Raise TypeError
  end.

(** [series * k], [series / k], [series > k] and [a < b], by element. *)
Definition mul (s : Series) (k : float) : res Series :=
  mapM (λ v, f ← to_float v; mret (PyFloat (f * k)%float)) s.

Definition div (s : Series) (k : float) : res Series :=
  mapM (λ v, f ← to_float v; mret (PyFloat (f / k)%float)) s.

Definition gt (s : Series) (k : float) : res (list bool) :=
  mapM (λ v, f ← to_float v; mret (k <? f)%float) s.

Definition lt (a b : Series) : res (list bool) :=
  mapM (λ vw : value * value, f ← to_float vw.1; g ← to_float vw.2; mret (f <? g)%float) (zip a b).

(** [v == k] for an integer literal [k]; anything that is not a number
    differs from it. *)
Definition eq_int (v : value) (k : Z) : bool :=
  match v with
  | PyInt z => (z =? k)%Z
  | PyFloat f => (f =? float_of_Z k)%float
  | _ => false
  end.

(** [series != k] *)
Definition ne (s : Series) (k : Z) : list bool := (λ v, negb (eq_int v k)) <$> s.

(** [series.map(f)] *)
Definition map (f : value → res value) (s : Series) : res Series := mapM f s.

(** [series.astype(float)], given Python's [float] on strings. *)
Definition astype_float (float_of_str : string → option float) (s : Series) : res Series :=
  mapM (λ v, match v with
             | PyNone => Ok NaN
             | PyStr t => match float_of_str t with
                          | Some f => Ok (PyFloat f)
                          | None => Raise ValueError
                          end
             | PyInt z => Ok (PyFloat (float_of_Z z))
             | PyFloat f => Ok (PyFloat f)
             | PyTimedelta _ => Raise TypeError
             end) s.

(** [df.fillna(value={col: v, ...})]: labels that are no column are skipped. *)
Definition fillna (df : DataFrame) (value : list (string * value)) : DataFrame :=
  foldl (λ df cv,
           if bool_decide (cv.1 ∈ columns df) then
             {| index := index df;
                columns := columns df;
                rows := (λ r, if isnull (cell r cv.1) then <[cv.1 := cv.2]> r else r) <$> rows df |}
           else df) df value.

(** Two join keys are the same key: equal strings, equal numbers, or
    both missing. *)
Definition key_eqb (a b : value) : bool :=
  match a, b with
  | PyStr x, PyStr y => bool_decide (x = y)
  | PyInt x, PyInt y => (x =? y)%Z
  | PyInt x, PyFloat y | PyFloat y, PyInt x => (float_of_Z x =? y)%float
  | PyFloat x, PyFloat y => (x =? y)%float || (is_nan x && is_nan y)
  | PyNone, PyNone => true
  | PyNone, PyFloat y | PyFloat y, PyNone => is_nan y
  | _, _ => false
  end.

Definition keys_match (on : list string) (l r : gmap string value) : bool :=
  forallb (λ k, key_eqb (cell l k) (cell r k)) on.

(** The columns, other than the keys, that both sides have: the result
    has them twice, with the suffixes [_x] and [_y]. *)
Definition overlap (left right : DataFrame) (on : list string) : list string :=
  filter (λ c, c ∈ columns right ∧ c ∉ on) (columns left).

Definition suffixed (both : list string) (sfx c : string) : string :=
  if bool_decide (c ∈ both) then c +:+ sfx else c.

Definition left_label (left right : DataFrame) (on : list string) (c : string) : string :=
  if bool_decide (c ∈ on) then c else suffixed (overlap left right on) "_x" c.

Definition right_label (left right : DataFrame) (on : list string) (c : string) : string :=
  if bool_decide (c ∈ on) then c else suffixed (overlap left right on) "_y" c.

(** One row of the result: the right row [r] beside the left row [l], or
    beside missing values when no left row has its key. *)
Definition join_rows (left right : DataFrame) (on : list string)
    (l : option (gmap string value)) (r : gmap string value) : gmap string value :=
  list_to_map
    (((λ c, (right_label left right on c, cell r c)) <$> columns right) ++
     ((λ c, (left_label left right on c, from_option (λ l, cell l c) NaN l)) <$>
        filter (λ c, c ∉ on) (columns left))).

(** The rows a right row contributes to a right join. *)
Definition merge_row (left right : DataFrame) (on : list string)
    (r : gmap string value) : list (gmap string value) :=
  match filter (λ l, keys_match on l r = true) (rows left) with
  | [] => [join_rows left right on None r]
  | ls => (λ l, join_rows left right on (Some l) r) <$> ls
  end.

(** [pandas.merge(left, right, how='right', on=on)]: the rows follow the
    right frame; a result with a repeated label is refused. *)
Definition merge_right (left right : DataFrame) (on : list string) : res DataFrame :=
  match filter (λ k, k ∉ columns right ∨ k ∉ columns left) on with
  | k :: _ => Raise (KeyError k)
  | [] =>
      let cols := (left_label left right on <$> columns left) ++
                  (right_label left right on <$> filter (λ c, c ∉ on) (columns right)) in
      if bool_decide (NoDup cols) then
        Ok {| index := []; columns := cols;
              rows := mjoin (merge_row left right on <$> rows right) |}
      else Raise MergeError
  end.

(** [df.drop(labels, axis=1)] *)
Definition drop (df : DataFrame) (labels : list string) : res DataFrame :=
  match filter (λ c, c ∉ columns df) labels with
  | c :: _ => Raise (KeyError c)
  | [] =>
      Ok {| index := index df;
            columns := filter (λ c, c ∉ labels) (columns df);
            rows := (λ r, foldr delete r labels) <$> rows df |}
  end.

(** [df.set_index(keys)] *)
Definition set_index (df : DataFrame) (keys : list string) : res DataFrame :=
  match filter (λ c, c ∉ columns df) keys with
  | c :: _ => Raise (KeyError c)
  | [] =>
      Ok {| index := keys;
            columns := filter (λ c, c ∉ keys) (columns df);
            rows := rows df |}
  end.

(** The index levels of row number [i], by name. *)
Definition index_key (df : DataFrame) (i : nat) (r : gmap string value) : list (string * value) :=
  match index df with
  | [] => [("level_0", PyInt (Z.of_nat i))]
  | ks => (λ k, (k, cell r k)) <$> ks
  end.

(** [df.stack().reset_index()]: one row per row and column whose cell is
    not missing; the level of the column labels has no name and becomes
    [level_n], the values get the label 0. *)
Definition stack_reset_index (df : DataFrame) : DataFrame :=
  let names := match index df with [] => ["level_0"] | ks => ks end in
  let level := "level_" +:+ pretty (length names) in
  {| index := [];
     columns := names ++ [level; "0"];
     rows := mjoin (imap (λ i r,
               omap (λ c, if isnull (cell r c) then None
                          else Some (list_to_map (index_key df i r ++
                                                  [(level, PyStr c); ("0", cell r c)])))
                    (columns df)) (rows df)) |}.

(** [df.rename(columns=mapping)] *)
Definition rename (df : DataFrame) (mapping : list (string * string)) : DataFrame :=
  let new c := default c ((λ ikv : nat * (string * string), ikv.2.2) <$>
                         list_find (λ kv, kv.1 = c) mapping) in
  {| index := index df;
     columns := new <$> columns df;
     rows := (λ r, list_to_map (((λ k, (k, cell r k)) <$> index df) ++
                                ((λ c, (new c, cell r c)) <$> columns df))) <$> rows df |}.

(** A delimited text file, as the table it holds. *)
Record csv : Type := { header : list string; records : list (list value) }.

(** What [df.to_csv(path, index=False)] writes. *)
Definition to_csv (df : DataFrame) : csv :=
  {| header := columns df;
     records := (λ r, cell r <$> columns df) <$> rows df |}.

(** What [pandas.read_csv(path)] makes of a file. *)
Definition of_csv (f : csv) : DataFrame :=
  {| index := [];
     columns := header f;
     rows := (λ rec, list_to_map (zip (header f) rec)) <$> records f |}.

End pandas.

(** ** The logger, the files and the store of frames *)

Inductive level : Type := DEBUG | INFO | WARN | FATAL.

(** A piece of a logged message: literal text, or the text pandas prints
    for a frame ([str(df)]) or for its column types ([str(df.dtypes)]). *)
Inductive piece : Type :=
| Text (s : string)
| Str (df : pandas.DataFrame)
| StrDtypes (df : pandas.DataFrame).

(** Frames are objects: a variable holds a reference into [heap], and an
    update in place is seen through every reference to the frame. *)
Record state : Type := {
  heap : list pandas.DataFrame;
  files : gmap string pandas.csv;
  FastTripsLogger : list (level * list piece)
}.

(** A statement runs in a state and returns or raises; what it logged,
    wrote and stored before raising stays. *)
Definition M (A : Type) : Type := state → res A * state.

#[export] Instance M_ret : MRet M := λ A a s, (Ok a, s).
#[export] Instance M_bind : MBind M := λ A B f m s,
  match m s with
  | (Ok a, s') => f a s'
  | (Raise e, s') => (Raise e, s')
  end.

Definition raise {A} (e : exn) : M A := λ s, (Raise e, s).

Definition lift {A} (r : res A) : M A := λ s, (r, s).

Definition assert_ (b : bool) : M unit :=
  if b then mret () else raise AssertionError.

Definition log (l : level) (msg : list piece) : M unit := λ s,
  (Ok (), {| heap := heap s; files := files s;
             FastTripsLogger := FastTripsLogger s ++ [(l, msg)] |}).

(** A new frame object. *)
Definition new (df : pandas.DataFrame) : M nat := λ s,
  (Ok (length (heap s)),
   {| heap := heap s ++ [df]; files := files s; FastTripsLogger := FastTripsLogger s |}).

Definition get (l : nat) : M pandas.DataFrame := λ s,
  match heap s !! l with
  | Some df => (Ok df, s)
  | None => (Raise ReferenceError, s)
  end.

Definition put (l : nat) (df : pandas.DataFrame) : M unit := λ s,
  (Ok (), {| heap := <[l := df]> (heap s); files := files s;
             FastTripsLogger := FastTripsLogger s |}).

(** An operation with [inplace=True] on the frame at [l]. *)
Definition inplace (l : nat) (f : pandas.DataFrame → res pandas.DataFrame) : M unit :=
  df ← get l; df' ← lift (f df); put l df'.

(** [pandas.read_csv(path)] *)
Definition read_csv (path : string) : M pandas.DataFrame := λ s,
  match files s !! path with
  | Some f => (Ok (pandas.of_csv f), s)
  | None => (Raise (IOError path), s)
  end.

(** The file at [path] is created or replaced. *)
Definition write_file (path : string) (f : pandas.csv) : M unit := λ s,
  (Ok (), {| heap := heap s; files := <[path := f]> (files s);
             FastTripsLogger := FastTripsLogger s |}).

(** [df.to_csv(path, index=False)] for the frame at [l]. *)
Definition to_csv (l : nat) (path : string) : M unit :=
  df ← get l; write_file path (pandas.to_csv df).

(** ** transitfeed: what the schedule hands over *)

Record gtfs_transfer : Type := {
  _FIELD_NAMES : list string;
  __dict__ : dict
}.

Record Schedule : Type := { GetTransferList : list gtfs_transfer }.

(** Modelled from the spec: the stop registry of fasttrips/Stop.py, which
    resolves one string stop id to an integer id or reports it not found. *)
Record Stop : Type := { stop_id_num : gmap string Z }.

(** Modelled from the spec: [Stop.add_numeric_stop_id] (fasttrips/Stop.py),
    which attaches the numeric ids of the column [id_colname] as the column
    [numeric_newcolname]. The relation is enriched in place: the column is
    attached to the frame given, and that frame is what is returned. An id
    that is not found gets no numeric id and, when asked to warn, a warning
    is logged. *)
Definition Stop_add_numeric_stop_id (stops : Stop) (input_df : nat)
    (id_colname numeric_newcolname : string) (warn : bool) (warn_msg : string) : M nat :=
  df ← get input_df;
  ids ← lift (pandas.getitem df id_colname);
  let nums := (λ v, match v with
                    | PyStr s => from_option PyInt NaN (stop_id_num stops !! s)
                    | _ => NaN
                    end) <$> ids in
  (if warn && existsb isnull nums then log WARN [Text warn_msg] else mret ());;
  put input_df (pandas.setitem df numeric_newcolname nums);;
  mret input_df.

(** ** class Transfer *)

Module Transfer.

Definition INPUT_TRANSFERS_FILE : string := "transfers_ft.txt".
Definition TRANSFERS_COLUMN_FROM_STOP : string := "from_stop_id".
Definition TRANSFERS_COLUMN_TO_STOP : string := "to_stop_id".
Definition TRANSFERS_COLUMN_TRANSFER_TYPE : string := "transfer_type".
Definition TRANSFERS_COLUMN_MIN_TRANSFER_TIME : string := "min_transfer_time".
Definition TRANSFERS_COLUMN_DISTANCE : string := "dist".
Definition TRANSFERS_COLUMN_FROM_ROUTE : string := "from_route_id".
Definition TRANSFERS_COLUMN_TO_ROUTE : string := "to_route_id".
Definition TRANSFERS_COLUMN_SCHEDULE_PRECEDENCE : string := "schedule_precedence".
Definition TRANSFERS_COLUMN_FROM_STOP_NUM : string := "from_stop_id_num".
Definition TRANSFERS_COLUMN_TO_STOP_NUM : string := "to_stop_id_num".
Definition TRANSFERS_COLUMN_MIN_TRANSFER_TIME_MIN : string := "min_transfer_time_min".
Definition WALK_SPEED_MILES_PER_HOUR : float := 3%float.
Definition TRANSFERS_COLUMN_TIME : string := "time".
Definition TRANSFERS_COLUMN_TIME_MIN : string := "time_min".
Definition TRANSFERS_COLUMN_PENALTY : string := "transfer_penalty".
Definition OUTPUT_TRANSFERS_FILE : string := "ft_intermediate_transfers.txt".

(** The attributes of an instance; [transfers_df] refers to a frame. *)
Record t : Type := { output_dir : string; transfers_df : nat }.

Section Constructor.

(** Python's [float] on a string, [None] where it raises. *)
Variable float_of_str : string → option float.

(** Lines 99-127: the GTFS transfers as one frame. *)
Definition gtfs_transfers_df (gtfs_schedule : Schedule) : res pandas.DataFrame :=
  let transfer_dicts :=
    (λ gtfs_transfer,
       foldl (λ transfer_dict fieldname,
                match dict_get (__dict__ gtfs_transfer) fieldname with
                | Some v => dict_set transfer_dict fieldname v
                | None => transfer_dict
                end) [] (_FIELD_NAMES gtfs_transfer))
      <$> GetTransferList gtfs_schedule in
  if bool_decide (length transfer_dicts > 0) then
    let transfers_df := pandas.DataFrame_data transfer_dicts in
    (* these are strings - empty string should mean 0 min transfer time *)
    let transfers_df :=
      pandas.replace transfers_df TRANSFERS_COLUMN_MIN_TRANSFER_TIME EmptyString "0" in
    (* make it numerical *)
    col ← pandas.getitem transfers_df TRANSFERS_COLUMN_MIN_TRANSFER_TIME;
    col ← pandas.astype_float float_of_str col;
    let transfers_df := pandas.setitem transfers_df TRANSFERS_COLUMN_MIN_TRANSFER_TIME col in
    (* make it zero if transfer_type != 2, since that's the only time it applies *)
    transfer_type ← pandas.getitem transfers_df TRANSFERS_COLUMN_TRANSFER_TYPE;
    mret (pandas.loc_set_scalar transfers_df (pandas.ne transfer_type 2)
            TRANSFERS_COLUMN_MIN_TRANSFER_TIME (PyInt 0))
  else
    mret (pandas.DataFrame_columns
            [TRANSFERS_COLUMN_FROM_STOP; TRANSFERS_COLUMN_FROM_STOP_NUM;
             TRANSFERS_COLUMN_TO_STOP; TRANSFERS_COLUMN_TO_STOP_NUM;
             TRANSFERS_COLUMN_TIME; TRANSFERS_COLUMN_TIME_MIN]).

(** Lines 129-139: the supplemental file, with its required columns. *)
Definition read_transfers_ft (input_dir : string) : M pandas.DataFrame :=
  transfers_ft_df ← read_csv (os_path_join input_dir INPUT_TRANSFERS_FILE);
  let transfer_ft_cols := pandas.columns transfers_ft_df in
  assert_ (bool_decide (TRANSFERS_COLUMN_FROM_STOP ∈ transfer_ft_cols));;
  assert_ (bool_decide (TRANSFERS_COLUMN_TO_STOP ∈ transfer_ft_cols));;
  assert_ (bool_decide (TRANSFERS_COLUMN_DISTANCE ∈ transfer_ft_cols));;
  assert_ (bool_decide (TRANSFERS_COLUMN_FROM_ROUTE ∈ transfer_ft_cols));;
  assert_ (bool_decide (TRANSFERS_COLUMN_TO_ROUTE ∈ transfer_ft_cols));;
  assert_ (bool_decide (TRANSFERS_COLUMN_SCHEDULE_PRECEDENCE ∈ transfer_ft_cols));;
  mret transfers_ft_df.

(** Lines 141-153: the join, with the supplemental file as the primary. *)
Definition join_transfers_ft (transfers_df transfers_ft_df : pandas.DataFrame)
    : res pandas.DataFrame :=
  if bool_decide (pandas.len transfers_ft_df > 0) then
    transfers_df ← pandas.merge_right transfers_df transfers_ft_df
                     [TRANSFERS_COLUMN_FROM_STOP; TRANSFERS_COLUMN_TO_STOP];
    (* fill in NAN *)
    mret (pandas.fillna transfers_df
            [(TRANSFERS_COLUMN_MIN_TRANSFER_TIME, PyInt 0);
             (TRANSFERS_COLUMN_TRANSFER_TYPE, PyInt 0)])
  else mret transfers_df.

(** Lines 161-186: the times in minutes, the sanity check and the floor. *)
Definition transfer_times (transfers_df : pandas.DataFrame) : M pandas.DataFrame :=
  if bool_decide (pandas.len transfers_df > 0) then
    col ← lift (pandas.getitem transfers_df TRANSFERS_COLUMN_MIN_TRANSFER_TIME);
    col ← lift (pandas.div col 60);
    let transfers_df := pandas.setitem transfers_df TRANSFERS_COLUMN_MIN_TRANSFER_TIME_MIN col in
    (* transfer time is based on distance *)
    col ← lift (pandas.getitem transfers_df TRANSFERS_COLUMN_DISTANCE);
    col ← lift (pandas.mul col 60);
    col ← lift (pandas.div col WALK_SPEED_MILES_PER_HOUR);
    let transfers_df := pandas.setitem transfers_df TRANSFERS_COLUMN_TIME_MIN col in
    (* Sanity check transfer times.  A 13 hour-long walk transfer is suspicious. *)
    time_min ← lift (pandas.getitem transfers_df TRANSFERS_COLUMN_TIME_MIN);
    mask ← lift (pandas.gt time_min 780);
    let too_long_transfers := pandas.loc transfers_df mask in
    (if bool_decide (pandas.len too_long_transfers > 0) then
       let error_msg :=
         "Found " +:+ pretty (pandas.len too_long_transfers) +:+
         " excessively long transfer links out of " +:+ pretty (pandas.len transfers_df) +:+
         " total transfer links. Expected distances are in miles. Unit problem?" in
       log FATAL [Text error_msg];;
       log FATAL [Text nl; Str (pandas.head too_long_transfers); Text nl];;
       raise (NetworkInputError INPUT_TRANSFERS_FILE error_msg)
     else mret ());;
    time_min ← lift (pandas.getitem transfers_df TRANSFERS_COLUMN_TIME_MIN);
    min_transfer_time_min ←
      lift (pandas.getitem transfers_df TRANSFERS_COLUMN_MIN_TRANSFER_TIME_MIN);
    mask ← lift (pandas.lt time_min min_transfer_time_min);
    let transfers_df :=
      pandas.loc_set transfers_df mask TRANSFERS_COLUMN_TIME_MIN min_transfer_time_min in
    (* convert time column from float to timedelta *)
    time_min ← lift (pandas.getitem transfers_df TRANSFERS_COLUMN_TIME_MIN);
    col ← lift (pandas.map timedelta time_min);
    mret (pandas.setitem transfers_df TRANSFERS_COLUMN_TIME col)
  else mret transfers_df.

(** The constructor. The frame it builds is referred to by nothing else
    until it returns, so each update in place is written as the next
    value of [transfers_df]; the finished frame becomes an object of the
    store. *)
Definition __init__ (input_dir output_dir : string) (gtfs_schedule : Schedule) : M t :=
  (* Combine all gtfs Transfer objects to a single pandas DataFrame *)
  transfers_df ← lift (gtfs_transfers_df gtfs_schedule);
  (* Read the fast-trips supplemental transfers data file *)
  transfers_ft_df ← read_transfers_ft input_dir;
  transfers_df ← lift (join_transfers_ft transfers_df transfers_ft_df);
  (* SPECIAL -- we rely on this in the extension *)
  let transfers_df :=
    pandas.setitem_scalar transfers_df TRANSFERS_COLUMN_PENALTY (PyFloat 1) in
  log DEBUG [Text ("=========== TRANSFERS ===========" +:+ nl);
             Str (pandas.head transfers_df)];;
  log DEBUG [Text nl; StrDtypes transfers_df];;
  transfers_df ← transfer_times transfers_df;
  log DEBUG [Text ("Final" +:+ nl); Str transfers_df];;
  log DEBUG [Text nl; StrDtypes transfers_df];;
  log INFO [Text ("Read " +:+ rjust 7 (pretty (pandas.len transfers_df)) +:+ " " +:+
                  rjust 15 "transfers" +:+ " from " +:+ rjust 25 "transfers.txt" +:+
                  ", " +:+ rjust 25 INPUT_TRANSFERS_FILE)];;
  self_transfers_df ← new transfers_df;
  mret {| output_dir := output_dir; transfers_df := self_transfers_df |}.

End Constructor.

(** This writes to an intermediate file a formatted file for the C++
    extension. *)
Definition write_transfers_for_extension (self : t) : M unit :=
  df ← get (transfers_df self);
  transfers_df ← new df;
  (* drop transfer_type==3 => that means no transfer possible *)
  df ← get transfers_df;
  transfer_type ← lift (pandas.getitem df TRANSFERS_COLUMN_TRANSFER_TYPE);
  transfers_df ← new (pandas.loc df (pandas.ne transfer_type 3));
  (* drop some of the attributes *)
  inplace transfers_df (λ df,
    pandas.drop df [TRANSFERS_COLUMN_TIME; TRANSFERS_COLUMN_FROM_STOP;
                    TRANSFERS_COLUMN_TO_STOP; TRANSFERS_COLUMN_MIN_TRANSFER_TIME;
                    TRANSFERS_COLUMN_SCHEDULE_PRECEDENCE; TRANSFERS_COLUMN_FROM_ROUTE;
                    TRANSFERS_COLUMN_TO_ROUTE]);;
  (* transfers time_min is really walk_time_min *)
  inplace transfers_df (λ df,
    time_min ← pandas.getitem df TRANSFERS_COLUMN_TIME_MIN;
    mret (pandas.setitem df "walk_time_min" time_min));;
  (* the index is from stop id num, to stop id num *)
  inplace transfers_df (λ df,
    pandas.set_index df [TRANSFERS_COLUMN_FROM_STOP_NUM; TRANSFERS_COLUMN_TO_STOP_NUM]);;
  (* the remaining columns collapse to variable name, variable value *)
  df ← get transfers_df;
  transfers_df ← new (pandas.stack_reset_index df);
  inplace transfers_df (λ df,
    mret (pandas.rename df [("level_2", "attr_name"); ("0", "attr_value")]));;
  to_csv transfers_df (os_path_join (output_dir self) OUTPUT_TRANSFERS_FILE);;
  log DEBUG [Text ("Wrote " +:+ os_path_join (output_dir self) OUTPUT_TRANSFERS_FILE)].

(** Stops are now equipped to add numeric ID (DAPs are in) so grab them *)
Definition add_numeric_stop_id (self : t) (stops : Stop) : M t :=
  df ← get (transfers_df self);
  (* Add the numeric stop ids to transfers *)
  if bool_decide (pandas.len df > 0) then
    df_num ← Stop_add_numeric_stop_id stops (transfers_df self)
               TRANSFERS_COLUMN_FROM_STOP TRANSFERS_COLUMN_FROM_STOP_NUM true
               "Numeric stop id not found for transfer from_stop_id";
    let self := {| output_dir := output_dir self; transfers_df := df_num |} in
    df_num ← Stop_add_numeric_stop_id stops (transfers_df self)
               TRANSFERS_COLUMN_TO_STOP TRANSFERS_COLUMN_TO_STOP_NUM true
               "Numeric stop id not found for transfer to_stop_id";
    let self := {| output_dir := output_dir self; transfers_df := df_num |} in
    (* We're ready to write it *)
    write_transfers_for_extension self;;
    mret self
  else mret self.

End Transfer.

(** * Vocabulary of the properties *)

Section Vocabulary.

Import Transfer.

(** Python's [float] on a string, [None] where it raises. *)
Variable float_of_str : string → option float.

(** A state whose store is [h] followed by the frames [ext] made since. *)
Definition st (h ext : list pandas.DataFrame) (fs : gmap string pandas.csv)
    (lg : list (level * list piece)) : state :=
  {| heap := h ++ ext; files := fs; FastTripsLogger := lg |}.

(** The number in a cell, and whether there is one. *)
Definition num (v : value) : float :=
  match v with
  | PyInt z => float_of_Z z
  | PyFloat f => f
  | _ => nan
  end.

Definition is_num (v : value) : Prop :=
  match v with
  | PyInt _ | PyFloat _ => True
  | _ => False
  end.

(** ** The export step *)

(** The frame [write_transfers_for_extension] hands to [to_csv], as a
    function of the frame [self.transfers_df] refers to. *)
Definition export_frame (df : pandas.DataFrame) : res pandas.DataFrame :=
  transfer_type ← pandas.getitem df TRANSFERS_COLUMN_TRANSFER_TYPE;
  df ← pandas.drop (pandas.loc df (pandas.ne transfer_type 3))
         [TRANSFERS_COLUMN_TIME; TRANSFERS_COLUMN_FROM_STOP;
          TRANSFERS_COLUMN_TO_STOP; TRANSFERS_COLUMN_MIN_TRANSFER_TIME;
          TRANSFERS_COLUMN_SCHEDULE_PRECEDENCE; TRANSFERS_COLUMN_FROM_ROUTE;
          TRANSFERS_COLUMN_TO_ROUTE];
  time_min ← pandas.getitem df TRANSFERS_COLUMN_TIME_MIN;
  df ← pandas.set_index (pandas.setitem df "walk_time_min" time_min)
         [TRANSFERS_COLUMN_FROM_STOP_NUM; TRANSFERS_COLUMN_TO_STOP_NUM];
  Ok (pandas.rename (pandas.stack_reset_index df)
        [("level_2", "attr_name"); ("0", "attr_value")]).

(** The file the export step writes. *)
Definition output_path (self : t) : string :=
  os_path_join (output_dir self) OUTPUT_TRANSFERS_FILE.

(** The value exported for the attribute [c] of the row [r]. *)
Definition exported_value (r : gmap string value) (c : string) : value :=
  if bool_decide (c = "walk_time_min") then pandas.cell r TRANSFERS_COLUMN_TIME_MIN
  else pandas.cell r c.

(** ** The constructor *)

(** Lines 163-164, 166-168, 180-182 and 184-186, for one row. *)
Definition with_min_transfer_time_min (r : gmap string value) : gmap string value :=
  <[TRANSFERS_COLUMN_MIN_TRANSFER_TIME_MIN :=
      PyFloat (num (pandas.cell r TRANSFERS_COLUMN_MIN_TRANSFER_TIME) / 60)]> r.

Definition with_time_min (r : gmap string value) : gmap string value :=
  <[TRANSFERS_COLUMN_TIME_MIN :=
      PyFloat (num (pandas.cell r TRANSFERS_COLUMN_DISTANCE) * 60 / WALK_SPEED_MILES_PER_HOUR)]> r.

Definition with_floor (r : gmap string value) : gmap string value :=
  if (num (pandas.cell r TRANSFERS_COLUMN_TIME_MIN) <?
      num (pandas.cell r TRANSFERS_COLUMN_MIN_TRANSFER_TIME_MIN))%float
  then <[TRANSFERS_COLUMN_TIME_MIN := pandas.cell r TRANSFERS_COLUMN_MIN_TRANSFER_TIME_MIN]> r
  else r.

Definition with_time (r : gmap string value) : gmap string value :=
  <[TRANSFERS_COLUMN_TIME := PyTimedelta (num (pandas.cell r TRANSFERS_COLUMN_TIME_MIN))]> r.

(** The rows whose walk time is over 780 minutes. *)
Definition too_long (r : gmap string value) : Prop :=
  (780 <? num (pandas.cell r TRANSFERS_COLUMN_TIME_MIN))%float = true.

(** The frame after lines 163-168: both columns of minutes are there. *)
Definition with_minutes (df : pandas.DataFrame) : pandas.DataFrame :=
  {| pandas.index := pandas.index df;
     pandas.columns :=
       pandas.add_label (pandas.add_label (pandas.columns df)
                           TRANSFERS_COLUMN_MIN_TRANSFER_TIME_MIN) TRANSFERS_COLUMN_TIME_MIN;
     pandas.rows := with_time_min <$> (with_min_transfer_time_min <$> pandas.rows df) |}.

(** The message of the sanity check. *)
Definition too_long_msg (df : pandas.DataFrame) : string :=
  "Found " +:+ pretty (length (filter too_long (pandas.rows df))) +:+
  " excessively long transfer links out of " +:+ pretty (pandas.len df) +:+
  " total transfer links. Expected distances are in miles. Unit problem?".

(** The frame after the floor of lines 180-182. *)
Definition floored (df : pandas.DataFrame) : pandas.DataFrame :=
  {| pandas.index := pandas.index df;
     pandas.columns := pandas.add_label (pandas.columns (with_minutes df)) TRANSFERS_COLUMN_TIME_MIN;
     pandas.rows := with_floor <$> pandas.rows (with_minutes df) |}.

(** The times in minutes can be computed: the two columns are there and
    hold numbers. *)
Definition has_minutes (df : pandas.DataFrame) : Prop :=
  TRANSFERS_COLUMN_MIN_TRANSFER_TIME ∈ pandas.columns df ∧
  TRANSFERS_COLUMN_DISTANCE ∈ pandas.columns df ∧
  Forall (λ r, is_num (pandas.cell r TRANSFERS_COLUMN_MIN_TRANSFER_TIME)) (pandas.rows df) ∧
  Forall (λ r, is_num (pandas.cell r TRANSFERS_COLUMN_DISTANCE)) (pandas.rows df).

(** What the sanity check logs before it raises. *)
Definition sanity_check_log (df : pandas.DataFrame) : list (level * list piece) :=
  [(FATAL, [Text (too_long_msg (with_minutes df))]);
   (FATAL, [Text nl;
            Str (pandas.head {| pandas.index := pandas.index df;
                                 pandas.columns := pandas.columns (with_minutes df);
                                 pandas.rows := filter too_long (pandas.rows (with_minutes df)) |});
            Text nl])].

(** The frame lines 97-156 build, before the times are derived: the GTFS
    transfers joined to the supplemental file, with the penalty. Reading the
    file does not change the state. *)
Definition loaded_df (input_dir : string) (gtfs_schedule : Schedule) (s : state)
    : res pandas.DataFrame :=
  transfers_df ← gtfs_transfers_df float_of_str gtfs_schedule;
  transfers_ft_df ← (read_transfers_ft input_dir s).1;
  transfers_df ← join_transfers_ft transfers_df transfers_ft_df;
  Ok (pandas.setitem_scalar transfers_df TRANSFERS_COLUMN_PENALTY (PyFloat 1)).

(** What the constructor logs before and after the times are derived. *)
Definition loaded_log (df : pandas.DataFrame) : list (level * list piece) :=
  [(DEBUG, [Text ("=========== TRANSFERS ===========" +:+ nl); Str (pandas.head df)]);
   (DEBUG, [Text nl; StrDtypes df])].

Definition final_log (df : pandas.DataFrame) : list (level * list piece) :=
  [(DEBUG, [Text ("Final" +:+ nl); Str df]);
   (DEBUG, [Text nl; StrDtypes df]);
   (INFO, [Text ("Read " +:+ rjust 7 (pretty (pandas.len df)) +:+ " " +:+
                 rjust 15 "transfers" +:+ " from " +:+ rjust 25 "transfers.txt" +:+
                 ", " +:+ rjust 25 INPUT_TRANSFERS_FILE)])].

Definition logged (s : state) (lg : list (level * list piece)) : state :=
  {| heap := heap s; files := files s; FastTripsLogger := FastTripsLogger s ++ lg |}.

(** The columns the supplemental file must have. *)
Definition required_columns : list string :=
  [TRANSFERS_COLUMN_FROM_STOP; TRANSFERS_COLUMN_TO_STOP; TRANSFERS_COLUMN_DISTANCE;
   TRANSFERS_COLUMN_FROM_ROUTE; TRANSFERS_COLUMN_TO_ROUTE;
   TRANSFERS_COLUMN_SCHEDULE_PRECEDENCE].

(** The derived and floored times of a row [r] of the joined frame. *)
Definition min_transfer_time_min_of (r : gmap string value) : float :=
  (num (pandas.cell r TRANSFERS_COLUMN_MIN_TRANSFER_TIME) / 60)%float.

Definition walk_time_of (r : gmap string value) : float :=
  (num (pandas.cell r TRANSFERS_COLUMN_DISTANCE) * 60 / WALK_SPEED_MILES_PER_HOUR)%float.

Definition floored_time_of (r : gmap string value) : float :=
  if (walk_time_of r <? min_transfer_time_min_of r)%float
  then min_transfer_time_min_of r else walk_time_of r.

Definition final_row (r : gmap string value) : gmap string value :=
  with_time (with_floor (with_time_min (with_min_transfer_time_min r))).

(** What [fillna] of lines 151-153 makes of a cell under [label]: 0 where
    a [min_transfer_time] or a [transfer_type] is missing. *)
Definition filled (label : string) (v : value) : value :=
  if (bool_decide (label = TRANSFERS_COLUMN_MIN_TRANSFER_TIME) ||
      bool_decide (label = TRANSFERS_COLUMN_TRANSFER_TYPE)) && isnull v
  then PyInt 0 else v.

Definition fill_one (label : string) (r : gmap string value) : gmap string value :=
  if isnull (pandas.cell r label) then <[label := PyInt 0]> r else r.

(** ** The join *)

(** The base-feed rows with the key of the supplemental row [r]. *)
Definition matching (base : pandas.DataFrame) (r : gmap string value) : list (gmap string value) :=
  filter (λ l, pandas.keys_match [TRANSFERS_COLUMN_FROM_STOP; TRANSFERS_COLUMN_TO_STOP] l r = true)
         (pandas.rows base).

(** The row [o] of the joined relation holds the supplemental row [r], with
    0 for a missing [min_transfer_time] or [transfer_type]. *)
Definition holds_supplemental (base ft : pandas.DataFrame) (o r : gmap string value) : Prop :=
  ∀ c, c ∈ pandas.columns ft →
    let label := pandas.right_label base ft [TRANSFERS_COLUMN_FROM_STOP; TRANSFERS_COLUMN_TO_STOP] c in
    pandas.cell o label = filled label (pandas.cell r c).

(** The row [o] of the joined relation holds, beside the keys, the
    base-feed row [l], or missing values when there is none. *)
Definition holds_base (base ft : pandas.DataFrame) (o : gmap string value)
    (l : option (gmap string value)) : Prop :=
  ∀ c, c ∈ pandas.columns base →
    c ∉ [TRANSFERS_COLUMN_FROM_STOP; TRANSFERS_COLUMN_TO_STOP] →
    let label := pandas.left_label base ft [TRANSFERS_COLUMN_FROM_STOP; TRANSFERS_COLUMN_TO_STOP] c in
    pandas.cell o label = filled label (from_option (λ l, pandas.cell l c) NaN l).

(** ** The exported table *)

(** The attributes the export step drops (lines 243-250). *)
Definition dropped_columns : list string :=
  [TRANSFERS_COLUMN_TIME; TRANSFERS_COLUMN_FROM_STOP; TRANSFERS_COLUMN_TO_STOP;
   TRANSFERS_COLUMN_MIN_TRANSFER_TIME; TRANSFERS_COLUMN_SCHEDULE_PRECEDENCE;
   TRANSFERS_COLUMN_FROM_ROUTE; TRANSFERS_COLUMN_TO_ROUTE].

(** The columns the export step reads, drops or makes the index. *)
Definition export_columns : list string :=
  TRANSFERS_COLUMN_TRANSFER_TYPE :: dropped_columns ++
  [TRANSFERS_COLUMN_TIME_MIN; TRANSFERS_COLUMN_FROM_STOP_NUM; TRANSFERS_COLUMN_TO_STOP_NUM].

(** The attributes written for a row: the columns that are kept, with
    [walk_time_min], without the two numeric stop ids of the index. *)
Definition exported_attributes (df : pandas.DataFrame) : list string :=
  filter (λ c, c ∉ [TRANSFERS_COLUMN_FROM_STOP_NUM; TRANSFERS_COLUMN_TO_STOP_NUM])
    (pandas.add_label (filter (λ c, c ∉ dropped_columns) (pandas.columns df)) "walk_time_min").

(** The record written for the attribute [c] of the row [r], if its value
    is not missing. *)
Definition exported_record (r : gmap string value) (c : string) : option (list value) :=
  if isnull (exported_value r c) then None
  else Some [pandas.cell r TRANSFERS_COLUMN_FROM_STOP_NUM;
             pandas.cell r TRANSFERS_COLUMN_TO_STOP_NUM; PyStr c; exported_value r c].

Definition exported_records (df : pandas.DataFrame) : list (list value) :=
  mjoin ((λ r, omap (exported_record r) (exported_attributes df)) <$>
         filter (λ r, pandas.eq_int (pandas.cell r TRANSFERS_COLUMN_TRANSFER_TYPE) 3 = false)
                (pandas.rows df)).

Definition exported_table (df : pandas.DataFrame) : pandas.csv :=
  {| pandas.header := [TRANSFERS_COLUMN_FROM_STOP_NUM; TRANSFERS_COLUMN_TO_STOP_NUM;
                       "attr_name"; "attr_value"];
     pandas.records := exported_records df |}.

(** ** Loads at the edges *)

(** A statement that may log and raise but leaves the store of frames and
    the files alone. *)
Definition keeps_store {A} (m : M A) : Prop :=
  ∀ s, heap (m s).2 = heap s ∧ files (m s).2 = files s.

(** The relation of a feed without transfers (lines 122-127 and 156). *)
Definition empty_relation : pandas.DataFrame :=
  {| pandas.index := [];
     pandas.columns := [TRANSFERS_COLUMN_FROM_STOP; TRANSFERS_COLUMN_FROM_STOP_NUM;
                        TRANSFERS_COLUMN_TO_STOP; TRANSFERS_COLUMN_TO_STOP_NUM;
                        TRANSFERS_COLUMN_TIME; TRANSFERS_COLUMN_TIME_MIN;
                        TRANSFERS_COLUMN_PENALTY];
     pandas.rows := [] |}.

(** The exceptions pandas and [datetime] raise, as opposed to those the
    class raises itself. *)
Definition raised_by_pandas (e : exn) : Prop :=
  match e with
  | KeyError _ | ValueError | TypeError | OverflowError | MergeError => True
  | _ => False
  end.

End Vocabulary.

(** ** Example inputs *)

Section ExampleData.

Import Transfer.

(** Python's [float] on the only text the examples could need. *)
Definition example_float (s : string) : option float :=
  if bool_decide (s = "0") then Some 0%float else None.

Definition example_transfer (from_stop to_stop : string) (transfer_type min_transfer_time : value)
    : gtfs_transfer :=
  {| _FIELD_NAMES := ["from_stop_id"; "to_stop_id"; "transfer_type"; "min_transfer_time"];
     __dict__ := [("from_stop_id", PyStr from_stop); ("to_stop_id", PyStr to_stop);
                  ("transfer_type", transfer_type); ("min_transfer_time", min_transfer_time)] |}.

(** A [transfers_ft.txt] with the required columns; a record is a from
    stop, a to stop and a distance. *)
Definition example_ft (links : list (string * string * float)) : pandas.csv :=
  {| pandas.header := ["from_stop_id"; "to_stop_id"; "dist"; "from_route_id"; "to_route_id";
                       "schedule_precedence"];
     pandas.records := (λ l : string * string * float,
                          [PyStr l.1.1; PyStr l.1.2; PyFloat l.2; NaN; NaN; NaN]) <$> links |}.

Definition on_disk (f : pandas.csv) : state :=
  {| heap := []; files := {[ "in/transfers_ft.txt" := f ]}; FastTripsLogger := [] |}.

(** The frame a load leaves in [self.transfers_df], when it finishes. *)
Definition loaded_frame (run : res t * state) : option pandas.DataFrame :=
  match run.1 with
  | Ok self => heap run.2 !! transfers_df self
  | Raise _ => None
  end.

Definition column (c : string) (df : pandas.DataFrame) : list value :=
  (λ r, pandas.cell r c) <$> pandas.rows df.

(** One GTFS transfer A to B and one supplemental row for it, 1000 miles
    long. *)
Definition long_walk : res t * state :=
  __init__ example_float "in" "out"
    {| GetTransferList := [example_transfer "A" "B" (PyInt 0) (PyInt 0)] |}
    (on_disk (example_ft [("A", "B", 1000%float)])).

(** Six supplemental rows of 1000 miles. *)
Definition six_long_walks : res t * state :=
  __init__ example_float "in" "out"
    {| GetTransferList := [example_transfer "A1" "B" (PyInt 0) (PyInt 0)] |}
    (on_disk (example_ft [("A1", "B", 1000%float); ("A2", "B", 1000%float);
                          ("A3", "B", 1000%float); ("A4", "B", 1000%float);
                          ("A5", "B", 1000%float); ("A6", "B", 1000%float)])).

(** A minimum-time transfer of 60000 seconds over half a mile. *)
Definition slow_transfer : res t * state :=
  __init__ example_float "in" "out"
    {| GetTransferList := [example_transfer "A" "B" (PyInt 2) (PyInt 60000)] |}
    (on_disk (example_ft [("A", "B", 0.5%float)])).

(** No GTFS transfer, and a supplemental file that brings a transfer type
    and a minimum transfer time of its own. *)
Definition supplemental_min_transfer_time : res t * state :=
  __init__ example_float "in" "out" {| GetTransferList := [] |}
    (on_disk {| pandas.header := ["from_stop_id"; "to_stop_id"; "dist"; "from_route_id";
                                  "to_route_id"; "schedule_precedence"; "transfer_type";
                                  "min_transfer_time"];
                pandas.records := [[PyStr "A"; PyStr "B"; PyFloat 0.5; NaN; NaN; NaN;
                                    PyInt 0; PyInt 300]] |}).

(** A supplemental file without the column [dist]. *)
Definition ft_without_dist : pandas.csv :=
  {| pandas.header := ["from_stop_id"; "to_stop_id"; "from_route_id"; "to_route_id";
                       "schedule_precedence"];
     pandas.records := [[PyStr "A"; PyStr "B"; NaN; NaN; NaN]] |}.

Definition no_dist : res t * state :=
  __init__ example_float "in" "out"
    {| GetTransferList := [example_transfer "A" "B" (PyInt 0) (PyInt 0)] |}
    (on_disk ft_without_dist).

Definition from_Ok {A} (d : A) (r : res A) : A :=
  match r with
  | Ok a => a
  | Raise _ => d
  end.

Definition long_walk_loaded : pandas.DataFrame :=
  from_Ok (pandas.DataFrame_columns [])
    (loaded_df example_float "in"
       {| GetTransferList := [example_transfer "A" "B" (PyInt 0) (PyInt 0)] |}
       (on_disk (example_ft [("A", "B", 1000%float)]))).

(** Two GTFS transfers from A to B, as the frame of lines 99-127. *)
Definition two_transfers_A_B : pandas.DataFrame :=
  from_Ok (pandas.DataFrame_columns [])
    (gtfs_transfers_df example_float
       {| GetTransferList := [example_transfer "A" "B" (PyInt 0) (PyInt 0);
                              example_transfer "A" "B" (PyInt 2) (PyInt 120)] |}).

(** A loaded and resolved relation: A to B, and A to C which is not
    possible. *)
Definition resolved_frame : pandas.DataFrame :=
  pandas.of_csv
    {| pandas.header := ["from_stop_id"; "to_stop_id"; "transfer_type"; "min_transfer_time";
                         "dist"; "from_route_id"; "to_route_id"; "schedule_precedence";
                         "transfer_penalty"; "min_transfer_time_min"; "time_min"; "time";
                         "from_stop_id_num"; "to_stop_id_num"];
       pandas.records :=
         [[PyStr "A"; PyStr "B"; PyInt 0; PyInt 0; PyFloat 0.5; NaN; NaN; NaN; PyFloat 1;
           PyFloat 0; PyFloat 10; PyTimedelta 10; PyInt 1; PyInt 2];
          [PyStr "A"; PyStr "C"; PyInt 3; PyInt 0; PyFloat 0.25; NaN; NaN; NaN; PyFloat 1;
           PyFloat 0; PyFloat 5; PyTimedelta 5; PyInt 1; PyInt 3]] |}.

Definition store_of (df : pandas.DataFrame) : state :=
  {| heap := [df]; files := ∅; FastTripsLogger := [] |}.

Definition example_self : t := {| output_dir := "out"; transfers_df := 0 |}.

(** A state with no file and no frame. *)
Definition nothing_on_disk : state := {| heap := []; files := ∅; FastTripsLogger := [] |}.

Definition first_row (df : pandas.DataFrame) : gmap string value :=
  default ∅ (pandas.rows df !! 0).

Definition two_transfers : Schedule :=
  {| GetTransferList := [example_transfer "A" "B" (PyInt 0) (PyInt 0);
                         example_transfer "A" "B" (PyInt 2) (PyInt 120)] |}.

(** One GTFS transfer of type 2 whose [min_transfer_time] is a text. *)
Definition transfer_with_min_transfer_time (min_transfer_time : string) : Schedule :=
  {| GetTransferList := [example_transfer "A" "B" (PyInt 2) (PyStr min_transfer_time)] |}.

Definition one_slow_transfer : Schedule :=
  {| GetTransferList := [example_transfer "A" "B" (PyInt 2) (PyInt 60000)] |}.

(** The state the export of the resolved relation leaves. *)
Definition exported : state :=
  (write_transfers_for_extension example_self (store_of resolved_frame)).2.

(** A GTFS transfer of type 0 that comes with a minimum transfer time. *)
Definition type_0_transfer : res t * state :=
  __init__ example_float "in" "out"
    {| GetTransferList := [example_transfer "A" "B" (PyInt 0) (PyInt 120)] |}
    (on_disk (example_ft [("A", "B", 0.5%float)])).

Definition type_0_loaded : pandas.DataFrame :=
  default (pandas.DataFrame_columns []) (loaded_frame type_0_transfer).

(** No GTFS transfer, and a supplemental row of 1000 miles in a file
    without a [min_transfer_time] column. *)
Definition long_walk_without_min_transfer_time : res t * state :=
  __init__ example_float "in" "out" {| GetTransferList := [] |}
    (on_disk (example_ft [("A", "B", 1000%float)])).

(** A supplemental row without a distance. *)
Definition no_distance : state := on_disk (example_ft [("A", "B", nan)]).

Definition no_distance_loaded : pandas.DataFrame :=
  from_Ok (pandas.DataFrame_columns [])
    (loaded_df example_float "in" one_slow_transfer no_distance).

End ExampleData.

(** * Properties *)

(** ** Binary64 comparisons and missing values *)

Section FloatFacts.

Lemma SFcompare_refl (x : spec_float) :
  x ≠ S754_nan → SFcompare x x = Some Eq.
Proof.
  destruct x as [s|s| |s m e]; try done; intros _; simpl.
  - by destruct s.
  - rewrite Z.compare_refl, Pos.compare_cont_refl. by destruct s.
Qed.

Lemma SFcompare_antisym (x y : spec_float) :
  SFcompare y x = CompOpp <$> SFcompare x y.
Proof.
  destruct x as [s|s| |s m e], y as [s'|s'| |s' m' e']; simpl; try done;
    try (by destruct s); try (by destruct s'); try (by destruct s, s').
  rewrite (Z.compare_antisym e e').
  destruct s, s'; simpl; try done; destruct (e ?= e')%Z; simpl; try done;
    by rewrite ?CompOpp_involutive, ?Pos.compare_cont_antisym.
Qed.

Lemma SFcompare_is_Some (x y : spec_float) :
  x ≠ S754_nan → y ≠ S754_nan → is_Some (SFcompare x y).
Proof. destruct x, y; simpl; try done; intros _ _; eauto. Qed.

Lemma is_nan_spec (x : float) : is_nan x = true ↔ Prim2SF x = S754_nan.
Proof.
  unfold is_nan. rewrite FloatAxioms.eqb_spec. unfold SFeqb.
  destruct (Prim2SF x) eqn:E; try (by rewrite SFcompare_refl).
  simpl. done.
Qed.

Lemma is_nan_false (x : float) : is_nan x = false ↔ Prim2SF x ≠ S754_nan.
Proof. rewrite <- is_nan_spec. by destruct (is_nan x). Qed.

Lemma ltb_true_not_nan (x y : float) :
  (x <? y)%float = true → is_nan x = false ∧ is_nan y = false.
Proof.
  rewrite FloatAxioms.ltb_spec, !is_nan_false. unfold SFltb.
  destruct (Prim2SF x), (Prim2SF y); simpl; try done.
Qed.

Lemma leb_refl (x : float) : is_nan x = false → (x <=? x)%float = true.
Proof.
  rewrite FloatAxioms.leb_spec, is_nan_false. intros E. unfold SFleb.
  by rewrite SFcompare_refl.
Qed.

Lemma ltb_false_leb (x y : float) :
  is_nan x = false → is_nan y = false →
  (x <? y)%float = false → (y <=? x)%float = true.
Proof.
  rewrite FloatAxioms.ltb_spec, FloatAxioms.leb_spec, !is_nan_false. unfold SFltb, SFleb.
  intros Hx Hy. rewrite (SFcompare_antisym (Prim2SF x) (Prim2SF y)).
  destruct (SFcompare_is_Some _ _ Hx Hy) as [c ->]. by destruct c.
Qed.

(** Rounding a non-negative mantissa never invents a NaN. *)
Lemma iter_pos_inv {A} (P : A → Prop) (f : A → A) (n : positive) (a : A) :
  (∀ a, P a → P (f a)) → P a → P (SpecFloat.iter_pos f n a).
Proof.
  intros Hf. revert a. induction n as [n IH|n IH|]; simpl; intros a Ha; auto.
Qed.

Lemma shr_1_nonneg mrs : (0 ≤ shr_m mrs)%Z → (0 ≤ shr_m (shr_1 mrs))%Z.
Proof.
  destruct mrs as [m r s]; simpl.
  destruct m as [|[p|p|]|[p|p|]]; simpl; lia.
Qed.

Lemma shr_fexp_nonneg m e l :
  (0 ≤ m)%Z → (0 ≤ shr_m (shr_fexp prec emax m e l).1)%Z.
Proof.
  intros Hm. unfold shr_fexp, shr.
  assert (0 ≤ shr_m (shr_record_of_loc m l))%Z as H0.
  { destruct l as [|[]]; simpl; done. }
  destruct (fexp prec emax (Zdigits2 m + e) - e)%Z; simpl; try done.
  by apply (iter_pos_inv (λ mrs, (0 ≤ shr_m mrs)%Z)); [apply shr_1_nonneg|].
Qed.

Lemma round_nearest_even_nonneg m l :
  (0 ≤ m)%Z → (0 ≤ round_nearest_even m l)%Z.
Proof.
  intros Hm. destruct l as [|[]]; simpl; try done; [destruct (Z.even m)|]; lia.
Qed.

Lemma binary_round_aux_not_nan sx mx ex lx :
  (0 ≤ mx)%Z → binary_round_aux prec emax sx mx ex lx ≠ S754_nan.
Proof.
  intros Hm. unfold binary_round_aux.
  pose proof (shr_fexp_nonneg mx ex lx Hm) as H1.
  destruct (shr_fexp prec emax mx ex lx) as [mrs' e']. simpl in H1.
  pose proof (shr_fexp_nonneg _ e' loc_Exact
                (round_nearest_even_nonneg _ (loc_of_shr_record mrs') H1)) as H2.
  destruct (shr_fexp prec emax _ e' loc_Exact) as [mrs'' e'']. simpl in H2.
  destruct (shr_m mrs''); try done; try lia. by destruct (_ <=? _)%Z.
Qed.

Lemma div_not_nan (x k : float) sk mk ek :
  Prim2SF k = S754_finite sk mk ek →
  is_nan x = false → is_nan (x / k) = false.
Proof.
  intros Hk. rewrite !is_nan_false, FloatAxioms.div_spec, Hk. unfold SF64div, SFdiv.
  destruct (Prim2SF x) as [s|s| |s m e]; try done. intros _.
  unfold SFdiv_core_binary.
  match goal with |- context [Z.div_eucl ?a ?b] =>
    pose proof (Z.div_eucl_eq a b ltac:(done)) as Hq;
    pose proof (Z.mod_pos_bound a b ltac:(done)) as Hr;
    assert (0 ≤ a)%Z as Ha;
    [| unfold Z.modulo in Hr; destruct (Z.div_eucl a b) as [q r] ]
  end.
  { match goal with |- context [match ?z with Z0 => _ | Zpos _ => _ | Zneg _ => _ end] =>
      destruct z eqn:Ez end; try done. apply Z.shiftl_nonneg. done. }
  apply binary_round_aux_not_nan. nia.
Qed.

Lemma float_of_Z_not_nan (z : Z) : is_nan (float_of_Z z) = false.
Proof.
  assert (∀ n, Prim2SF (of_uint63 n) ≠ S754_nan) as H.
  { intros n. rewrite FloatAxioms.of_uint63_spec. unfold binary_normalize.
    destruct (Uint63Axioms.to_Z n) eqn:E; try done.
    - unfold binary_round. destruct (shl_align _ _ _) as [mz ez].
      by apply binary_round_aux_not_nan.
    - pose proof (Uint63.to_Z_bounded n). unfold Uint63.to_Z in *. lia. }
  rewrite is_nan_false. destruct z; simpl; [done | apply H |].
  rewrite FloatAxioms.opp_spec. specialize (H (of_Z (Z.pos p))).
  by destruct (Prim2SF _).
Qed.

End FloatFacts.

(** ** Running statements against the store *)

Section Run.

Lemma st_intro (s : state) : s = st (heap s) [] (files s) (FastTripsLogger s).
Proof. destruct s; unfold st; simpl. by rewrite app_nil_r. Qed.

Context {A : Type} (k : nat → M A) (ku : unit → M A) (kd : pandas.DataFrame → M A).
Context (h ext : list pandas.DataFrame) (fs : gmap string pandas.csv)
        (lg : list (level * list piece)).

Lemma run_new df :
  (new df ≫= k) (st h ext fs lg) = k (length h + length ext) (st h (ext ++ [df]) fs lg).
Proof. unfold mbind, M_bind, new, st; simpl. by rewrite length_app, app_assoc. Qed.

Lemma run_get_old l df :
  h !! l = Some df → (get l ≫= kd) (st h ext fs lg) = kd df (st h ext fs lg).
Proof.
  intros H. unfold mbind, M_bind, get, st; simpl.
  by rewrite (lookup_app_l_Some _ _ _ _ H).
Qed.

Lemma run_get_ext i df :
  ext !! i = Some df → (get (length h + i) ≫= kd) (st h ext fs lg) = kd df (st h ext fs lg).
Proof.
  intros H. unfold mbind, M_bind, get, st; simpl.
  by rewrite lookup_app_r, Nat.add_comm, Nat.add_sub, H by lia.
Qed.

Lemma run_inplace_ext i f df :
  ext !! i = Some df →
  (inplace (length h + i) f ≫= ku) (st h ext fs lg) =
  match f df with
  | Ok df' => ku () (st h (<[i := df']> ext) fs lg)
  | Raise e => (Raise e, st h ext fs lg)
  end.
Proof.
  intros H. unfold inplace, mbind at 1 2 3, M_bind, get, lift, put, st; simpl.
  rewrite lookup_app_r, Nat.add_comm, Nat.add_sub, H by lia.
  destruct (f df); [|done]. simpl. by rewrite Nat.add_comm, insert_app_r.
Qed.

Lemma run_lift {B} (r : res B) (kb : B → M A) s :
  (lift r ≫= kb) s = match r with Ok b => kb b s | Raise e => (Raise e, s) end.
Proof. unfold mbind, M_bind, lift. by destruct r. Qed.

Lemma run_ret {B} (b : B) (kb : B → M A) s : (mret b ≫= kb) s = kb b s.
Proof. done. Qed.

Lemma run_assert (b : bool) s :
  (assert_ b ≫= ku) s = if b then ku () s else (Raise AssertionError, s).
Proof. by destruct b. Qed.

Lemma run_log l msg :
  (log l msg ≫= ku) (st h ext fs lg) = ku () (st h ext fs (lg ++ [(l, msg)])).
Proof. done. Qed.

Lemma run_write_file path f :
  (write_file path f ≫= ku) (st h ext fs lg) = ku () (st h ext (<[path := f]> fs) lg).
Proof. done. Qed.

End Run.

(** ** Columns and rows *)

Section Frames.

Lemma zip_with_fmap_same {A B C} (f : A → B → C) (g : A → B) (l : list A) :
  zip_with f l (g <$> l) = (λ x, f x (g x)) <$> l.
Proof. induction l as [|x l IH]; csimpl; [done | by rewrite IH]. Qed.

Lemma getitem_Ok df col s :
  pandas.getitem df col = Ok s →
  col ∈ pandas.columns df ∧ s = (λ r, pandas.cell r col) <$> pandas.rows df.
Proof. unfold pandas.getitem. case_bool_decide; [|done]. by intros [= <-]. Qed.

Lemma filter_zip_fmap {A} (f : A → bool) (l : list A) :
  (filter (λ rb : A * bool, rb.2 = true) (zip l (f <$> l))).*1 =
  filter (λ x, f x = true) l.
Proof.
  induction l as [|x l IH]; [done|]. rewrite fmap_cons.
  change (zip (x :: l) (f x :: (f <$> l))) with ((x, f x) :: zip l (f <$> l)).
  rewrite !filter_cons. simpl.
  destruct (f x); repeat case_decide; try done. by rewrite fmap_cons, IH.
Qed.

Lemma loc_ne_rows (l : list (gmap string value)) col k :
  (filter (λ rb : gmap string value * bool, rb.2 = true)
     (zip l (pandas.ne ((λ r, pandas.cell r col) <$> l) k))).*1 =
  filter (λ r, pandas.eq_int (pandas.cell r col) k = false) l.
Proof.
  unfold pandas.ne.
  rewrite <- list_fmap_compose, filter_zip_fmap.
  apply list_filter_iff. intros r. simpl. by destruct (pandas.eq_int _ _).
Qed.

Lemma bind_Ok {A B} (m : res A) (f : A → res B) (b : B) :
  m ≫= f = Ok b → ∃ a, m = Ok a ∧ f a = Ok b.
Proof. destruct m as [a|e]; [by exists a | done]. Qed.

Lemma bind_Raise {A B} (m : res A) (f : A → res B) (e : exn) :
  m ≫= f = Raise e → m = Raise e ∨ ∃ a, m = Ok a ∧ f a = Raise e.
Proof. destruct m as [a|e']; [intros; right; by exists a | intros [= ->]; by left]. Qed.

Lemma drop_Ok df labels df' :
  pandas.drop df labels = Ok df' →
  df' = {| pandas.index := pandas.index df;
           pandas.columns := filter (λ c, c ∉ labels) (pandas.columns df);
           pandas.rows := (λ r, foldr delete r labels) <$> pandas.rows df |}.
Proof. unfold pandas.drop. destruct (filter _ labels); [|done]. by intros [= <-]. Qed.

Lemma set_index_Ok df keys df' :
  pandas.set_index df keys = Ok df' →
  df' = {| pandas.index := keys;
           pandas.columns := filter (λ c, c ∉ keys) (pandas.columns df);
           pandas.rows := pandas.rows df |}.
Proof. unfold pandas.set_index. destruct (filter _ keys); [|done]. by intros [= <-]. Qed.

Lemma cell_insert_eq r c v : pandas.cell (<[c := v]> r) c = v.
Proof. unfold pandas.cell. by rewrite lookup_insert_eq. Qed.

Lemma cell_insert_ne r c c' v : c ≠ c' → pandas.cell (<[c := v]> r) c' = pandas.cell r c'.
Proof. intros. unfold pandas.cell. by rewrite lookup_insert_ne. Qed.

Lemma cell_delete_ne r c c' : c ≠ c' → pandas.cell (delete c r) c' = pandas.cell r c'.
Proof. intros. unfold pandas.cell. by rewrite lookup_delete_ne. Qed.

Lemma cell_deletes r labels c :
  c ∉ labels → pandas.cell (foldr delete r labels) c = pandas.cell r c.
Proof.
  unfold pandas.cell. induction labels as [|l labels IH]; simpl; [done|].
  intros [Hne Hc]%not_elem_of_cons. rewrite lookup_delete_ne by done. by rewrite IH.
Qed.

Lemma mapM_Ok_fmap {A B} (f : A → res B) (g : A → B) (P : A → Prop) (l : list A) (l' : list B) :
  (∀ a b, f a = Ok b → b = g a ∧ P a) →
  mapM f l = Ok l' → l' = g <$> l ∧ Forall P l.
Proof.
  intros Hf. revert l'. induction l as [|a l IH]; intros l'; simpl.
  - intros [= <-]. by split.
  - intros (b & Hb & H)%bind_Ok. apply bind_Ok in H as (k & Hk & [= <-]).
    apply Hf in Hb as [-> Ha]. apply IH in Hk as [-> Hl].
    split; [done | by constructor].
Qed.

Lemma mapM_Raise {A B} (f : A → res B) (l : list A) (e : exn) :
  mapM f l = Raise e → ∃ a, a ∈ l ∧ f a = Raise e.
Proof.
  induction l as [|a l IH]; simpl; [done|].
  destruct (f a) as [b|e'] eqn:Hb; simpl.
  - destruct (mapM f l) as [k|e'] eqn:Hk; simpl; [done|].
    intros [= ->]. destruct IH as (a' & Ha' & Hf); [done|].
    exists a'. split; [by right | done].
  - intros [= ->]. exists a. split; [by left | done].
Qed.

Lemma mapM_fmap_Ok {A B} (f : A → res B) (g : A → B) (l : list A) :
  Forall (λ a, f a = Ok (g a)) l → mapM f l = Ok (g <$> l).
Proof.
  induction 1 as [|a l Ha _ IH]; [done|].
  change (mapM f (a :: l)) with (f a ≫= λ b, mapM f l ≫= λ k, mret (b :: k)).
  by rewrite Ha, IH.
Qed.

Lemma zip_fmap_same {A B C} (f : A → B) (g : A → C) (l : list A) :
  zip (f <$> l) (g <$> l) = (λ x, (f x, g x)) <$> l.
Proof. induction l as [|x l IH]; csimpl; [done | by rewrite IH]. Qed.

Lemma to_float_Ok v x : pandas.to_float v = Ok x → x = num v ∧ is_num v.
Proof. destruct v; simpl; try done; by intros [= <-]. Qed.

Lemma to_float_num v : is_num v → pandas.to_float v = Ok (num v).
Proof. by destruct v. Qed.

Lemma num_not_nan v : is_num v → isnull v = false → is_nan (num v) = false.
Proof. destruct v; simpl; try done. intros _ _. apply float_of_Z_not_nan. Qed.

Lemma div_Ok s k s' :
  pandas.div s k = Ok s' → s' = (λ v, PyFloat (num v / k)) <$> s ∧ Forall is_num s.
Proof.
  apply mapM_Ok_fmap. intros v w Hb. apply bind_Ok in Hb as (x & Hx & [= <-]).
  by apply to_float_Ok in Hx as [-> ?].
Qed.

Lemma mul_Ok s k s' :
  pandas.mul s k = Ok s' → s' = (λ v, PyFloat (num v * k)) <$> s ∧ Forall is_num s.
Proof.
  apply mapM_Ok_fmap. intros v w Hb. apply bind_Ok in Hb as (x & Hx & [= <-]).
  by apply to_float_Ok in Hx as [-> ?].
Qed.

Lemma gt_Ok s k m :
  pandas.gt s k = Ok m → m = (λ v, (k <? num v)%float) <$> s ∧ Forall is_num s.
Proof.
  apply mapM_Ok_fmap. intros v w Hb. apply bind_Ok in Hb as (x & Hx & [= <-]).
  by apply to_float_Ok in Hx as [-> ?].
Qed.

Lemma lt_Ok a b m :
  pandas.lt a b = Ok m →
  m = (λ vw : value * value, (num vw.1 <? num vw.2)%float) <$> zip a b ∧
  Forall (λ vw : value * value, is_num vw.1 ∧ is_num vw.2) (zip a b).
Proof.
  apply mapM_Ok_fmap. intros [v w] c Hb. apply bind_Ok in Hb as (x & Hx & Hb).
  apply bind_Ok in Hb as (y & Hy & [= <-]).
  apply to_float_Ok in Hx as [-> ?]. by apply to_float_Ok in Hy as [-> ?].
Qed.

Lemma timedelta_Ok v w :
  timedelta v = Ok w → w = PyTimedelta (num v) ∧ is_nan (num v) = false.
Proof.
  destruct v as [| |z|x|]; simpl; try done.
  - destruct (_ <? _)%Z; [|done]. intros [= <-]. split; [done|]. apply float_of_Z_not_nan.
  - destruct (is_nan x) eqn:E; [done|]. destruct (_ <? _)%float; [|done]. by intros [= <-].
Qed.

Lemma getitem_fmap (df : pandas.DataFrame) (c : string) :
  c ∈ pandas.columns df →
  pandas.getitem df c = Ok ((λ r, pandas.cell r c) <$> pandas.rows df).
Proof. intros. unfold pandas.getitem. by rewrite bool_decide_eq_true_2. Qed.

Lemma setitem_fmap (df : pandas.DataFrame) (c : string) (g : gmap string value → value) :
  pandas.setitem df c (g <$> pandas.rows df) =
  {| pandas.index := pandas.index df;
     pandas.columns := pandas.add_label (pandas.columns df) c;
     pandas.rows := (λ r, <[c := g r]> r) <$> pandas.rows df |}.
Proof. unfold pandas.setitem. by rewrite zip_with_fmap_same. Qed.

Lemma elem_of_add_label (cols : list string) (c c' : string) :
  c' ∈ pandas.add_label cols c ↔ c' ∈ cols ∨ c' = c.
Proof.
  unfold pandas.add_label. case_bool_decide.
  - split; [by left | by intros [?| ->]].
  - by rewrite elem_of_app, list_elem_of_singleton.
Qed.

Lemma getitem_setitem (df : pandas.DataFrame) (c : string) (g : gmap string value → value) :
  pandas.getitem (pandas.setitem df c (g <$> pandas.rows df)) c = Ok (g <$> pandas.rows df).
Proof.
  unfold pandas.getitem, pandas.setitem. cbn [pandas.columns pandas.rows].
  rewrite bool_decide_eq_true_2.
  - rewrite zip_with_fmap_same, <- list_fmap_compose. f_equal.
    apply list_fmap_ext. intros _ r _. simpl. apply cell_insert_eq.
  - unfold pandas.add_label. case_bool_decide; [done|]. apply elem_of_app. right. by left.
Qed.

End Frames.

(** ** The export step *)

Section ExportStep.

Import Transfer.

(** Every update of the export step lands on a frame made by the step
    itself: the store it started from is a prefix of the store it leaves. *)
Lemma write_transfers_for_extension_run (self : t) (s : state) (df : pandas.DataFrame) :
  heap s !! transfers_df self = Some df →
  ∃ ext,
    write_transfers_for_extension self s =
    match export_frame df with
    | Ok out =>
        (Ok (), {| heap := heap s ++ ext;
                   files := <[output_path self := pandas.to_csv out]> (files s);
                   FastTripsLogger :=
                     FastTripsLogger s ++ [(DEBUG, [Text ("Wrote " +:+ output_path self)])] |})
    | Raise e =>
        (Raise e, {| heap := heap s ++ ext; files := files s;
                     FastTripsLogger := FastTripsLogger s |})
    end.
Proof.
  destruct s as [h fs lg]; simpl. intros Hdf.
  rewrite (st_intro (Build_state h fs lg)); simpl.
  unfold write_transfers_for_extension, export_frame.
  rewrite (run_get_old _ _ _ _ _ _ _ Hdf), run_new. simpl.
  rewrite (run_get_ext _ _ _ _ _ 0 df) by done.
  rewrite run_lift.
  destruct (pandas.getitem df _) as [transfer_type|e]; simpl; [|by eexists].
  rewrite run_new. simpl.
  erewrite (run_inplace_ext _ _ _ _ _ 1); [|reflexivity].
  destruct (pandas.drop _ _) as [df1|e]; simpl; [|by eexists].
  erewrite (run_inplace_ext _ _ _ _ _ 1); [|reflexivity]. simpl.
  destruct (pandas.getitem df1 _) as [time_min|e]; simpl; [|by eexists].
  erewrite (run_inplace_ext _ _ _ _ _ 1); [|reflexivity]. simpl.
  destruct (pandas.set_index _ _) as [df2|e]; simpl; [|by eexists].
  rewrite (run_get_ext _ _ _ _ _ 1 df2) by done.
  rewrite run_new. simpl.
  erewrite (run_inplace_ext _ _ _ _ _ 2); [|reflexivity]. simpl.
  eexists. unfold to_csv, mbind, M_bind, get, write_file, log, st; simpl.
  rewrite lookup_app_r by lia. replace (length h + 2 - length h) with 2 by lia.
  reflexivity.
Qed.

(** The written records of a frame keyed on the two numeric stop ids:
    one per row and column, with its cell that is not missing. *)
Lemma stacked_records (cols : list string) (rs : list (gmap string value)) :
  let df := {| pandas.index := [TRANSFERS_COLUMN_FROM_STOP_NUM; TRANSFERS_COLUMN_TO_STOP_NUM];
               pandas.columns := cols; pandas.rows := rs |} in
  let out := pandas.rename (pandas.stack_reset_index df)
               [("level_2", "attr_name"); ("0", "attr_value")] in
  pandas.header (pandas.to_csv out) =
    [TRANSFERS_COLUMN_FROM_STOP_NUM; TRANSFERS_COLUMN_TO_STOP_NUM; "attr_name"; "attr_value"] ∧
  ∀ rec, rec ∈ pandas.records (pandas.to_csv out) →
    ∃ r c, r ∈ rs ∧ c ∈ cols ∧ isnull (pandas.cell r c) = false ∧
           rec = [pandas.cell r TRANSFERS_COLUMN_FROM_STOP_NUM;
                  pandas.cell r TRANSFERS_COLUMN_TO_STOP_NUM;
                  PyStr c; pandas.cell r c].
Proof.
  intros df out. split; [done|]. intros rec.
  unfold out, df, pandas.to_csv, pandas.rename, pandas.stack_reset_index.
  cbn [pandas.rows pandas.columns pandas.index pandas.header pandas.records].
  intros (r4 & -> & (r3 & -> & Hr3)%list_elem_of_fmap)%list_elem_of_fmap.
  apply list_elem_of_join in Hr3 as (l & Hr3 & Hl).
  apply list_elem_of_lookup in Hl as [i Hl].
  rewrite list_lookup_imap in Hl.
  destruct (rs !! i) as [r|] eqn:Hr; [|done]. simpl in Hl. injection Hl as <-.
  apply list_elem_of_omap in Hr3 as (c & Hc & Hr3).
  destruct (isnull _) eqn:Hnull; [done|]. injection Hr3 as <-.
  apply list_elem_of_lookup_2 in Hr.
  exists r, c. by repeat split.
Qed.

Lemma export_frame_records (df out : pandas.DataFrame) :
  export_frame df = Ok out →
  pandas.header (pandas.to_csv out) =
    [TRANSFERS_COLUMN_FROM_STOP_NUM; TRANSFERS_COLUMN_TO_STOP_NUM; "attr_name"; "attr_value"] ∧
  ∀ rec, rec ∈ pandas.records (pandas.to_csv out) →
    ∃ r c, r ∈ pandas.rows df ∧
           pandas.eq_int (pandas.cell r TRANSFERS_COLUMN_TRANSFER_TYPE) 3 = false ∧
           rec = [pandas.cell r TRANSFERS_COLUMN_FROM_STOP_NUM;
                  pandas.cell r TRANSFERS_COLUMN_TO_STOP_NUM;
                  PyStr c; exported_value r c].
Proof.
  unfold export_frame. intros H.
  apply bind_Ok in H as (tt & [_ ->]%getitem_Ok & H).
  apply bind_Ok in H as (df1 & ->%drop_Ok & H).
  apply bind_Ok in H as (time_min & [_ ->]%getitem_Ok & H).
  apply bind_Ok in H as (df2 & ->%set_index_Ok & H).
  injection H as <-.
  match goal with |- context [pandas.stack_reset_index ?d] =>
    destruct (stacked_records (pandas.columns d) (pandas.rows d)) as [Hh Hrec] end.
  split; [done|]. intros rec (r2 & c & Hr2 & Hc & _ & ->)%Hrec. clear Hh Hrec.
  unfold pandas.setitem in Hr2, Hc.
  cbn [pandas.rows pandas.columns pandas.index] in Hr2, Hc.
  rewrite zip_with_fmap_same, loc_ne_rows in Hr2.
  apply list_elem_of_fmap in Hr2 as (r1 & -> & Hr1).
  apply list_elem_of_fmap in Hr1 as (r & -> & Hr).
  apply list_elem_of_filter in Hr as [Hne Hr].
  exists r, c. split; [done|]. split; [done|].
  apply list_elem_of_filter in Hc as [Hkeys Hc].
  rewrite !not_elem_of_cons in Hkeys. destruct Hkeys as (Hk1 & Hk2 & _).
  rewrite !(cell_insert_ne _ "walk_time_min"), !cell_delete_ne by done.
  do 3 f_equal.
  assert (c ≠ "walk_time_min" →
          c ∉ [TRANSFERS_COLUMN_TIME; TRANSFERS_COLUMN_FROM_STOP;
               TRANSFERS_COLUMN_TO_STOP; TRANSFERS_COLUMN_MIN_TRANSFER_TIME;
               TRANSFERS_COLUMN_SCHEDULE_PRECEDENCE; TRANSFERS_COLUMN_FROM_ROUTE;
               TRANSFERS_COLUMN_TO_ROUTE]) as Hkept.
  { intros Hw. unfold pandas.add_label in Hc. case_bool_decide.
    - by apply list_elem_of_filter in Hc as [? _].
    - apply elem_of_app in Hc as [Hc|Hc%list_elem_of_singleton]; [|done].
      by apply list_elem_of_filter in Hc as [? _]. }
  unfold exported_value. case_bool_decide as Hw.
  - subst c. by rewrite cell_insert_eq.
  - specialize (Hkept Hw). rewrite !not_elem_of_cons in Hkept.
    destruct Hkept as (? & ? & ? & ? & ? & ? & ? & _).
    rewrite cell_insert_ne by done. by rewrite !cell_delete_ne.
Qed.

Lemma write_transfers_for_extension_dangling (self : t) (s : state) :
  heap s !! transfers_df self = None →
  write_transfers_for_extension self s = (Raise ReferenceError, s).
Proof.
  intros H. unfold write_transfers_for_extension, mbind at 1, M_bind, get. by rewrite H.
Qed.

(** The frames the store held before the export step are the same after it,
    whether it returns or raises. *)
Lemma write_transfers_for_extension_store (self : t) (s : state) (l : nat)
    (d : pandas.DataFrame) :
  heap s !! l = Some d →
  heap (write_transfers_for_extension self s).2 !! l = Some d.
Proof.
  intros Hl. destruct (heap s !! transfers_df self) as [df|] eqn:Hdf.
  - destruct (write_transfers_for_extension_run self s df Hdf) as [ext ->].
    destruct (export_frame df); simpl; by apply lookup_app_l_Some.
  - by rewrite write_transfers_for_extension_dangling.
Qed.

Lemma write_transfers_for_extension_Ok (self : t) (s s1 : state) :
  write_transfers_for_extension self s = (Ok (), s1) →
  ∃ df out ext,
    heap s !! transfers_df self = Some df ∧ export_frame df = Ok out ∧
    s1 = {| heap := heap s ++ ext;
            files := <[output_path self := pandas.to_csv out]> (files s);
            FastTripsLogger :=
              FastTripsLogger s ++ [(DEBUG, [Text ("Wrote " +:+ output_path self)])] |}.
Proof.
  intros H. destruct (heap s !! transfers_df self) as [df|] eqn:Hdf.
  - destruct (write_transfers_for_extension_run self s df Hdf) as [ext E].
    rewrite E in H. destruct (export_frame df) as [out|] eqn:Hout; [|done].
    injection H as <-. by exists df, out, ext.
  - by rewrite write_transfers_for_extension_dangling in H.
Qed.

(** C7: no row with [transfer_type == 3] appears in the exported file. When
    the export step returns, every record of the file it wrote comes from a
    row of [self.transfers_df] whose transfer type is not 3, so no record
    gives a transfer type of 3; the rows of type 3 are still in
    [self.transfers_df], which is the frame it was before the call. *)
Theorem exported_file_has_no_infeasible_transfer (self : t) (s s1 : state)
    (df : pandas.DataFrame) :
  heap s !! transfers_df self = Some df →
  write_transfers_for_extension self s = (Ok (), s1) →
  heap s1 !! transfers_df self = Some df ∧
  ∃ f, files s1 !! output_path self = Some f ∧
       (∀ rec, rec ∈ pandas.records f →
          ∃ r c, r ∈ pandas.rows df ∧
                 pandas.eq_int (pandas.cell r TRANSFERS_COLUMN_TRANSFER_TYPE) 3 = false ∧
                 rec = [pandas.cell r TRANSFERS_COLUMN_FROM_STOP_NUM;
                        pandas.cell r TRANSFERS_COLUMN_TO_STOP_NUM;
                        PyStr c; exported_value r c]) ∧
       (∀ a b v, [a; b; PyStr TRANSFERS_COLUMN_TRANSFER_TYPE; v] ∈ pandas.records f →
                 pandas.eq_int v 3 = false).
Proof.
  intros Hdf H. split.
  { pose proof (write_transfers_for_extension_store self s _ _ Hdf) as Hs.
    by rewrite H in Hs. }
  apply write_transfers_for_extension_Ok in H as (df' & out & ext & Hdf' & Hout & ->).
  assert (df' = df) as -> by congruence.
  exists (pandas.to_csv out). simpl. rewrite lookup_insert_eq. split; [done|].
  destruct (export_frame_records df out Hout) as [_ Hrec]. split; [done|].
  intros a b v (r & c & _ & Hne & [= -> -> <- ->])%Hrec. done.
Qed.

(** C8: the export step is idempotent. When it returns, a second call on
    the same object returns too and leaves every file as the first call
    left it: the output file holds the same table. *)
Theorem export_is_idempotent (self : t) (s s1 : state) :
  write_transfers_for_extension self s = (Ok (), s1) →
  ∃ s2, write_transfers_for_extension self s1 = (Ok (), s2) ∧ files s2 = files s1.
Proof.
  intros (df & out & ext & Hdf & Hout & ->)%write_transfers_for_extension_Ok.
  match goal with |- context [write_transfers_for_extension self ?s1] =>
    destruct (write_transfers_for_extension_run self s1 df) as [ext' ->] end.
  { simpl. by apply lookup_app_l_Some. }
  rewrite Hout. eexists. split; [done|]. simpl. by rewrite insert_insert_eq.
Qed.

(** C9: the export step works on a copy. The frame [self.transfers_df]
    refers to is, after the call, the frame it was before the call, with
    every row and column. *)
Theorem export_leaves_transfers_df (self : t) (s : state) (df : pandas.DataFrame) :
  heap s !! transfers_df self = Some df →
  heap (write_transfers_for_extension self s).2 !! transfers_df self = Some df.
Proof. apply write_transfers_for_extension_store. Qed.

(** C10: with an empty relation [add_numeric_stop_id] resolves nothing and
    does not call the export step: it returns the object as it is, and the
    store, the files and the log are untouched. *)
Theorem add_numeric_stop_id_empty (self : t) (stops : Stop) (s : state)
    (df : pandas.DataFrame) :
  heap s !! transfers_df self = Some df →
  pandas.len df = 0 →
  add_numeric_stop_id self stops s = (Ok self, s).
Proof.
  intros Hdf Hlen. unfold add_numeric_stop_id, mbind, M_bind, get.
  rewrite Hdf, Hlen. by rewrite bool_decide_eq_false_2 by lia.
Qed.

End ExportStep.

(** ** The constructor *)

Section Load.

Import Transfer.

Variable float_of_str : string → option float.

Lemma with_minutes_cells (r : gmap string value) :
  let r2 := with_time_min (with_min_transfer_time_min r) in
  pandas.cell r2 TRANSFERS_COLUMN_TIME_MIN = PyFloat (walk_time_of r) ∧
  pandas.cell r2 TRANSFERS_COLUMN_MIN_TRANSFER_TIME_MIN = PyFloat (min_transfer_time_min_of r).
Proof.
  unfold with_time_min, with_min_transfer_time_min, walk_time_of, min_transfer_time_min_of.
  simpl. rewrite cell_insert_eq, !cell_insert_ne, cell_insert_eq by done. done.
Qed.

Lemma with_floor_cells (r : gmap string value) :
  let r3 := with_floor (with_time_min (with_min_transfer_time_min r)) in
  pandas.cell r3 TRANSFERS_COLUMN_TIME_MIN = PyFloat (floored_time_of r) ∧
  pandas.cell r3 TRANSFERS_COLUMN_MIN_TRANSFER_TIME_MIN = PyFloat (min_transfer_time_min_of r).
Proof.
  destruct (with_minutes_cells r) as [Ht Hm]. simpl in *.
  unfold with_floor, floored_time_of. rewrite Ht, Hm. simpl.
  destruct (walk_time_of r <? min_transfer_time_min_of r)%float.
  - by rewrite cell_insert_eq, cell_insert_ne.
  - done.
Qed.

Lemma final_row_cells (r : gmap string value) :
  pandas.cell (final_row r) TRANSFERS_COLUMN_DISTANCE = pandas.cell r TRANSFERS_COLUMN_DISTANCE ∧
  pandas.cell (final_row r) TRANSFERS_COLUMN_MIN_TRANSFER_TIME =
    pandas.cell r TRANSFERS_COLUMN_MIN_TRANSFER_TIME ∧
  pandas.cell (final_row r) TRANSFERS_COLUMN_TRANSFER_TYPE =
    pandas.cell r TRANSFERS_COLUMN_TRANSFER_TYPE ∧
  pandas.cell (final_row r) TRANSFERS_COLUMN_MIN_TRANSFER_TIME_MIN =
    PyFloat (min_transfer_time_min_of r) ∧
  pandas.cell (final_row r) TRANSFERS_COLUMN_TIME_MIN = PyFloat (floored_time_of r) ∧
  pandas.cell (final_row r) TRANSFERS_COLUMN_TIME = PyTimedelta (floored_time_of r).
Proof.
  destruct (with_floor_cells r) as [Ht Hm]. simpl in *.
  unfold final_row, with_time. rewrite cell_insert_eq, !cell_insert_ne, Ht, Hm by done.
  assert (∀ c, c ≠ TRANSFERS_COLUMN_TIME_MIN → c ≠ TRANSFERS_COLUMN_MIN_TRANSFER_TIME_MIN →
               pandas.cell (with_floor (with_time_min (with_min_transfer_time_min r))) c =
               pandas.cell r c) as Hc.
  { intros c H1 H2. unfold with_floor. destruct (_ <? _)%float.
    - unfold with_time_min, with_min_transfer_time_min. by rewrite !cell_insert_ne.
    - unfold with_time_min, with_min_transfer_time_min. by rewrite !cell_insert_ne. }
  by rewrite !Hc.
Qed.

Lemma loc_mask_rows (df : pandas.DataFrame) (b : gmap string value → bool) :
  pandas.loc df (b <$> pandas.rows df) =
  {| pandas.index := pandas.index df; pandas.columns := pandas.columns df;
     pandas.rows := filter (λ r, b r = true) (pandas.rows df) |}.
Proof. unfold pandas.loc. by rewrite filter_zip_fmap. Qed.

(** What lines 161-186 do to a frame that has rows and whose times in
    minutes can be computed. *)
Lemma transfer_times_run (df : pandas.DataFrame) (s : state) :
  pandas.len df > 0 → has_minutes df →
  transfer_times df s =
  if bool_decide (length (filter too_long (pandas.rows (with_minutes df))) > 0) then
    (Raise (NetworkInputError INPUT_TRANSFERS_FILE (too_long_msg (with_minutes df))),
     {| heap := heap s; files := files s;
        FastTripsLogger := FastTripsLogger s ++ sanity_check_log df |})
  else
    match pandas.map timedelta
            ((λ r, pandas.cell r TRANSFERS_COLUMN_TIME_MIN) <$> pandas.rows (floored df)) with
    | Ok col => (Ok (pandas.setitem (floored df) TRANSFERS_COLUMN_TIME col), s)
    | Raise e => (Raise e, s)
    end.
Proof.
  intros Hlen (Hc1 & Hc2 & Hn1 & Hn2). unfold transfer_times.
  rewrite bool_decide_eq_true_2 by done.
  rewrite run_lift, getitem_fmap by done.
  rewrite run_lift. unfold pandas.div at 1.
  rewrite (mapM_fmap_Ok _ (λ v, PyFloat (num v / 60))).
  2:{ rewrite Forall_fmap. eapply Forall_impl; [exact Hn1|]. intros r Hr. simpl.
      by rewrite to_float_num. }
  rewrite <- list_fmap_compose, (setitem_fmap df).
  match goal with |- context [pandas.getitem ?d TRANSFERS_COLUMN_DISTANCE] => set (df1 := d) end.
  rewrite run_lift, (getitem_fmap df1).
  2:{ apply elem_of_add_label. by left. }
  rewrite run_lift. unfold pandas.mul.
  rewrite (mapM_fmap_Ok _ (λ v, PyFloat (num v * 60))).
  2:{ unfold df1. cbn [pandas.rows]. rewrite !Forall_fmap.
      eapply Forall_impl; [exact Hn2|]. intros r Hr. simpl.
      rewrite cell_insert_ne by done. by rewrite to_float_num. }
  rewrite run_lift. unfold pandas.div.
  rewrite (mapM_fmap_Ok _ (λ v, PyFloat (num v / WALK_SPEED_MILES_PER_HOUR))).
  2:{ rewrite !Forall_fmap. by apply Forall_true. }
  rewrite <- !list_fmap_compose.
  rewrite (setitem_fmap df1).
  change {| pandas.index := pandas.index df1;
            pandas.columns := pandas.add_label (pandas.columns df1) TRANSFERS_COLUMN_TIME_MIN;
            pandas.rows := _ |} with (with_minutes df).
  set (df2 := with_minutes df).
  assert (TRANSFERS_COLUMN_TIME_MIN ∈ pandas.columns df2) as Hc3.
  { apply elem_of_add_label. by right. }
  assert (TRANSFERS_COLUMN_MIN_TRANSFER_TIME_MIN ∈ pandas.columns df2) as Hc4.
  { apply elem_of_add_label. left. apply elem_of_add_label. by right. }
  rewrite run_lift, (getitem_fmap df2) by done.
  rewrite run_lift. unfold pandas.gt.
  rewrite (mapM_fmap_Ok _ (λ v, (780 <? num v)%float)).
  2:{ unfold df2, with_minutes. cbn [pandas.rows].
      rewrite !Forall_fmap. apply Forall_true. intros r. simpl.
      unfold with_time_min. by rewrite cell_insert_eq. }
  rewrite <- list_fmap_compose, loc_mask_rows. unfold pandas.len at 1. cbn [pandas.rows].
  change (filter _ (pandas.rows df2)) with (filter too_long (pandas.rows df2)).
  case_bool_decide as Hlong.
  { rewrite bool_decide_eq_true_2 by exact Hlong.
    unfold mbind, M_bind, log, raise, sanity_check_log, too_long_msg. simpl.
    by rewrite <- app_assoc. }
  rewrite bool_decide_eq_false_2 by exact Hlong.
  rewrite run_ret, run_lift.
  rewrite run_lift, (getitem_fmap df2) by done.
  rewrite run_lift. unfold pandas.lt. rewrite zip_fmap_same.
  rewrite (mapM_fmap_Ok _ (λ vw : value * value, (num vw.1 <? num vw.2)%float)).
  2:{ unfold df2, with_minutes. cbn [pandas.rows].
      rewrite !Forall_fmap. apply Forall_true. intros r. simpl.
      unfold with_time_min, with_min_transfer_time_min.
      rewrite cell_insert_eq, cell_insert_ne, cell_insert_eq by done. done. }
  rewrite <- list_fmap_compose.
  assert (pandas.loc_set df2
            ((λ vw : value * value, (num vw.1 <? num vw.2)%float)
               ∘ (λ x, (pandas.cell x TRANSFERS_COLUMN_TIME_MIN,
                        pandas.cell x TRANSFERS_COLUMN_MIN_TRANSFER_TIME_MIN)) <$> pandas.rows df2)
            TRANSFERS_COLUMN_TIME_MIN
            ((λ r, pandas.cell r TRANSFERS_COLUMN_MIN_TRANSFER_TIME_MIN) <$> pandas.rows df2)
          = floored df) as ->.
  { unfold pandas.loc_set, floored. f_equal.
    rewrite zip_fmap_same, zip_with_fmap_same. done. }
  rewrite run_lift, (getitem_fmap (floored df)).
  2:{ apply elem_of_add_label. by right. }
  rewrite run_lift. by destruct (pandas.map _ _).
Qed.

Lemma getitem_Raise df col e :
  pandas.getitem df col = Raise e → e = KeyError col ∧ col ∉ pandas.columns df.
Proof. unfold pandas.getitem. case_bool_decide; [done|]. by intros [= <-]. Qed.

(** Lines 163-168 raise unless the times in minutes can be computed. *)
Lemma transfer_times_has_minutes (df df' : pandas.DataFrame) (s s' : state) :
  pandas.len df > 0 →
  transfer_times df s = (Ok df', s') → has_minutes df.
Proof.
  intros Hlen. unfold transfer_times. rewrite bool_decide_eq_true_2 by done.
  rewrite run_lift.
  destruct (pandas.getitem df _) as [col|e] eqn:E1; [|done].
  apply getitem_Ok in E1 as [Hc1 ->].
  rewrite run_lift.
  destruct (pandas.div _ _) as [col|e] eqn:E2; [|done].
  apply div_Ok in E2 as [-> Hn1]. rewrite Forall_fmap in Hn1.
  rewrite <- list_fmap_compose, setitem_fmap, run_lift.
  destruct (pandas.getitem _ _) as [col|e] eqn:E3; [|done].
  apply getitem_Ok in E3 as [Hc3 ->]. cbn [pandas.rows pandas.columns] in *.
  rewrite run_lift.
  destruct (pandas.mul _ _) as [col|e] eqn:E4; [|done].
  apply mul_Ok in E4 as [-> Hn3]. rewrite !Forall_fmap in Hn3.
  intros _. split; [done|]. split; [|split; [done|]].
  - by apply elem_of_add_label in Hc3 as [?|[=]].
  - eapply Forall_impl; [exact Hn3|]. intros r Hr. simpl in Hr.
    by rewrite cell_insert_ne in Hr.
Qed.

(** What a call of lines 161-186 that returns has done. *)
Lemma transfer_times_Ok (df df' : pandas.DataFrame) (s s' : state) :
  pandas.len df > 0 →
  transfer_times df s = (Ok df', s') →
  s' = s ∧ has_minutes df ∧
  Forall (λ r, ¬ too_long r) (pandas.rows (with_minutes df)) ∧
  Forall (λ r, is_nan (num (pandas.cell r TRANSFERS_COLUMN_TIME_MIN)) = false)
         (pandas.rows (floored df)) ∧
  pandas.rows df' = with_time <$> pandas.rows (floored df).
Proof.
  intros Hlen H. pose proof (transfer_times_has_minutes _ _ _ _ Hlen H) as Hm.
  rewrite transfer_times_run in H by done.
  case_bool_decide as Hlong; [done|].
  destruct (pandas.map _ _) as [col|] eqn:Hcol; [|done].
  injection H as <- <-. split; [done|]. split; [done|].
  apply (mapM_Ok_fmap _ (λ v, PyTimedelta (num v)) (λ v, is_nan (num v) = false)) in Hcol
    as [-> Hnan]; [|apply timedelta_Ok].
  rewrite Forall_fmap in Hnan. split; [|split; [done|]].
  - apply Forall_forall. intros r Hr Hr'. apply Hlong.
    assert (r ∈ filter too_long (pandas.rows (with_minutes df))) as Hin
      by by apply list_elem_of_filter.
    destruct (filter _ _); [by apply elem_of_nil in Hin | simpl; lia].
  - by rewrite <- list_fmap_compose, setitem_fmap.
Qed.

Lemma read_transfers_ft_run (input_dir : string) (s : state) :
  read_transfers_ft input_dir s =
  match files s !! os_path_join input_dir INPUT_TRANSFERS_FILE with
  | None => (Raise (IOError (os_path_join input_dir INPUT_TRANSFERS_FILE)), s)
  | Some f =>
      if bool_decide (Forall (λ c, c ∈ pandas.header f) required_columns)
      then (Ok (pandas.of_csv f), s)
      else (Raise AssertionError, s)
  end.
Proof.
  unfold read_transfers_ft, mbind at 1, M_bind, read_csv.
  destruct (files s !! _) as [f|]; [|done].
  rewrite !run_assert. cbn [pandas.columns pandas.of_csv].
  repeat (case_bool_decide;
          [| rewrite bool_decide_eq_false_2; [done|];
             unfold required_columns; rewrite !Forall_cons; tauto ]).
  rewrite bool_decide_eq_true_2; [done|]. by repeat constructor.
Qed.

Lemma read_transfers_ft_state (input_dir : string) (s : state) :
  (read_transfers_ft input_dir s).2 = s.
Proof.
  rewrite read_transfers_ft_run. destruct (files s !! _); [|done]. by case_bool_decide.
Qed.

(** The constructor, phase by phase. *)
Lemma init_run (input_dir output_dir : string) (gtfs_schedule : Schedule) (s : state) :
  __init__ float_of_str input_dir output_dir gtfs_schedule s =
  match loaded_df float_of_str input_dir gtfs_schedule s with
  | Raise e => (Raise e, s)
  | Ok df =>
      match transfer_times df (logged s (loaded_log df)) with
      | (Raise e, s') => (Raise e, s')
      | (Ok df', s') =>
          (Ok {| output_dir := output_dir; transfers_df := length (heap s') |},
           {| heap := heap s' ++ [df']; files := files s';
              FastTripsLogger := FastTripsLogger s' ++ final_log df' |})
      end
  end.
Proof.
  unfold __init__, loaded_df. rewrite run_lift.
  destruct (gtfs_transfers_df _ _) as [base|]; [|done]. simpl.
  unfold mbind at 1, M_bind.
  pose proof (read_transfers_ft_state input_dir s) as Hs.
  destruct (read_transfers_ft input_dir s) as [[ft|e] s0]; simpl in *; subst s0; [|done].
  rewrite run_lift.
  destruct (join_transfers_ft base ft) as [j|]; [|done]. simpl.
  unfold mbind, M_bind, log, new, logged, loaded_log, final_log. simpl.
  rewrite <- app_assoc. simpl.
  destruct (transfer_times _ _) as [[df'|e] s']; [|done]. simpl.
  by rewrite <- !app_assoc.
Qed.

(** The GTFS transfers raise nothing but what pandas raises on a missing
    column or on a value that is no number. *)
Lemma gtfs_transfers_df_Raise (gtfs_schedule : Schedule) (e : exn) :
  gtfs_transfers_df float_of_str gtfs_schedule = Raise e →
  (∃ c, e = KeyError c) ∨ e = ValueError ∨ e = TypeError.
Proof.
  unfold gtfs_transfers_df. case_bool_decide as Hn; [|done]. intros H.
  apply bind_Raise in H as [E1|(col & _ & H)].
  { left. apply getitem_Raise in E1 as [-> _]. by eexists. }
  apply bind_Raise in H as [E2|(col' & _ & H)].
  { apply mapM_Raise in E2 as (v & _ & Hv).
    destruct v; simpl in Hv; try done.
    - destruct (float_of_str s); [done|]. injection Hv as <-. by right; left.
    - injection Hv as <-. by right; right. }
  apply bind_Raise in H as [E3|(tt & _ & H)]; [|done].
  left. apply getitem_Raise in E3 as [-> _]. by eexists.
Qed.

(** C1, as the code has it: when the times in minutes can be computed for
    the joined frame and the walk time of some row is over 780 minutes, the
    constructor raises [NetworkInputError] for [transfers_ft.txt]. Before
    that it logs, as fatal, the message with the number of such rows and
    then the head of the frame of such rows, which is its first five rows.
    No object is made, and the files and the store are as they were. *)
Theorem too_long_transfer_aborts_load (input_dir output_dir : string)
    (gtfs_schedule : Schedule) (s : state) (df : pandas.DataFrame) :
  loaded_df float_of_str input_dir gtfs_schedule s = Ok df →
  has_minutes df →
  (∃ r, r ∈ pandas.rows df ∧ (780 <? walk_time_of r)%float = true) →
  ∃ s', __init__ float_of_str input_dir output_dir gtfs_schedule s =
          (Raise (NetworkInputError INPUT_TRANSFERS_FILE (too_long_msg (with_minutes df))), s') ∧
        files s' = files s ∧ heap s' = heap s ∧
        FastTripsLogger s' =
          FastTripsLogger s ++ loaded_log df ++
          [(FATAL, [Text (too_long_msg (with_minutes df))]);
           (FATAL, [Text nl;
                    Str {| pandas.index := pandas.index df;
                           pandas.columns := pandas.columns (with_minutes df);
                           pandas.rows :=
                             take 5 (filter too_long (pandas.rows (with_minutes df))) |};
                    Text nl])].
Proof.
  intros Hdf Hm (r & Hr & Hlong).
  assert (pandas.len df > 0) as Hlen.
  { unfold pandas.len. destruct (pandas.rows df); [by apply elem_of_nil in Hr | simpl; lia]. }
  rewrite init_run, Hdf, transfer_times_run by done.
  rewrite bool_decide_eq_true_2.
  - eexists. split; [done|]. simpl. by rewrite <- app_assoc.
  - assert (with_time_min (with_min_transfer_time_min r)
              ∈ filter too_long (pandas.rows (with_minutes df))) as Hin.
    { apply list_elem_of_filter. split.
      - unfold too_long. destruct (with_minutes_cells r) as [-> _]. done.
      - unfold with_minutes. cbn [pandas.rows]. by do 2 apply list_elem_of_fmap_2. }
    destruct (filter _ _); [by apply elem_of_nil in Hin | simpl; lia].
Qed.

(** C6, as the code has it: when the supplemental file lacks a required
    column the constructor raises and changes nothing. What it raises is an
    [AssertionError], which names no column, unless the GTFS transfers have
    already raised a [KeyError], [ValueError] or [TypeError] of pandas; it
    is never a [NetworkInputError]. *)
Theorem missing_column_fails_load (input_dir output_dir : string)
    (gtfs_schedule : Schedule) (s : state) (f : pandas.csv) (c : string) :
  files s !! os_path_join input_dir INPUT_TRANSFERS_FILE = Some f →
  c ∈ required_columns → c ∉ pandas.header f →
  ∃ e, __init__ float_of_str input_dir output_dir gtfs_schedule s = (Raise e, s) ∧
       (gtfs_transfers_df float_of_str gtfs_schedule = Raise e ∨
        (e = AssertionError ∧ ∃ df, gtfs_transfers_df float_of_str gtfs_schedule = Ok df)) ∧
       ∀ file msg, e ≠ NetworkInputError file msg.
Proof.
  intros Hf Hc Hmissing. rewrite init_run. unfold loaded_df.
  destruct (gtfs_transfers_df _ _) as [base|e] eqn:Hbase; simpl.
  - rewrite read_transfers_ft_run, Hf. rewrite bool_decide_eq_false_2.
    + exists AssertionError. split; [done|]. split; [right; eauto | done].
    + intros Hall. rewrite Forall_forall in Hall. by apply Hmissing, Hall.
  - exists e. split; [done|]. split; [by left|].
    intros file msg ->. by apply gtfs_transfers_df_Raise in Hbase as [[? [=]]|[[=]|[=]]].
Qed.

(** *** The rows of a finished load *)

(** The keys of a transfer's dict are among its field names. *)
Lemma dict_set_keys (d : dict) (k c : string) (v : value) :
  c ∈ (dict_set d k v).*1 → c ∈ d.*1 ∨ c = k.
Proof.
  induction d as [|[k' v'] d IH]; simpl.
  - intros ->%list_elem_of_singleton. by right.
  - case_bool_decide; simpl.
    + intros [->|Hc]%elem_of_cons; [by right | left; by right].
    + intros [->|Hc]%elem_of_cons; [left; by left|].
      destruct (IH Hc) as [?|?]; [left; by right | by right].
Qed.

Lemma transfer_dict_keys (g : gtfs_transfer) (fields : list string) (acc : dict) (c : string) :
  c ∈ (foldl (λ transfer_dict fieldname,
                match dict_get (__dict__ g) fieldname with
                | Some v => dict_set transfer_dict fieldname v
                | None => transfer_dict
                end) acc fields).*1 →
  c ∈ acc.*1 ∨ c ∈ fields.
Proof.
  revert acc. induction fields as [|f fields IH]; intros acc; simpl; [by left|].
  intros [Hc|Hc]%IH; [|right; by right].
  destruct (dict_get _ f); [|by left].
  apply dict_set_keys in Hc as [?| ->]; [by left | right; by left].
Qed.

Lemma foldl_add_label (acc ks : list string) (c : string) :
  c ∈ foldl pandas.add_label acc ks → c ∈ acc ∨ c ∈ ks.
Proof.
  revert acc. induction ks as [|k ks IH]; intros acc; simpl; [by left|].
  intros [Hc|Hc]%IH; [|right; by right].
  apply elem_of_add_label in Hc as [?| ->]; [by left | right; by left].
Qed.

Lemma DataFrame_data_columns (data : list dict) (c : string) :
  c ∈ pandas.columns (pandas.DataFrame_data data) → ∃ d, d ∈ data ∧ c ∈ d.*1.
Proof.
  unfold pandas.DataFrame_data. cbn [pandas.columns].
  assert (∀ acc, c ∈ foldl (λ acc d, foldl pandas.add_label acc (d.*1)) acc data →
                 c ∈ acc ∨ ∃ d, d ∈ data ∧ c ∈ d.*1) as H.
  { induction data as [|d data IH]; intros acc; simpl; [by left|].
    intros [Hc|(d' & Hd' & Hc)]%IH.
    - apply foldl_add_label in Hc as [?|?]; [by left|]. right. exists d. split; [by left | done].
    - right. exists d'. split; [by right | done]. }
  intros [Hc|Hc]%H; [by apply elem_of_nil in Hc | done].
Qed.

(** The frame of the GTFS transfers either has no rows or has only the
    fields of the transfers as columns. *)
Lemma gtfs_transfers_df_columns (gtfs_schedule : Schedule) (base : pandas.DataFrame) (c : string) :
  gtfs_transfers_df float_of_str gtfs_schedule = Ok base →
  c ∈ pandas.columns base →
  pandas.rows base = [] ∨ c = TRANSFERS_COLUMN_MIN_TRANSFER_TIME ∨
  ∃ g, g ∈ GetTransferList gtfs_schedule ∧ c ∈ _FIELD_NAMES g.
Proof.
  unfold gtfs_transfers_df. case_bool_decide as Hn.
  - intros H. apply bind_Ok in H as (col & _ & H). apply bind_Ok in H as (col' & _ & H).
    apply bind_Ok in H as (tt & _ & [= <-]).
    unfold pandas.loc_set_scalar, pandas.setitem, pandas.replace. cbn [pandas.columns].
    rewrite !elem_of_add_label.
    intros [[Hc| ->]| ->]; [|right; by left..].
    apply DataFrame_data_columns in Hc as (d & Hd & Hc).
    apply list_elem_of_fmap in Hd as (g & -> & Hg).
    apply transfer_dict_keys in Hc as [Hc|Hc]; [by apply elem_of_nil in Hc|].
    right. right. by exists g.
  - intros [= <-]. by left.
Qed.

(** Lines 117-119: in the frame of a non-empty GTFS transfer list, a row
    whose [transfer_type] is not 2 has a [min_transfer_time] of 0. *)
Lemma gtfs_transfers_df_zeroed (gtfs_schedule : Schedule) (base : pandas.DataFrame)
    (r : gmap string value) :
  gtfs_transfers_df float_of_str gtfs_schedule = Ok base →
  r ∈ pandas.rows base →
  pandas.eq_int (pandas.cell r TRANSFERS_COLUMN_TRANSFER_TYPE) 2 = false →
  pandas.cell r TRANSFERS_COLUMN_MIN_TRANSFER_TIME = PyInt 0.
Proof.
  unfold gtfs_transfers_df. case_bool_decide as Hn.
  - intros H. apply bind_Ok in H as (col & _ & H). apply bind_Ok in H as (col' & _ & H).
    apply bind_Ok in H as (tt & Htt & [= <-]).
    apply getitem_Ok in Htt as [_ ->].
    unfold pandas.loc_set_scalar, pandas.ne. cbn [pandas.rows].
    rewrite <- list_fmap_compose, zip_with_fmap_same.
    intros Hr. apply list_elem_of_fmap in Hr as (r0 & -> & _). simpl.
    destruct (pandas.eq_int (pandas.cell r0 TRANSFERS_COLUMN_TRANSFER_TYPE) 2) eqn:E; simpl.
    + intros Hne. by rewrite Hne in E.
    + intros _. apply cell_insert_eq.
  - intros [= <-] Hr. by apply elem_of_nil in Hr.
Qed.

(** After the join no [min_transfer_time] is missing. *)
Lemma join_transfers_ft_Ok (base ft j : pandas.DataFrame) :
  join_transfers_ft base ft = Ok j →
  (pandas.len ft = 0 ∧ j = base) ∨
  (pandas.len ft > 0 ∧
   (TRANSFERS_COLUMN_MIN_TRANSFER_TIME ∈ pandas.columns j →
    Forall (λ r, isnull (pandas.cell r TRANSFERS_COLUMN_MIN_TRANSFER_TIME) = false)
           (pandas.rows j))).
Proof.
  unfold join_transfers_ft. case_bool_decide as Hlen.
  - intros H. apply bind_Ok in H as (m & _ & [= <-]). right. split; [done|].
    unfold pandas.fillna. simpl.
    case_bool_decide as H1; cbn [pandas.columns]; case_bool_decide as H2;
      cbn [pandas.columns pandas.rows]; intros Hc; try done.
    + rewrite !Forall_fmap. apply Forall_true. intros r. simpl.
      assert (isnull (pandas.cell
                (if isnull (pandas.cell r TRANSFERS_COLUMN_MIN_TRANSFER_TIME)
                 then <[TRANSFERS_COLUMN_MIN_TRANSFER_TIME := PyInt 0]> r else r)
                TRANSFERS_COLUMN_MIN_TRANSFER_TIME) = false) as Hr.
      { destruct (isnull (pandas.cell r TRANSFERS_COLUMN_MIN_TRANSFER_TIME)) eqn:E;
          [by rewrite cell_insert_eq | done]. }
      destruct (isnull (pandas.cell _ TRANSFERS_COLUMN_TRANSFER_TYPE)); [|done].
      by rewrite cell_insert_ne.
    + rewrite !Forall_fmap. apply Forall_true. intros r. simpl.
      destruct (isnull (pandas.cell r TRANSFERS_COLUMN_MIN_TRANSFER_TIME)) eqn:E;
        [by rewrite cell_insert_eq | done].
  - intros [= <-]. left. split; [|done]. lia.
Qed.

(** In the frame lines 97-156 build, when its times in minutes can be
    computed, no [min_transfer_time] is missing, provided the GTFS transfers
    have no field named [dist]. *)
Lemma loaded_df_min_transfer_time (input_dir : string) (gtfs_schedule : Schedule)
    (s : state) (df : pandas.DataFrame) :
  (∀ g, g ∈ GetTransferList gtfs_schedule → TRANSFERS_COLUMN_DISTANCE ∉ _FIELD_NAMES g) →
  loaded_df float_of_str input_dir gtfs_schedule s = Ok df →
  has_minutes df →
  Forall (λ r, isnull (pandas.cell r TRANSFERS_COLUMN_MIN_TRANSFER_TIME) = false)
         (pandas.rows df).
Proof.
  intros Hfields H (Hc1 & Hc2 & _ & _). unfold loaded_df in H.
  apply bind_Ok in H as (base & Hbase & H). apply bind_Ok in H as (ft & _ & H).
  apply bind_Ok in H as (j & Hj & [= <-]).
  unfold pandas.setitem_scalar in *. cbn [pandas.columns pandas.rows] in *.
  apply elem_of_add_label in Hc1 as [Hc1|[=]]. apply elem_of_add_label in Hc2 as [Hc2|[=]].
  rewrite Forall_fmap.
  apply join_transfers_ft_Ok in Hj as [[_ ->]|[_ Hj]].
  - destruct (gtfs_transfers_df_columns _ _ _ Hbase Hc2) as [->|[[=]|(g & Hg & Hd)]].
    + constructor.
    + by destruct (Hfields g Hg).
  - eapply Forall_impl; [by apply Hj|]. intros r Hr. simpl. by rewrite cell_insert_ne.
Qed.

(** The rows of the frame a finished load leaves in [self.transfers_df]. *)
Lemma init_rows (input_dir output_dir : string) (gtfs_schedule : Schedule)
    (s s' : state) (self : t) :
  (∀ g, g ∈ GetTransferList gtfs_schedule → TRANSFERS_COLUMN_DISTANCE ∉ _FIELD_NAMES g) →
  __init__ float_of_str input_dir output_dir gtfs_schedule s = (Ok self, s') →
  ∃ df', heap s' !! transfers_df self = Some df' ∧
    ∀ r', r' ∈ pandas.rows df' →
      ∃ r, r' = final_row r ∧
           is_num (pandas.cell r TRANSFERS_COLUMN_MIN_TRANSFER_TIME) ∧
           isnull (pandas.cell r TRANSFERS_COLUMN_MIN_TRANSFER_TIME) = false ∧
           is_num (pandas.cell r TRANSFERS_COLUMN_DISTANCE) ∧
           (780 <? walk_time_of r)%float = false ∧
           is_nan (floored_time_of r) = false.
Proof.
  intros Hfields. rewrite init_run.
  destruct (loaded_df _ _ _ _) as [df|] eqn:Hdf; [|done].
  destruct (transfer_times _ _) as [[df'|] s1] eqn:Htt; [|done].
  intros [= <- <-]. exists df'. split.
  { simpl. by rewrite list_lookup_middle. }
  destruct (decide (pandas.len df > 0)) as [Hlen|Hlen].
  - apply transfer_times_Ok in Htt as (_ & Hm & Hlong & Hnan & ->); [|done].
    pose proof (loaded_df_min_transfer_time _ _ _ _ Hfields Hdf Hm) as Hnull.
    destruct Hm as (_ & _ & Hn1 & Hn2).
    unfold floored, with_minutes in *. cbn [pandas.rows] in *.
    rewrite !Forall_fmap in Hlong. rewrite !Forall_fmap in Hnan.
    intros r' Hr'. rewrite <- !list_fmap_compose in Hr'.
    apply list_elem_of_fmap in Hr' as (r & -> & Hr). exists r.
    rewrite Forall_forall in Hn1, Hn2, Hnull, Hlong, Hnan.
    specialize (Hn1 r Hr). specialize (Hn2 r Hr). specialize (Hnull r Hr).
    specialize (Hlong r Hr). specialize (Hnan r Hr). simpl in Hlong, Hnan.
    destruct (with_minutes_cells r) as [Ht _]. destruct (with_floor_cells r) as [Hf _].
    simpl in Ht, Hf. unfold too_long in Hlong. rewrite Ht in Hlong. rewrite Hf in Hnan.
    simpl in Hlong, Hnan. repeat split; try done. by destruct (780 <? _)%float.
  - unfold transfer_times in Htt. rewrite bool_decide_eq_false_2 in Htt by done.
    injection Htt as <- <-. unfold pandas.len in Hlen.
    destruct (pandas.rows df); [|simpl in Hlen; lia].
    intros r' Hr'. by apply elem_of_nil in Hr'.
Qed.

Lemma min_transfer_time_min_not_nan (r : gmap string value) :
  is_num (pandas.cell r TRANSFERS_COLUMN_MIN_TRANSFER_TIME) →
  isnull (pandas.cell r TRANSFERS_COLUMN_MIN_TRANSFER_TIME) = false →
  is_nan (min_transfer_time_min_of r) = false.
Proof.
  intros Hn Hnull. unfold min_transfer_time_min_of.
  eapply (div_not_nan _ 60); [by vm_compute | by apply num_not_nan].
Qed.

Lemma walk_time_not_nan (r : gmap string value) :
  is_nan (floored_time_of r) = false → is_nan (walk_time_of r) = false.
Proof.
  unfold floored_time_of. destruct (_ <? _)%float eqn:E; [|done].
  intros _. by apply ltb_true_not_nan in E as [? _].
Qed.

(** C5: for every row of the relation a finished load leaves, the walk time
    is at least the minimum transfer time in minutes, and it is that minimum
    whenever the walk time derived from the distance is below it. The GTFS
    transfers are taken to have no field named [dist]. *)
Theorem walk_time_min_at_least_min_transfer_time_min (input_dir output_dir : string)
    (gtfs_schedule : Schedule) (s s' : state) (self : t) :
  (∀ g, g ∈ GetTransferList gtfs_schedule → TRANSFERS_COLUMN_DISTANCE ∉ _FIELD_NAMES g) →
  __init__ float_of_str input_dir output_dir gtfs_schedule s = (Ok self, s') →
  ∃ df, heap s' !! transfers_df self = Some df ∧
    ∀ r, r ∈ pandas.rows df →
      ∃ dist time_min min_transfer_time_min,
        pandas.to_float (pandas.cell r TRANSFERS_COLUMN_DISTANCE) = Ok dist ∧
        pandas.cell r TRANSFERS_COLUMN_TIME_MIN = PyFloat time_min ∧
        pandas.cell r TRANSFERS_COLUMN_MIN_TRANSFER_TIME_MIN = PyFloat min_transfer_time_min ∧
        (min_transfer_time_min <=? time_min)%float = true ∧
        ((dist * 60 / 3 <? min_transfer_time_min)%float = true →
         time_min = min_transfer_time_min).
Proof.
  intros Hfields H. destruct (init_rows _ _ _ _ _ _ Hfields H) as (df & Hdf & Hrows).
  exists df. split; [done|]. intros r' Hr'.
  destruct (Hrows r' Hr') as (r & -> & Hn1 & Hnull & Hn2 & _ & Hnan).
  destruct (final_row_cells r) as (Hd & _ & _ & Hm & Ht & _).
  exists (num (pandas.cell r TRANSFERS_COLUMN_DISTANCE)), (floored_time_of r),
    (min_transfer_time_min_of r).
  rewrite Hd, Hm, Ht. split; [by apply to_float_num|]. split; [done|]. split; [done|].
  pose proof (min_transfer_time_min_not_nan r Hn1 Hnull) as Hmnan.
  unfold floored_time_of in *. fold (walk_time_of r).
  change (num (pandas.cell r TRANSFERS_COLUMN_DISTANCE) * 60 / 3)%float with (walk_time_of r).
  destruct (walk_time_of r <? min_transfer_time_min_of r)%float eqn:E.
  - split; [by apply leb_refl | done].
  - split; [by apply ltb_false_leb | done].
Qed.

(** C2, as the code has it: for every row of the relation a finished load
    leaves, the walk time derived from the distance is at most 780 minutes,
    and the walk time of the row is that time or, where the floor applied,
    the minimum transfer time in minutes, for which there is no bound. The
    GTFS transfers are taken to have no field named [dist]. *)
Theorem derived_walk_time_at_most_780 (input_dir output_dir : string)
    (gtfs_schedule : Schedule) (s s' : state) (self : t) :
  (∀ g, g ∈ GetTransferList gtfs_schedule → TRANSFERS_COLUMN_DISTANCE ∉ _FIELD_NAMES g) →
  __init__ float_of_str input_dir output_dir gtfs_schedule s = (Ok self, s') →
  ∃ df, heap s' !! transfers_df self = Some df ∧
    ∀ r, r ∈ pandas.rows df →
      ∃ dist time_min min_transfer_time_min,
        pandas.to_float (pandas.cell r TRANSFERS_COLUMN_DISTANCE) = Ok dist ∧
        pandas.cell r TRANSFERS_COLUMN_TIME_MIN = PyFloat time_min ∧
        pandas.cell r TRANSFERS_COLUMN_MIN_TRANSFER_TIME_MIN = PyFloat min_transfer_time_min ∧
        (dist * 60 / 3 <=? 780)%float = true ∧
        (time_min = (dist * 60 / 3)%float ∨ time_min = min_transfer_time_min).
Proof.
  intros Hfields H. destruct (init_rows _ _ _ _ _ _ Hfields H) as (df & Hdf & Hrows).
  exists df. split; [done|]. intros r' Hr'.
  destruct (Hrows r' Hr') as (r & -> & Hn1 & Hnull & Hn2 & Hlong & Hnan).
  destruct (final_row_cells r) as (Hd & _ & _ & Hm & Ht & _).
  exists (num (pandas.cell r TRANSFERS_COLUMN_DISTANCE)), (floored_time_of r),
    (min_transfer_time_min_of r).
  rewrite Hd, Hm, Ht. split; [by apply to_float_num|]. split; [done|]. split; [done|].
  change (num (pandas.cell r TRANSFERS_COLUMN_DISTANCE) * 60 / 3)%float with (walk_time_of r).
  split.
  - apply ltb_false_leb; [done | by apply walk_time_not_nan | done].
  - unfold floored_time_of.
    destruct (walk_time_of r <? min_transfer_time_min_of r)%float; [by right | by left].
Qed.

End Load.

(** ** The join *)

Section Join.

Import Transfer.

Lemma list_to_map_lookup_first {A} (l : list (string * A)) (k : string) (v : A) :
  (k, v) ∈ l → (∀ v', (k, v') ∈ l → v' = v) →
  (list_to_map l : gmap string A) !! k = Some v.
Proof.
  induction l as [|[k' w] l IH]; [by intros ?%elem_of_nil|].
  intros Hin Huniq. rewrite list_to_map_cons.
  destruct (decide (k' = k)) as [->|Hne].
  - rewrite lookup_insert_eq. f_equal. apply Huniq. by left.
  - rewrite lookup_insert_ne by done. apply IH.
    + apply elem_of_cons in Hin as [[= ? ?]|?]; [congruence | done].
    + intros v' Hv'. apply Huniq. by right.
Qed.

Lemma NoDup_fmap_inj {A B} (f : A → B) (l : list A) (a b : A) :
  NoDup (f <$> l) → a ∈ l → b ∈ l → f a = f b → a = b.
Proof.
  induction l as [|x l IH]; [by intros _ ?%elem_of_nil|].
  rewrite fmap_cons, NoDup_cons. intros [Hx Hl] Ha Hb Hab.
  apply elem_of_cons in Ha as [->|Ha]; apply elem_of_cons in Hb as [->|Hb]; try done.
  - destruct Hx. rewrite Hab. by apply list_elem_of_fmap_2.
  - destruct Hx. rewrite <- Hab. by apply list_elem_of_fmap_2.
  - by apply IH.
Qed.

Section Merge.

Variables (left right : pandas.DataFrame) (on : list string).

Hypothesis on_left : ∀ k, k ∈ on → k ∈ pandas.columns left.

Hypothesis labels_NoDup :
  NoDup ((pandas.left_label left right on <$> pandas.columns left) ++
         (pandas.right_label left right on <$>
            filter (λ c, c ∉ on) (pandas.columns right))).

Lemma left_label_key k : k ∈ on → pandas.left_label left right on k = k.
Proof. intros. unfold pandas.left_label. by rewrite bool_decide_eq_true_2. Qed.

Lemma right_label_key k : k ∈ on → pandas.right_label left right on k = k.
Proof. intros. unfold pandas.right_label. by rewrite bool_decide_eq_true_2. Qed.

Lemma left_label_inj a b :
  a ∈ pandas.columns left → b ∈ pandas.columns left →
  pandas.left_label left right on a = pandas.left_label left right on b → a = b.
Proof.
  apply NoDup_fmap_inj. by apply NoDup_app in labels_NoDup as [? _].
Qed.

Lemma right_label_inj a b :
  a ∈ pandas.columns right → a ∉ on → b ∈ pandas.columns right → b ∉ on →
  pandas.right_label left right on a = pandas.right_label left right on b → a = b.
Proof.
  intros Ha Ha' Hb Hb'.
  apply (NoDup_fmap_inj _ (filter (λ c, c ∉ on) (pandas.columns right))).
  - by apply NoDup_app in labels_NoDup as (_ & _ & ?).
  - by apply list_elem_of_filter.
  - by apply list_elem_of_filter.
Qed.

Lemma left_right_label_ne a b :
  a ∈ pandas.columns left → b ∈ pandas.columns right → b ∉ on →
  pandas.left_label left right on a ≠ pandas.right_label left right on b.
Proof.
  intros Ha Hb Hb' Heq. apply NoDup_app in labels_NoDup as (_ & Hdisj & _).
  apply (Hdisj (pandas.left_label left right on a)).
  - by apply list_elem_of_fmap_2.
  - rewrite Heq. apply list_elem_of_fmap_2. by apply list_elem_of_filter.
Qed.

(** In a row of the result the cells of the right row are under their
    labels. *)
Lemma join_rows_right (l : option (gmap string value)) (r : gmap string value) (c : string) :
  c ∈ pandas.columns right →
  pandas.cell (pandas.join_rows left right on l r) (pandas.right_label left right on c) =
  pandas.cell r c.
Proof.
  intros Hc. unfold pandas.cell at 1, pandas.join_rows.
  rewrite (list_to_map_lookup_first _ _ (pandas.cell r c)); [done| |].
  - apply elem_of_app. left. apply list_elem_of_fmap. by exists c.
  - intros v' [Hv'|Hv']%elem_of_app.
    + apply list_elem_of_fmap in Hv' as (c' & [= Hl ->] & Hc').
      f_equal. symmetry. destruct (decide (c ∈ on)) as [Hk|Hk], (decide (c' ∈ on)) as [Hk'|Hk'].
      * by rewrite !right_label_key in Hl.
      * rewrite right_label_key in Hl by done.
        destruct (left_right_label_ne c c'); [by apply on_left | done..|].
        by rewrite left_label_key.
      * rewrite (right_label_key c') in Hl by done.
        destruct (left_right_label_ne c' c); [by apply on_left | done..|].
        by rewrite left_label_key.
      * by apply right_label_inj.
    + apply list_elem_of_fmap in Hv' as (c' & [= Hl ->] & [Hk' Hc']%list_elem_of_filter).
      destruct (decide (c ∈ on)) as [Hk|Hk].
      * rewrite right_label_key in Hl by done. rewrite <- (left_label_key c) in Hl by done.
        apply left_label_inj in Hl; [congruence | by apply on_left | done].
      * by destruct (left_right_label_ne c' c).
Qed.

(** ... and the cells of the left row, or missing values, are under
    theirs. *)
Lemma join_rows_left (l : option (gmap string value)) (r : gmap string value) (c : string) :
  c ∈ pandas.columns left → c ∉ on →
  pandas.cell (pandas.join_rows left right on l r) (pandas.left_label left right on c) =
  from_option (λ l, pandas.cell l c) NaN l.
Proof.
  intros Hc Hk. unfold pandas.cell at 1, pandas.join_rows.
  rewrite (list_to_map_lookup_first _ _ (from_option (λ l, pandas.cell l c) NaN l)); [done| |].
  - apply elem_of_app. right. apply list_elem_of_fmap. exists c.
    split; [done | by apply list_elem_of_filter].
  - intros v' [Hv'|Hv']%elem_of_app.
    + apply list_elem_of_fmap in Hv' as (c' & [= Hl ->] & Hc').
      destruct (decide (c' ∈ on)) as [Hk'|Hk'].
      * rewrite right_label_key in Hl by done. rewrite <- (left_label_key c') in Hl by done.
        apply left_label_inj in Hl; [congruence | done | by apply on_left].
      * by destruct (left_right_label_ne c c').
    + apply list_elem_of_fmap in Hv' as (c' & [= Hl ->] & [Hk' Hc']%list_elem_of_filter).
      apply left_label_inj in Hl; [by subst | done..].
Qed.

End Merge.

Lemma merge_right_Ok (left right m : pandas.DataFrame) (on : list string) :
  pandas.merge_right left right on = Ok m →
  (∀ k, k ∈ on → k ∈ pandas.columns left) ∧
  NoDup ((pandas.left_label left right on <$> pandas.columns left) ++
         (pandas.right_label left right on <$>
            filter (λ c, c ∉ on) (pandas.columns right))) ∧
  pandas.columns m =
    (pandas.left_label left right on <$> pandas.columns left) ++
    (pandas.right_label left right on <$> filter (λ c, c ∉ on) (pandas.columns right)) ∧
  pandas.rows m = mjoin (pandas.merge_row left right on <$> pandas.rows right).
Proof.
  unfold pandas.merge_right.
  destruct (filter _ on) as [|k ks] eqn:Hkeys; [|done].
  case_bool_decide as Hdup; [|done]. intros [= <-]. split; [|done].
  intros k Hk. destruct (decide (k ∈ pandas.columns left)) as [|Hn]; [done|].
  assert (k ∈ filter (λ k, k ∉ pandas.columns right ∨ k ∉ pandas.columns left) on) as Hin.
  { apply list_elem_of_filter. split; [by right | done]. }
  rewrite Hkeys in Hin. by apply elem_of_nil in Hin.
Qed.

Lemma fill_one_cell (label c : string) (r : gmap string value) :
  pandas.cell (fill_one label r) c =
  if bool_decide (c = label) && isnull (pandas.cell r c) then PyInt 0 else pandas.cell r c.
Proof.
  unfold fill_one. case_bool_decide as Hc; simpl.
  - subst c. destruct (isnull _) eqn:E; [by rewrite cell_insert_eq | done].
  - destruct (isnull (pandas.cell r label)); [by rewrite cell_insert_ne | done].
Qed.

Ltac filled_cases c :=
  unfold filled; rewrite ?fill_one_cell;
  destruct (decide (c = TRANSFERS_COLUMN_MIN_TRANSFER_TIME)) as [->|?];
  [| destruct (decide (c = TRANSFERS_COLUMN_TRANSFER_TYPE)) as [->|?] ];
  rewrite ?bool_decide_eq_true_2, ?bool_decide_eq_false_2 by done; simpl;
  rewrite ?bool_decide_eq_true_2, ?bool_decide_eq_false_2 by done; simpl.

Lemma fillna_rows (m : pandas.DataFrame) :
  ∃ g, pandas.rows (pandas.fillna m [(TRANSFERS_COLUMN_MIN_TRANSFER_TIME, PyInt 0);
                                     (TRANSFERS_COLUMN_TRANSFER_TYPE, PyInt 0)]) =
         g <$> pandas.rows m ∧
       ∀ r c, c ∈ pandas.columns m → pandas.cell (g r) c = filled c (pandas.cell r c).
Proof.
  unfold pandas.fillna. simpl.
  case_bool_decide as H1; cbn [pandas.columns]; case_bool_decide as H2; cbn [pandas.rows].
  - exists (fill_one TRANSFERS_COLUMN_TRANSFER_TYPE ∘ fill_one TRANSFERS_COLUMN_MIN_TRANSFER_TIME).
    split; [by rewrite list_fmap_compose|]. intros r c _. simpl.
    filled_cases c; done.
  - exists (fill_one TRANSFERS_COLUMN_TRANSFER_TYPE).
    split; [reflexivity|]. intros r c Hc. filled_cases c; done.
  - exists (fill_one TRANSFERS_COLUMN_MIN_TRANSFER_TIME).
    split; [reflexivity|]. intros r c Hc. filled_cases c; done.
  - exists id. split; [by rewrite list_fmap_id|]. intros r c Hc. simpl.
    filled_cases c; done.
Qed.

Lemma fmap_mjoin {A B} (f : A → B) (ls : list (list A)) :
  f <$> mjoin ls = mjoin (fmap f <$> ls).
Proof. induction ls as [|l ls IH]; csimpl; [done|]. by rewrite fmap_app, IH. Qed.

(** C3, as the code has it: with no supplemental row there is no join and
    the base relation stays as it is. Otherwise the joined relation is made
    of one block of rows per supplemental row, in order, and every row of
    the block holds the supplemental row. The block of a supplemental row
    whose key no base-feed row has is one row, beside missing values; the
    block of one whose key some base-feed rows have is one row beside each
    of them, in their order, and nothing else. So each supplemental row is
    there once for each base-feed row with its key, exactly once when at
    most one base-feed row has its key, and a base-feed row is there only
    beside a supplemental row with its key. *)
Theorem join_is_driven_by_supplemental_rows (base ft j : pandas.DataFrame) :
  join_transfers_ft base ft = Ok j →
  (pandas.len ft = 0 → j = base) ∧
  (pandas.len ft > 0 →
   ∃ blocks, pandas.rows j = mjoin blocks ∧
     Forall2 (λ r block,
                Forall (λ o, holds_supplemental base ft o r) block ∧
                match matching base r with
                | [] => ∃ o, block = [o] ∧ holds_base base ft o None
                | ls => Forall2 (λ l o, holds_base base ft o (Some l)) ls block
                end)
             (pandas.rows ft) blocks).
Proof.
  unfold join_transfers_ft. case_bool_decide as Hlen.
  2:{ intros [= <-]. split; [done | lia]. }
  intros H. split; [lia|]. intros _.
  apply bind_Ok in H as (m & Hm & Hj).
  assert (j = pandas.fillna m [(TRANSFERS_COLUMN_MIN_TRANSFER_TIME, PyInt 0);
                               (TRANSFERS_COLUMN_TRANSFER_TYPE, PyInt 0)]) as ->
    by (by injection Hj).
  clear Hj. apply merge_right_Ok in Hm as (Hon & Hdup & Hcols & Hrows).
  destruct (fillna_rows m) as (g & -> & Hg). rewrite Hrows, fmap_mjoin, <- list_fmap_compose.
  eexists. split; [done|]. apply Forall2_fmap_r, Forall_Forall2_diag, Forall_forall.
  intros r _. simpl. fold (matching base r).
  set (on := [TRANSFERS_COLUMN_FROM_STOP; TRANSFERS_COLUMN_TO_STOP]) in *.
  assert (∀ l, holds_supplemental base ft (g (pandas.join_rows base ft on l r)) r ∧
               holds_base base ft (g (pandas.join_rows base ft on l r)) l) as Hrow.
  { intros l. split.
    - intros c Hc label. unfold label. fold on.
      rewrite Hg; [by rewrite (join_rows_right base ft on Hon Hdup)|].
      rewrite Hcols. apply elem_of_app.
      destruct (decide (c ∈ on)) as [Hk|Hk].
      + left. rewrite right_label_key by done. rewrite <- (left_label_key base ft _ c) by done.
        apply list_elem_of_fmap_2. by apply Hon.
      + right. apply list_elem_of_fmap_2. by apply list_elem_of_filter.
    - intros c Hc Hk label. unfold label. fold on.
      rewrite Hg; [by rewrite (join_rows_left base ft on Hon Hdup)|].
      rewrite Hcols. apply elem_of_app. left. by apply list_elem_of_fmap_2. }
  subst on. unfold pandas.merge_row. fold (matching base r).
  destruct (matching base r) as [|l0 ls] eqn:Hmatch.
  - split.
    + rewrite Forall_fmap, Forall_singleton. simpl. by apply Hrow.
    + eexists. split; [reflexivity|]. by apply Hrow.
  - split.
    + rewrite !Forall_fmap. apply Forall_forall. intros l Hl. simpl. by apply Hrow.
    + rewrite <- list_fmap_compose. apply Forall2_fmap_r, Forall_Forall2_diag, Forall_forall.
      intros l Hl. simpl. by apply Hrow.
Qed.

End Join.

(** ** Worked examples *)

Section Examples.

Import Transfer.

Ltac compute_lhs :=
  match goal with
  | |- ?l = _ => let v := eval vm_compute in l in change l with v
  end.

Lemma too_long_transfer_aborts_load_witness :
  ∃ s', long_walk =
          (Raise (NetworkInputError "transfers_ft.txt" (too_long_msg (with_minutes long_walk_loaded))),
           s') ∧
        files s' = files (on_disk (example_ft [("A", "B", 1000%float)])).
Proof.
  edestruct (too_long_transfer_aborts_load example_float "in" "out"
               {| GetTransferList := [example_transfer "A" "B" (PyInt 0) (PyInt 0)] |}
               (on_disk (example_ft [("A", "B", 1000%float)])) long_walk_loaded)
    as (s' & E & Hf & _).
  - by vm_compute.
  - repeat split; vm_compute; repeat constructor.
  - eexists. split; [vm_compute; left | by vm_compute].
  - exists s'. by split.
Defined.

(** With six rows over 780 minutes the message counts six and the logged
    frame has the first five: the row from A6 is not logged. *)
Lemma six_long_walks_logged :
  six_long_walks.1 =
    Raise (NetworkInputError "transfers_ft.txt"
             "Found 6 excessively long transfer links out of 6 total transfer links. Expected distances are in miles. Unit problem?") ∧
  ∃ df, last (FastTripsLogger six_long_walks.2) = Some (FATAL, [Text nl; Str df; Text nl]) ∧
        column "from_stop_id" df = [PyStr "A1"; PyStr "A2"; PyStr "A3"; PyStr "A4"; PyStr "A5"].
Proof.
  split; [by vm_compute|]. eexists. split; [compute_lhs; reflexivity | by vm_compute].
Qed.

Lemma example_fields (from_stop to_stop : string) (transfer_type min_transfer_time : value) g :
  g ∈ [example_transfer from_stop to_stop transfer_type min_transfer_time] →
  TRANSFERS_COLUMN_DISTANCE ∉ _FIELD_NAMES g.
Proof.
  intros ->%list_elem_of_singleton. simpl.
  rewrite !not_elem_of_cons. repeat split; try done. apply not_elem_of_nil.
Qed.

(** The slow transfer loads, and its walk time is 1000 minutes. *)
Lemma slow_transfer_walk_time :
  slow_transfer.1 = Ok example_self ∧
  column TRANSFERS_COLUMN_TIME_MIN <$> loaded_frame slow_transfer = Some [PyFloat 1000] ∧
  (1000 <=? 780)%float = false.
Proof. by vm_compute. Qed.

Lemma derived_walk_time_at_most_780_witness :
  ∃ df, heap slow_transfer.2 !! transfers_df example_self = Some df ∧
    ∀ r, r ∈ pandas.rows df →
      ∃ dist time_min min_transfer_time_min,
        pandas.to_float (pandas.cell r TRANSFERS_COLUMN_DISTANCE) = Ok dist ∧
        pandas.cell r TRANSFERS_COLUMN_TIME_MIN = PyFloat time_min ∧
        pandas.cell r TRANSFERS_COLUMN_MIN_TRANSFER_TIME_MIN = PyFloat min_transfer_time_min ∧
        (dist * 60 / 3 <=? 780)%float = true ∧
        (time_min = (dist * 60 / 3)%float ∨ time_min = min_transfer_time_min).
Proof.
  apply (derived_walk_time_at_most_780 example_float "in" "out"
           {| GetTransferList := [example_transfer "A" "B" (PyInt 2) (PyInt 60000)] |}
           (on_disk (example_ft [("A", "B", 0.5%float)]))).
  - apply example_fields.
  - by vm_compute.
Defined.

Lemma walk_time_min_at_least_min_transfer_time_min_witness :
  ∃ df, heap slow_transfer.2 !! transfers_df example_self = Some df ∧
    ∀ r, r ∈ pandas.rows df →
      ∃ dist time_min min_transfer_time_min,
        pandas.to_float (pandas.cell r TRANSFERS_COLUMN_DISTANCE) = Ok dist ∧
        pandas.cell r TRANSFERS_COLUMN_TIME_MIN = PyFloat time_min ∧
        pandas.cell r TRANSFERS_COLUMN_MIN_TRANSFER_TIME_MIN = PyFloat min_transfer_time_min ∧
        (min_transfer_time_min <=? time_min)%float = true ∧
        ((dist * 60 / 3 <? min_transfer_time_min)%float = true →
         time_min = min_transfer_time_min).
Proof.
  apply (walk_time_min_at_least_min_transfer_time_min example_float "in" "out"
           {| GetTransferList := [example_transfer "A" "B" (PyInt 2) (PyInt 60000)] |}
           (on_disk (example_ft [("A", "B", 0.5%float)]))).
  - apply example_fields.
  - by vm_compute.
Defined.

(** Two base-feed rows with the key of one supplemental row put it in the
    joined relation twice; and with no supplemental row the two base-feed
    rows stay. *)
Lemma supplemental_row_joined_twice :
  (∃ j, join_transfers_ft two_transfers_A_B (pandas.of_csv (example_ft [("A", "B", 0.5%float)]))
          = Ok j ∧
        column TRANSFERS_COLUMN_FROM_STOP j = [PyStr "A"; PyStr "A"] ∧
        column TRANSFERS_COLUMN_TO_STOP j = [PyStr "B"; PyStr "B"] ∧
        column TRANSFERS_COLUMN_DISTANCE j = [PyFloat 0.5; PyFloat 0.5] ∧
        column TRANSFERS_COLUMN_TRANSFER_TYPE j = [PyInt 0; PyInt 2]) ∧
  (∃ j, join_transfers_ft two_transfers_A_B (pandas.of_csv (example_ft [])) = Ok j ∧
        column TRANSFERS_COLUMN_FROM_STOP j = [PyStr "A"; PyStr "A"]).
Proof.
  split; eexists; (split; [compute_lhs; reflexivity | by vm_compute]).
Qed.

Lemma join_is_driven_by_supplemental_rows_witness :
  ∃ j, join_transfers_ft two_transfers_A_B (pandas.of_csv (example_ft [("A", "B", 0.5%float)]))
         = Ok j ∧
       (pandas.len (pandas.of_csv (example_ft [("A", "B", 0.5%float)])) > 0 →
        ∃ blocks, pandas.rows j = mjoin blocks ∧
          Forall2 (λ r block,
                     Forall (λ o, holds_supplemental two_transfers_A_B
                                    (pandas.of_csv (example_ft [("A", "B", 0.5%float)])) o r)
                            block ∧
                     match matching two_transfers_A_B r with
                     | [] => ∃ o, block = [o] ∧
                                  holds_base two_transfers_A_B
                                    (pandas.of_csv (example_ft [("A", "B", 0.5%float)])) o None
                     | ls => Forall2 (λ l o, holds_base two_transfers_A_B
                                               (pandas.of_csv (example_ft [("A", "B", 0.5%float)]))
                                               o (Some l)) ls block
                     end)
                  (pandas.rows (pandas.of_csv (example_ft [("A", "B", 0.5%float)]))) blocks).
Proof.
  eexists. split; [compute_lhs; reflexivity|].
  eapply (join_is_driven_by_supplemental_rows two_transfers_A_B
            (pandas.of_csv (example_ft [("A", "B", 0.5%float)]))).
  by vm_compute.
Defined.

(** C4 fails on the code: with no GTFS transfer the supplemental file's own
    [min_transfer_time] is kept for a row whose [transfer_type] is 0, and it
    floors nothing here only because the walk takes longer. *)
Theorem supplemental_min_transfer_time_is_not_zeroed :
  supplemental_min_transfer_time.1 = Ok example_self ∧
  column TRANSFERS_COLUMN_TRANSFER_TYPE <$> loaded_frame supplemental_min_transfer_time
    = Some [PyInt 0] ∧
  column TRANSFERS_COLUMN_MIN_TRANSFER_TIME <$> loaded_frame supplemental_min_transfer_time
    = Some [PyInt 300] ∧
  column TRANSFERS_COLUMN_MIN_TRANSFER_TIME_MIN <$> loaded_frame supplemental_min_transfer_time
    = Some [PyFloat 5].
Proof. by vm_compute. Qed.

(** Without [dist] in the supplemental file the load stops on the third
    assertion: the error names neither the file nor the column. *)
Lemma no_dist_is_an_assertion_error :
  no_dist = (Raise AssertionError, on_disk ft_without_dist).
Proof. by vm_compute. Qed.

Lemma missing_column_fails_load_witness :
  ∃ e, no_dist = (Raise e, on_disk ft_without_dist) ∧
       ∀ file msg, e ≠ NetworkInputError file msg.
Proof.
  edestruct (missing_column_fails_load example_float "in" "out"
               {| GetTransferList := [example_transfer "A" "B" (PyInt 0) (PyInt 0)] |}
               (on_disk ft_without_dist) ft_without_dist TRANSFERS_COLUMN_DISTANCE)
    as (e & E & _ & He).
  - by vm_compute.
  - unfold required_columns. do 2 right. left.
  - simpl. rewrite !not_elem_of_cons. repeat split; try done. apply not_elem_of_nil.
  - exists e. by split.
Defined.

Lemma exported_file_has_no_infeasible_transfer_witness :
  heap (write_transfers_for_extension example_self (store_of resolved_frame)).2 !! 0 =
    Some resolved_frame ∧
  ∃ f, files (write_transfers_for_extension example_self (store_of resolved_frame)).2
         !! output_path example_self = Some f ∧
       ∀ a b v, [a; b; PyStr TRANSFERS_COLUMN_TRANSFER_TYPE; v] ∈ pandas.records f →
                pandas.eq_int v 3 = false.
Proof.
  destruct (exported_file_has_no_infeasible_transfer example_self (store_of resolved_frame)
              (write_transfers_for_extension example_self (store_of resolved_frame)).2
              resolved_frame) as (Hheap & f & Hf & _ & Hno).
  - done.
  - by vm_compute.
  - split; [done|]. by exists f.
Defined.

Lemma export_is_idempotent_witness :
  ∃ s2, write_transfers_for_extension example_self
          (write_transfers_for_extension example_self (store_of resolved_frame)).2 = (Ok (), s2) ∧
        files s2 = files (write_transfers_for_extension example_self (store_of resolved_frame)).2.
Proof.
  apply (export_is_idempotent example_self (store_of resolved_frame)). by vm_compute.
Defined.

Lemma export_leaves_transfers_df_witness :
  heap (write_transfers_for_extension example_self (store_of resolved_frame)).2
    !! transfers_df example_self = Some resolved_frame.
Proof. by apply (export_leaves_transfers_df example_self (store_of resolved_frame)). Defined.

Lemma add_numeric_stop_id_empty_witness :
  add_numeric_stop_id example_self {| stop_id_num := {[ "A" := 1%Z ]} |}
    (store_of (pandas.DataFrame_columns [TRANSFERS_COLUMN_FROM_STOP; TRANSFERS_COLUMN_TO_STOP]))
  = (Ok example_self,
     store_of (pandas.DataFrame_columns [TRANSFERS_COLUMN_FROM_STOP; TRANSFERS_COLUMN_TO_STOP])).
Proof.
  by apply (add_numeric_stop_id_empty example_self _ _
              (pandas.DataFrame_columns [TRANSFERS_COLUMN_FROM_STOP; TRANSFERS_COLUMN_TO_STOP])).
Defined.

End Examples.

(** * Further properties *)

Ltac by_compute := apply (bool_decide_unpack _); vm_compute; exact I.

(** ** The exported table *)

Section ExportTable.

Import Transfer.

Lemma filter_nil_iff {A} (P : A → Prop) `{∀ x, Decision (P x)} (l : list A) :
  filter P l = [] ↔ ∀ x, x ∈ l → ¬ P x.
Proof.
  split.
  - intros Hf x Hx HP. by apply (filter_nil_not_elem_of P l x).
  - intros Hl. induction l as [|x l IH]; [done|].
    rewrite filter_cons. destruct (decide (P x)) as [HP|_].
    + destruct (Hl x); [by left | done].
    + apply IH. intros y Hy. apply Hl. by right.
Qed.

Lemma drop_returns df labels :
  (∃ df', pandas.drop df labels = Ok df') ↔ ∀ c, c ∈ labels → c ∈ pandas.columns df.
Proof.
  unfold pandas.drop. destruct (filter _ labels) as [|c cs] eqn:E.
  - split; [|by eexists]. intros _ c Hc.
    destruct (decide (c ∈ pandas.columns df)) as [|Hn]; [done|].
    by destruct (proj1 (filter_nil_iff _ _) E c Hc).
  - split; [by intros [? [=]]|]. intros Hall.
    assert (c ∈ filter (λ c, c ∉ pandas.columns df) labels) as Hc by (rewrite E; by left).
    apply list_elem_of_filter in Hc as [Hn Hc]. destruct Hn. by apply Hall.
Qed.

Lemma set_index_returns df keys :
  (∃ df', pandas.set_index df keys = Ok df') ↔ ∀ c, c ∈ keys → c ∈ pandas.columns df.
Proof.
  unfold pandas.set_index. destruct (filter _ keys) as [|c cs] eqn:E.
  - split; [|by eexists]. intros _ c Hc.
    destruct (decide (c ∈ pandas.columns df)) as [|Hn]; [done|].
    by destruct (proj1 (filter_nil_iff _ _) E c Hc).
  - split; [by intros [? [=]]|]. intros Hall.
    assert (c ∈ filter (λ c, c ∉ pandas.columns df) keys) as Hc by (rewrite E; by left).
    apply list_elem_of_filter in Hc as [Hn Hc]. destruct Hn. by apply Hall.
Qed.

Lemma getitem_returns df c :
  (∃ s, pandas.getitem df c = Ok s) ↔ c ∈ pandas.columns df.
Proof.
  unfold pandas.getitem. case_bool_decide; [|by split; [intros [? [=]]|]].
  split; [done | by eexists].
Qed.

(** The export frame can be made exactly when the frame has the columns
    the step reads. *)
Lemma export_frame_returns (df : pandas.DataFrame) :
  (∃ out, export_frame df = Ok out) ↔ ∀ c, c ∈ export_columns → c ∈ pandas.columns df.
Proof.
  unfold export_frame. split.
  - intros [out H].
    apply bind_Ok in H as (tt & Htt & H).
    apply bind_Ok in H as (df1 & Hdrop & H).
    apply bind_Ok in H as (time_min & Htm & H).
    apply bind_Ok in H as (df2 & Hidx & _).
    assert (TRANSFERS_COLUMN_TRANSFER_TYPE ∈ pandas.columns df) as Hc1
      by (apply getitem_returns; by eexists).
    assert (∀ c, c ∈ dropped_columns → c ∈ pandas.columns df) as Hc2.
    { apply (drop_returns (pandas.loc df (pandas.ne tt 3))). by eexists. }
    apply drop_Ok in Hdrop as ->.
    apply getitem_Ok in Htm as [[_ Hc3]%list_elem_of_filter _].
    pose proof (proj1 (set_index_returns _ _) (ex_intro _ df2 Hidx)) as Hc4.
    cbn [pandas.columns pandas.setitem pandas.loc] in Hc3, Hc4.
    intros c. unfold export_columns. rewrite elem_of_cons, elem_of_app.
    intros [->|[Hc|Hc]]; [done | by apply Hc2 |].
    apply elem_of_cons in Hc as [->|Hc]; [done|].
    specialize (Hc4 c Hc). apply elem_of_add_label in Hc4 as [Hc4| ->].
    + by apply list_elem_of_filter in Hc4 as [_ ?].
    + by repeat (apply elem_of_cons in Hc as [[=]|Hc]); apply elem_of_nil in Hc.
  - intros Hall.
    rewrite getitem_fmap by (apply Hall; by left). simpl.
    destruct (proj2 (drop_returns
                (pandas.loc df (pandas.ne ((λ r, pandas.cell r TRANSFERS_COLUMN_TRANSFER_TYPE)
                                             <$> pandas.rows df) 3)) dropped_columns))
      as [df1 Hdrop].
    { intros c Hc. apply Hall. right. apply elem_of_app. by left. }
    unfold dropped_columns in Hdrop. rewrite Hdrop. simpl.
    apply drop_Ok in Hdrop as ->.
    rewrite getitem_fmap.
    2:{ cbn [pandas.columns pandas.loc]. apply list_elem_of_filter. split.
        - by_compute.
        - apply Hall. right. apply elem_of_app. right. by left. }
    simpl.
    match goal with |- context [pandas.set_index ?d ?k] =>
      destruct (proj2 (set_index_returns d k)) as [df2 Hidx] end.
    { intros c Hc. cbn [pandas.columns pandas.setitem pandas.loc].
      apply elem_of_add_label. left. apply list_elem_of_filter. split.
      - repeat (apply elem_of_cons in Hc as [->|Hc]; [by_compute|]).
        by apply elem_of_nil in Hc.
      - apply Hall. right. apply elem_of_app. right. by right. }
    rewrite Hidx. simpl. by eexists.
Qed.

Lemma omap_ext_in {A B} (f g : A → option B) (l : list A) :
  (∀ x, x ∈ l → f x = g x) → omap f l = omap g l.
Proof.
  intros H. apply list_omap_ext, Forall_Forall2_diag, Forall_forall. exact H.
Qed.

(** What is written for a frame keyed on the two numeric stop ids. *)
Lemma stacked_table (cols : list string) (rs : list (gmap string value)) :
  pandas.to_csv
    (pandas.rename
       (pandas.stack_reset_index
          {| pandas.index := [TRANSFERS_COLUMN_FROM_STOP_NUM; TRANSFERS_COLUMN_TO_STOP_NUM];
             pandas.columns := cols; pandas.rows := rs |})
       [("level_2", "attr_name"); ("0", "attr_value")]) =
  {| pandas.header := [TRANSFERS_COLUMN_FROM_STOP_NUM; TRANSFERS_COLUMN_TO_STOP_NUM;
                       "attr_name"; "attr_value"];
     pandas.records :=
       mjoin ((λ r, omap (λ c, if isnull (pandas.cell r c) then None
                               else Some [pandas.cell r TRANSFERS_COLUMN_FROM_STOP_NUM;
                                          pandas.cell r TRANSFERS_COLUMN_TO_STOP_NUM;
                                          PyStr c; pandas.cell r c]) cols) <$> rs) |}.
Proof.
  unfold pandas.to_csv, pandas.rename, pandas.stack_reset_index.
  cbn [pandas.rows pandas.columns pandas.index pandas.header pandas.records].
  f_equal. rewrite <- list_fmap_compose, fmap_mjoin.
  f_equal. unfold pandas.index_key. cbn [pandas.index].
  rewrite (imap_ext _ (const (λ r, omap (λ c, if isnull (pandas.cell r c) then None
     else Some (list_to_map ([(TRANSFERS_COLUMN_FROM_STOP_NUM, pandas.cell r TRANSFERS_COLUMN_FROM_STOP_NUM);
                              (TRANSFERS_COLUMN_TO_STOP_NUM, pandas.cell r TRANSFERS_COLUMN_TO_STOP_NUM)] ++
                             [("level_2", PyStr c); ("0", pandas.cell r c)]) : gmap string value)) cols)))
    by done.
  rewrite imap_const, <- list_fmap_compose.
  apply list_fmap_ext. intros _ r _. simpl.
  rewrite list_fmap_omap. apply omap_ext_in. intros c _.
  by destruct (isnull (pandas.cell r c)).
Qed.

Lemma export_row_cell (r : gmap string value) (c : string) :
  c = "walk_time_min" ∨ c ∉ dropped_columns →
  pandas.cell (<["walk_time_min" :=
                   pandas.cell (foldr delete r dropped_columns) TRANSFERS_COLUMN_TIME_MIN]>
                 (foldr delete r dropped_columns)) c = exported_value r c.
Proof.
  intros Hc. unfold exported_value. case_bool_decide as Hw.
  - subst c. rewrite cell_insert_eq. apply cell_deletes. by_compute.
  - rewrite cell_insert_ne by done. apply cell_deletes. by destruct Hc.
Qed.

(** The table the export step writes, as a function of the frame. *)
Lemma export_frame_table (df out : pandas.DataFrame) :
  export_frame df = Ok out → pandas.to_csv out = exported_table df.
Proof.
  unfold export_frame. intros H.
  apply bind_Ok in H as (tt & [_ ->]%getitem_Ok & H).
  apply bind_Ok in H as (df1 & ->%drop_Ok & H).
  apply bind_Ok in H as (time_min & [_ ->]%getitem_Ok & H).
  apply bind_Ok in H as (df2 & ->%set_index_Ok & H).
  injection H as <-.
  match goal with |- context [pandas.stack_reset_index ?d] =>
    change d with {| pandas.index := [TRANSFERS_COLUMN_FROM_STOP_NUM; TRANSFERS_COLUMN_TO_STOP_NUM];
                     pandas.columns := pandas.columns d; pandas.rows := pandas.rows d |} end.
  rewrite stacked_table. unfold exported_table, exported_records. f_equal. f_equal.
  unfold pandas.setitem. cbn [pandas.rows pandas.columns pandas.index pandas.loc].
  rewrite zip_with_fmap_same, loc_ne_rows, <- !list_fmap_compose.
  apply list_fmap_ext. intros _ r _. unfold compose. cbv beta.
  apply omap_ext_in. intros c Hc. unfold exported_record.
  change [TRANSFERS_COLUMN_TIME; TRANSFERS_COLUMN_FROM_STOP; TRANSFERS_COLUMN_TO_STOP;
          TRANSFERS_COLUMN_MIN_TRANSFER_TIME; TRANSFERS_COLUMN_SCHEDULE_PRECEDENCE;
          TRANSFERS_COLUMN_FROM_ROUTE; TRANSFERS_COLUMN_TO_ROUTE] with dropped_columns in *.
  apply list_elem_of_filter in Hc as [_ Hc].
  assert (c = "walk_time_min" ∨ c ∉ dropped_columns) as Hkept.
  { apply elem_of_add_label in Hc as [Hc|?]; [|by left].
    right. by apply list_elem_of_filter in Hc as [? _]. }
  pose proof (export_row_cell r c Hkept) as Hv.
  pose proof (export_row_cell r TRANSFERS_COLUMN_FROM_STOP_NUM) as Hfrom.
  pose proof (export_row_cell r TRANSFERS_COLUMN_TO_STOP_NUM) as Hto.
  unfold dropped_columns in Hv, Hfrom, Hto. cbn [foldr] in Hv, Hfrom, Hto.
  rewrite Hv, Hfrom, Hto by (right; by_compute). done.
Qed.

(** X1: the export step returns exactly when the frame [self.transfers_df]
    refers to has the columns it reads: [transfer_type], the seven
    attributes it drops, [time_min] and the two numeric stop ids. *)
Theorem export_returns_iff_columns (self : t) (s : state) :
  (∃ s1, write_transfers_for_extension self s = (Ok (), s1)) ↔
  ∃ df, heap s !! transfers_df self = Some df ∧
        ∀ c, c ∈ export_columns → c ∈ pandas.columns df.
Proof.
  split.
  - intros [s1 (df & out & ext & Hdf & Hout & _)%write_transfers_for_extension_Ok].
    exists df. split; [done|]. apply export_frame_returns. by exists out.
  - intros (df & Hdf & [out Hout]%export_frame_returns).
    destruct (write_transfers_for_extension_run self s df Hdf) as [ext ->].
    rewrite Hout. by eexists.
Qed.

(** X2: when the export step raises, a column it needs is missing from the
    relation, and nothing has been written and nothing logged: the file is
    written last. *)
Theorem export_failure_writes_nothing (self : t) (s s1 : state) (e : exn)
    (df : pandas.DataFrame) :
  heap s !! transfers_df self = Some df →
  write_transfers_for_extension self s = (Raise e, s1) →
  files s1 = files s ∧ FastTripsLogger s1 = FastTripsLogger s ∧
  ∃ c, c ∈ export_columns ∧ c ∉ pandas.columns df.
Proof.
  intros Hdf H.
  destruct (write_transfers_for_extension_run self s df Hdf) as [ext E].
  rewrite E in H. destruct (export_frame df) as [out|e'] eqn:Hout; [done|].
  injection H as -> <-. split; [done|]. split; [done|].
  destruct (decide (Forall (λ c, c ∈ pandas.columns df) export_columns)) as [Hall|Hn].
  - rewrite Forall_forall in Hall. apply export_frame_returns in Hall as [out Hout'].
    congruence.
  - apply not_Forall_Exists in Hn; [|apply _].
    apply Exists_exists in Hn as (c & Hc & Hn). by exists c.
Qed.

(** X3: the file the export step writes. Its header is the two numeric stop
    ids, [attr_name] and [attr_value]; its records are, for each row whose
    [transfer_type] is not 3, in order, one per kept attribute whose value
    is not missing. No other file changes. *)
Theorem export_writes_exported_table (self : t) (s s1 : state) (df : pandas.DataFrame) :
  heap s !! transfers_df self = Some df →
  write_transfers_for_extension self s = (Ok (), s1) →
  files s1 = <[output_path self := exported_table df]> (files s).
Proof.
  intros Hdf (df' & out & ext & Hdf' & Hout & ->)%write_transfers_for_extension_Ok.
  assert (df' = df) as -> by congruence.
  simpl. by rewrite (export_frame_table df out Hout).
Qed.

(** X4: every record of the exported file has four fields, and its
    [attr_value] is not missing: [stack] leaves missing values out. *)
Theorem exported_values_are_not_missing (self : t) (s s1 : state) (f : pandas.csv) :
  write_transfers_for_extension self s = (Ok (), s1) →
  files s1 !! output_path self = Some f →
  ∀ rec, rec ∈ pandas.records f →
    ∃ from_stop to_stop attr_name attr_value,
      rec = [from_stop; to_stop; PyStr attr_name; attr_value] ∧ isnull attr_value = false.
Proof.
  intros (df & out & ext & Hdf & Hout & ->)%write_transfers_for_extension_Ok.
  simpl. rewrite lookup_insert_eq, (export_frame_table df out Hout). intros [= <-] rec.
  unfold exported_table, exported_records. cbn [pandas.records].
  intros (l & Hrec & (r & -> & _)%list_elem_of_fmap)%list_elem_of_join.
  apply list_elem_of_omap in Hrec as (c & _ & Hrec). unfold exported_record in Hrec.
  destruct (isnull (exported_value r c)) eqn:Hnull; [done|]. injection Hrec as <-.
  by eexists _, _, _, _.
Qed.

(** X5: for every row whose transfer is possible and whose [time_min] is
    not missing, the exported file gives that time twice, as
    [walk_time_min] and as [time_min]. *)
Theorem walk_time_is_exported (self : t) (s s1 : state) (df : pandas.DataFrame)
    (r : gmap string value) :
  heap s !! transfers_df self = Some df →
  write_transfers_for_extension self s = (Ok (), s1) →
  r ∈ pandas.rows df →
  pandas.eq_int (pandas.cell r TRANSFERS_COLUMN_TRANSFER_TYPE) 3 = false →
  isnull (pandas.cell r TRANSFERS_COLUMN_TIME_MIN) = false →
  ∃ f, files s1 !! output_path self = Some f ∧
    ∀ attr_name, attr_name ∈ ["walk_time_min"; TRANSFERS_COLUMN_TIME_MIN] →
      [pandas.cell r TRANSFERS_COLUMN_FROM_STOP_NUM; pandas.cell r TRANSFERS_COLUMN_TO_STOP_NUM;
       PyStr attr_name; pandas.cell r TRANSFERS_COLUMN_TIME_MIN] ∈ pandas.records f.
Proof.
  intros Hdf H Hr Hne Hnull.
  assert (∀ c, c ∈ export_columns → c ∈ pandas.columns df) as Hcols.
  { apply write_transfers_for_extension_Ok in H as (df' & out & ext & Hdf' & Hout & _).
    assert (df' = df) as -> by congruence.
    apply export_frame_returns. by exists out. }
  apply write_transfers_for_extension_Ok in H as (df' & out & ext & Hdf' & Hout & ->).
  assert (df' = df) as -> by congruence.
  exists (exported_table df). simpl.
  rewrite lookup_insert_eq, (export_frame_table df out Hout). split; [done|].
  intros c Hc. unfold exported_records. apply list_elem_of_join.
  eexists. split; [|apply list_elem_of_fmap_2, list_elem_of_filter; by split].
  apply list_elem_of_omap. exists c. split.
  - unfold exported_attributes. apply list_elem_of_filter.
    apply elem_of_cons in Hc as [->|Hc].
    + split; [by_compute|]. apply elem_of_add_label. by right.
    + apply list_elem_of_singleton in Hc as ->. split; [by_compute|].
      apply elem_of_add_label. left. apply list_elem_of_filter. split; [by_compute|].
      apply Hcols. by_compute.
  - unfold exported_record.
    assert (exported_value r c = pandas.cell r TRANSFERS_COLUMN_TIME_MIN) as ->.
    { apply elem_of_cons in Hc as [->|Hc]; [done|].
      by apply list_elem_of_singleton in Hc as ->. }
    by rewrite Hnull.
Qed.

End ExportTable.

(** ** Loads at the edges *)

Section LoadEdges.

Import Transfer.

(** Python's [float] on a string, [None] where it raises. *)
Variable float_of_str : string → option float.

Section Keeps.
Context {A B : Type}.

Lemma keeps_ret (a : A) : keeps_store (mret a).
Proof. by intros s. Qed.

Lemma keeps_raise (e : exn) : keeps_store (raise e : M A).
Proof. by intros s. Qed.

Lemma keeps_lift (r : res A) : keeps_store (lift r).
Proof. by intros s. Qed.

Lemma keeps_log (l : level) (msg : list piece) : keeps_store (log l msg).
Proof. by intros s. Qed.

Lemma keeps_bind (m : M A) (k : A → M B) :
  keeps_store m → (∀ a, keeps_store (k a)) → keeps_store (m ≫= k).
Proof.
  intros Hm Hk s. unfold mbind, M_bind. destruct (Hm s) as [H1 H2].
  destruct (m s) as [[a|e] s1]; simpl in *; [|done].
  destruct (Hk a s1) as [H3 H4]. split; congruence.
Qed.

End Keeps.

Ltac keeps :=
  repeat first [ apply keeps_lift | apply keeps_log | apply keeps_raise | apply keeps_ret
               | apply keeps_bind; [|intros ?] | case_bool_decide ].

Lemma transfer_times_keeps_store (df : pandas.DataFrame) : keeps_store (transfer_times df).
Proof. unfold transfer_times. keeps. Qed.

Lemma min_transfer_time_no_suffix (c sfx : string) :
  sfx = "_x" ∨ sfx = "_y" → c +:+ sfx ≠ TRANSFERS_COLUMN_MIN_TRANSFER_TIME.
Proof.
  intros Hs H. unfold TRANSFERS_COLUMN_MIN_TRANSFER_TIME in H.
  repeat (destruct c as [|? c]; simpl in H;
          [destruct Hs as [-> | ->]; discriminate H
          | first [injection H as _ H | discriminate H]]).
Qed.

(** X8: the constructor writes no file and changes no frame of the store.
    When it returns, the store has one frame more, which is the relation of
    the new object; when it raises, the store is as it was. *)
Theorem load_writes_no_file (input_dir output_dir : string) (gtfs_schedule : Schedule)
    (s : state) :
  let run := __init__ float_of_str input_dir output_dir gtfs_schedule s in
  files run.2 = files s ∧
  match run.1 with
  | Ok self =>
      Transfer.output_dir self = output_dir ∧ transfers_df self = length (heap s) ∧
      ∃ df, heap run.2 = heap s ++ [df]
  | Raise _ => heap run.2 = heap s
  end.
Proof.
  simpl. rewrite init_run. destruct (loaded_df _ _ _ _) as [df|e]; [|done].
  destruct (transfer_times_keeps_store df (logged s (loaded_log df))) as [Hh Hf].
  destruct (transfer_times _ _) as [[df'|e] s1]; simpl in *; [|done].
  rewrite Hh. split; [done|]. split; [done|]. split; [done|]. by exists df'.
Qed.

(** X9: without a [transfers_ft.txt] the load raises before anything is
    logged: the [IOError] of [read_csv], unless the GTFS transfers have
    already raised. *)
Theorem load_without_supplemental_file (input_dir output_dir : string)
    (gtfs_schedule : Schedule) (s : state) :
  files s !! os_path_join input_dir INPUT_TRANSFERS_FILE = None →
  ∃ e, __init__ float_of_str input_dir output_dir gtfs_schedule s = (Raise e, s) ∧
       (gtfs_transfers_df float_of_str gtfs_schedule = Raise e ∨
        (e = IOError (os_path_join input_dir INPUT_TRANSFERS_FILE) ∧
         ∃ df, gtfs_transfers_df float_of_str gtfs_schedule = Ok df)).
Proof.
  intros Hf. rewrite init_run. unfold loaded_df.
  destruct (gtfs_transfers_df _ _) as [base|e] eqn:Hbase; simpl.
  - rewrite (read_transfers_ft_run float_of_str), Hf. simpl. eexists. split; [done|]. right. split; [done | by exists base].
  - exists e. split; [done | by left].
Qed.

(** X10: a feed with no GTFS transfer and a supplemental file without rows
    loads: the relation has no rows and seven columns, and
    [add_numeric_stop_id] then resolves nothing and exports nothing. *)
Theorem empty_feed_loads_empty_relation (input_dir output_dir : string)
    (gtfs_schedule : Schedule) (s : state) (f : pandas.csv) :
  GetTransferList gtfs_schedule = [] →
  files s !! os_path_join input_dir INPUT_TRANSFERS_FILE = Some f →
  (∀ c, c ∈ required_columns → c ∈ pandas.header f) →
  pandas.records f = [] →
  ∃ self s',
    __init__ float_of_str input_dir output_dir gtfs_schedule s = (Ok self, s') ∧
    heap s' !! transfers_df self = Some empty_relation ∧
    FastTripsLogger s' =
      FastTripsLogger s ++ loaded_log empty_relation ++ final_log empty_relation ∧
    ∀ stops, add_numeric_stop_id self stops s' = (Ok self, s').
Proof.
  intros Hg Hf Hreq Hrec. rewrite init_run. unfold loaded_df, gtfs_transfers_df.
  rewrite Hg. simpl. rewrite (read_transfers_ft_run float_of_str), Hf.
  rewrite bool_decide_eq_true_2 by by apply Forall_forall.
  simpl. unfold join_transfers_ft, pandas.len, pandas.of_csv. cbn [pandas.rows].
  rewrite Hrec. simpl.
  eexists _, _. split; [done|]. simpl. rewrite list_lookup_middle by done.
  split; [done|]. split; [by rewrite <- app_assoc|].
  intros stops. unfold add_numeric_stop_id, mbind, M_bind, get. simpl.
  by rewrite list_lookup_middle.
Qed.

Lemma final_row_other (r : gmap string value) (c : string) :
  c ∉ [TRANSFERS_COLUMN_MIN_TRANSFER_TIME_MIN; TRANSFERS_COLUMN_TIME_MIN; TRANSFERS_COLUMN_TIME] →
  pandas.cell (final_row r) c = pandas.cell r c.
Proof.
  rewrite !not_elem_of_cons. intros (H1 & H2 & H3 & _).
  unfold final_row, with_time, with_floor. rewrite cell_insert_ne by done.
  destruct (_ <? _)%float; unfold with_time_min, with_min_transfer_time_min;
    by rewrite !cell_insert_ne.
Qed.

(** What a load that finishes leaves: the frame of lines 97-156 when it has
    no rows, and otherwise that frame with the derived times in each row. *)
Lemma init_Ok (input_dir output_dir : string) (gtfs_schedule : Schedule)
    (s s' : state) (self : t) :
  __init__ float_of_str input_dir output_dir gtfs_schedule s = (Ok self, s') →
  ∃ df0 df',
    loaded_df float_of_str input_dir gtfs_schedule s = Ok df0 ∧
    heap s' !! transfers_df self = Some df' ∧
    ((pandas.len df0 = 0 ∧ df' = df0) ∨
     (pandas.len df0 > 0 ∧ has_minutes df0 ∧
      pandas.rows df' = final_row <$> pandas.rows df0 ∧
      (∀ c, c ∈ pandas.columns df0 → c ∈ pandas.columns df') ∧
      Forall (λ r, (780 <? walk_time_of r)%float = false ∧
                   is_nan (floored_time_of r) = false) (pandas.rows df0))).
Proof.
  rewrite init_run.
  destruct (loaded_df _ _ _ _) as [df|] eqn:Hdf; [|done].
  destruct (transfer_times _ _) as [[df'|] s1] eqn:Htt; [|done].
  intros [= <- <-]. exists df, df'. split; [done|]. split.
  { simpl. by rewrite list_lookup_middle. }
  destruct (decide (pandas.len df > 0)) as [Hlen|Hlen].
  - right. split; [done|].
    pose proof Htt as Hrun.
    apply transfer_times_Ok in Htt as (_ & Hm & Hlong & Hnan & Hrows); [|done].
    split; [done|]. split; [|split].
    + rewrite Hrows. unfold floored, with_minutes. cbn [pandas.rows].
      by rewrite <- !list_fmap_compose.
    + rewrite transfer_times_run in Hrun by done. case_bool_decide; [done|].
      destruct (pandas.map _ _); [|done]. injection Hrun as <- _.
      intros c Hc. unfold pandas.setitem, floored, with_minutes. cbn [pandas.columns].
      rewrite !elem_of_add_label. by repeat left.
    + unfold floored, with_minutes in *. cbn [pandas.rows] in *.
      rewrite !Forall_fmap in Hlong. rewrite !Forall_fmap in Hnan.
      apply Forall_forall. intros r Hr. rewrite Forall_forall in Hlong, Hnan.
      specialize (Hlong r Hr). specialize (Hnan r Hr). simpl in Hlong, Hnan.
      destruct (with_minutes_cells r) as [Ht _]. destruct (with_floor_cells r) as [Hf _].
      simpl in Ht, Hf. unfold too_long in Hlong. rewrite Ht in Hlong. rewrite Hf in Hnan.
      simpl in Hlong, Hnan. split; [by destruct (780 <? _)%float | done].
  - left. unfold transfer_times in Htt. rewrite bool_decide_eq_false_2 in Htt by done.
    injection Htt as <- _. split; [lia | done].
Qed.

(** X11: in the relation a finished load leaves, every row has a
    [transfer_penalty] of 1.0 (the extension relies on it). *)
Theorem loaded_transfer_penalty_is_one (input_dir output_dir : string)
    (gtfs_schedule : Schedule) (s s' : state) (self : t) :
  __init__ float_of_str input_dir output_dir gtfs_schedule s = (Ok self, s') →
  ∃ df, heap s' !! transfers_df self = Some df ∧
        TRANSFERS_COLUMN_PENALTY ∈ pandas.columns df ∧
        ∀ r, r ∈ pandas.rows df → pandas.cell r TRANSFERS_COLUMN_PENALTY = PyFloat 1.
Proof.
  intros (df0 & df & Hdf0 & Hdf & Hcases)%init_Ok. exists df. split; [done|].
  unfold loaded_df in Hdf0.
  apply bind_Ok in Hdf0 as (base & _ & H). apply bind_Ok in H as (ft & _ & H).
  apply bind_Ok in H as (j & _ & [= <-]).
  assert (TRANSFERS_COLUMN_PENALTY ∈
            pandas.columns (pandas.setitem_scalar j TRANSFERS_COLUMN_PENALTY (PyFloat 1))) as Hc.
  { apply elem_of_add_label. by right. }
  assert (∀ r, r ∈ pandas.rows (pandas.setitem_scalar j TRANSFERS_COLUMN_PENALTY (PyFloat 1)) →
               pandas.cell r TRANSFERS_COLUMN_PENALTY = PyFloat 1) as Hr.
  { intros r (r0 & -> & _)%list_elem_of_fmap. apply cell_insert_eq. }
  destruct Hcases as [[_ ->]|(_ & _ & Hrows & Hcols & _)]; [done|].
  split; [by apply Hcols|]. rewrite Hrows.
  intros r' (r & -> & Hin)%list_elem_of_fmap.
  rewrite final_row_other by by_compute. by apply Hr.
Qed.

(** X12: in the relation a finished load leaves, [time] is the timedelta of
    [time_min] minutes, [time_min] is a number, and
    [min_transfer_time_min] is [min_transfer_time] divided by 60. *)
Theorem loaded_times_agree (input_dir output_dir : string)
    (gtfs_schedule : Schedule) (s s' : state) (self : t) :
  __init__ float_of_str input_dir output_dir gtfs_schedule s = (Ok self, s') →
  ∃ df, heap s' !! transfers_df self = Some df ∧
    ∀ r, r ∈ pandas.rows df →
      ∃ time_min min_transfer_time,
        pandas.cell r TRANSFERS_COLUMN_TIME_MIN = PyFloat time_min ∧
        pandas.cell r TRANSFERS_COLUMN_TIME = PyTimedelta time_min ∧
        is_nan time_min = false ∧
        pandas.to_float (pandas.cell r TRANSFERS_COLUMN_MIN_TRANSFER_TIME) = Ok min_transfer_time ∧
        pandas.cell r TRANSFERS_COLUMN_MIN_TRANSFER_TIME_MIN = PyFloat (min_transfer_time / 60).
Proof.
  intros (df0 & df & Hdf0 & Hdf & Hcases)%init_Ok. exists df. split; [done|].
  destruct Hcases as [[Hlen ->]|(_ & Hm & Hrows & _ & Hnan)].
  { unfold pandas.len in Hlen. destruct (pandas.rows df0); [|done].
    intros r Hr. by apply elem_of_nil in Hr. }
  rewrite Hrows. intros r' (r & -> & Hr)%list_elem_of_fmap.
  destruct Hm as (_ & _ & Hn1 & _). rewrite Forall_forall in Hn1, Hnan.
  destruct (Hnan r Hr) as [_ Hnan']. specialize (Hn1 r Hr).
  destruct (final_row_cells r) as (_ & Hmtt & _ & Hm & Ht & Htd).
  exists (floored_time_of r), (num (pandas.cell r TRANSFERS_COLUMN_MIN_TRANSFER_TIME)).
  rewrite Hmtt, Hm, Ht, Htd. repeat split; try done. by apply to_float_num.
Qed.

Lemma mapM_Ok_Forall2 {A B} (f : A → res B) (l : list A) (l' : list B) :
  mapM f l = Ok l' → Forall2 (λ a b, f a = Ok b) l l'.
Proof.
  revert l'. induction l as [|a l IH]; intros l'; simpl.
  - intros [= <-]. constructor.
  - intros (b & Hb & H)%bind_Ok. apply bind_Ok in H as (k & Hk & [= <-]).
    constructor; [done | by apply IH].
Qed.

(** The frame of a non-empty GTFS transfer list: one row per transfer, with
    a [transfer_type] and a numeric [min_transfer_time]. *)
Lemma gtfs_transfers_df_rows (gtfs_schedule : Schedule) (base : pandas.DataFrame) :
  gtfs_transfers_df float_of_str gtfs_schedule = Ok base →
  GetTransferList gtfs_schedule ≠ [] →
  pandas.len base = length (GetTransferList gtfs_schedule) ∧
  TRANSFERS_COLUMN_MIN_TRANSFER_TIME ∈ pandas.columns base ∧
  TRANSFERS_COLUMN_TRANSFER_TYPE ∈ pandas.columns base ∧
  Forall (λ r, is_num (pandas.cell r TRANSFERS_COLUMN_MIN_TRANSFER_TIME)) (pandas.rows base).
Proof.
  unfold gtfs_transfers_df. intros H Hne. rewrite bool_decide_eq_true_2 in H.
  2:{ rewrite length_fmap. destruct (GetTransferList gtfs_schedule); [done | simpl; lia]. }
  apply bind_Ok in H as (col & [Hc1 ->]%getitem_Ok & H).
  apply bind_Ok in H as (col' & Hcol'%mapM_Ok_Forall2 & H).
  apply bind_Ok in H as (tt & [Hc2 ->]%getitem_Ok & [= <-]).
  unfold pandas.len, pandas.loc_set_scalar, pandas.ne, pandas.setitem in *.
  cbn [pandas.rows pandas.columns pandas.replace] in *.
  rewrite <- list_fmap_compose, zip_with_fmap_same.
  rewrite Forall2_fmap_l in Hcol'.
  split; [|split; [|split]].
  - rewrite length_fmap, (length_zip_with_same_l _ _ _ _ Hcol'), length_fmap.
    unfold pandas.DataFrame_data. cbn [pandas.rows]. by rewrite !length_fmap.
  - rewrite !elem_of_add_label. left. by right.
  - rewrite elem_of_add_label. by left.
  - rewrite Forall_fmap. apply Forall_forall. intros r1 Hr1. simpl.
    destruct (negb _); [by rewrite cell_insert_eq|].
    apply elem_of_zip_with in Hr1 as (r0 & v & -> & Hr0 & Hv).
    rewrite cell_insert_eq.
    apply list_elem_of_lookup in Hv as [i Hv].
    destruct (Forall2_lookup_r _ _ _ _ _ Hcol' Hv) as (r & _ & Hr).
    simpl in Hr. destruct (pandas.cell r _); simpl in Hr; try done.
    + by injection Hr as <-.
    + destruct (float_of_str s); [|done]. by injection Hr as <-.
    + by injection Hr as <-.
    + by injection Hr as <-.
Qed.

(** X13: GTFS transfers beside a supplemental file without rows do not
    load: there is no join, so there is no column [dist], and line 168
    raises [KeyError] after the two debug messages of lines 158-159. *)
Theorem gtfs_transfers_alone_need_dist (input_dir output_dir : string)
    (gtfs_schedule : Schedule) (s : state) (f : pandas.csv) (base : pandas.DataFrame) :
  GetTransferList gtfs_schedule ≠ [] →
  (∀ g, g ∈ GetTransferList gtfs_schedule → TRANSFERS_COLUMN_DISTANCE ∉ _FIELD_NAMES g) →
  gtfs_transfers_df float_of_str gtfs_schedule = Ok base →
  files s !! os_path_join input_dir INPUT_TRANSFERS_FILE = Some f →
  (∀ c, c ∈ required_columns → c ∈ pandas.header f) →
  pandas.records f = [] →
  __init__ float_of_str input_dir output_dir gtfs_schedule s =
    (Raise (KeyError TRANSFERS_COLUMN_DISTANCE),
     logged s (loaded_log (pandas.setitem_scalar base TRANSFERS_COLUMN_PENALTY (PyFloat 1)))).
Proof.
  intros Hne Hfields Hbase Hf Hreq Hrec.
  destruct (gtfs_transfers_df_rows _ _ Hbase Hne) as (Hlen & Hc1 & Hc2 & Hnum).
  rewrite init_run. unfold loaded_df. rewrite Hbase. simpl.
  rewrite (read_transfers_ft_run float_of_str), Hf.
  rewrite bool_decide_eq_true_2 by by apply Forall_forall.
  simpl. unfold join_transfers_ft, pandas.len at 1, pandas.of_csv. cbn [pandas.rows].
  rewrite Hrec. simpl.
  set (df := pandas.setitem_scalar base TRANSFERS_COLUMN_PENALTY (PyFloat 1)).
  unfold transfer_times. rewrite bool_decide_eq_true_2.
  2:{ unfold df, pandas.len in *. cbn [pandas.rows pandas.setitem_scalar].
      rewrite length_fmap, Hlen. destruct (GetTransferList gtfs_schedule); [done | simpl; lia]. }
  rewrite run_lift, getitem_fmap by (apply elem_of_add_label; by left).
  rewrite run_lift. unfold pandas.div at 1.
  rewrite (mapM_fmap_Ok _ (λ v, PyFloat (num v / 60))).
  2:{ unfold df. cbn [pandas.rows pandas.setitem_scalar]. rewrite !Forall_fmap.
      eapply Forall_impl; [exact Hnum|]. intros r Hr. simpl.
      rewrite cell_insert_ne by done. by rewrite to_float_num. }
  rewrite run_lift. unfold pandas.getitem at 1. rewrite bool_decide_eq_false_2; [done|].
  unfold df, pandas.setitem. cbn [pandas.columns pandas.setitem_scalar].
  rewrite !elem_of_add_label. intros [[Hc|[=]]|[=]].
  destruct (gtfs_transfers_df_columns _ _ _ _ Hbase Hc) as [Hrows|[[=]|(g & Hg & Hd)]].
  - unfold pandas.len in Hlen. rewrite Hrows in Hlen.
    destruct (GetTransferList gtfs_schedule); [done | simpl in Hlen; lia].
  - by apply (Hfields g).
Qed.

(** The frame of lines 97-156, phase by phase. *)
Lemma loaded_df_Ok (input_dir : string) (gtfs_schedule : Schedule) (s : state)
    (df0 : pandas.DataFrame) :
  loaded_df float_of_str input_dir gtfs_schedule s = Ok df0 →
  ∃ base f j,
    gtfs_transfers_df float_of_str gtfs_schedule = Ok base ∧
    files s !! os_path_join input_dir INPUT_TRANSFERS_FILE = Some f ∧
    (∀ c, c ∈ required_columns → c ∈ pandas.header f) ∧
    join_transfers_ft base (pandas.of_csv f) = Ok j ∧
    df0 = pandas.setitem_scalar j TRANSFERS_COLUMN_PENALTY (PyFloat 1).
Proof.
  unfold loaded_df. intros H.
  apply bind_Ok in H as (base & Hbase & H). apply bind_Ok in H as (ft & Hft & H).
  apply bind_Ok in H as (j & Hj & [= <-]).
  rewrite (read_transfers_ft_run float_of_str) in Hft.
  destruct (files s !! _) as [f|] eqn:Hf; [|done].
  case_bool_decide as Hreq; [|done]. injection Hft as <-.
  exists base, f, j. repeat split; try done. by apply Forall_forall.
Qed.

Lemma fillna_columns (m : pandas.DataFrame) (value : list (string * value)) :
  pandas.columns (pandas.fillna m value) = pandas.columns m.
Proof.
  unfold pandas.fillna. revert m. induction value as [|cv value IH]; intros m; [done|].
  simpl. rewrite IH. by case_bool_decide.
Qed.

Lemma elem_of_merge_row (left right : pandas.DataFrame) (on : list string)
    (r o : gmap string value) :
  o ∈ pandas.merge_row left right on r →
  ∃ l, o = pandas.join_rows left right on l r ∧
       (l = None ∨ ∃ l', l = Some l' ∧ l' ∈ pandas.rows left).
Proof.
  unfold pandas.merge_row.
  destruct (filter _ (pandas.rows left)) as [|l0 ls] eqn:E.
  - intros ->%list_elem_of_singleton. exists None. split; [done | by left].
  - intros (l' & -> & Hl')%list_elem_of_fmap. exists (Some l'). split; [done|].
    right. exists l'. split; [done|]. rewrite <- E in Hl'.
    by apply list_elem_of_filter in Hl' as [_ ?].
Qed.

Lemma merge_row_length (left right : pandas.DataFrame) (on : list string)
    (r : gmap string value) :
  1 ≤ length (pandas.merge_row left right on r) ∧
  (pandas.rows left = [] → length (pandas.merge_row left right on r) = 1).
Proof.
  unfold pandas.merge_row. split.
  - destruct (filter _ _); simpl; lia.
  - intros ->. by rewrite filter_nil.
Qed.

Lemma mjoin_length_ge {A B} (f : A → list B) (l : list A) :
  (∀ a, 1 ≤ length (f a)) → length l ≤ length (mjoin (f <$> l)).
Proof.
  intros Hf. induction l as [|a l IH]; csimpl; [done|].
  rewrite length_app. specialize (Hf a). lia.
Qed.

Lemma mjoin_length_eq {A B} (f : A → list B) (l : list A) :
  (∀ a, length (f a) = 1) → length (mjoin (f <$> l)) = length l.
Proof.
  intros Hf. induction l as [|a l IH]; csimpl; [done|].
  rewrite length_app, Hf, IH. done.
Qed.

(** What the join of lines 144-153 makes when the supplemental file has
    rows. *)
Lemma join_transfers_ft_rows (base ft j : pandas.DataFrame) :
  let on := [TRANSFERS_COLUMN_FROM_STOP; TRANSFERS_COLUMN_TO_STOP] in
  pandas.len ft > 0 →
  join_transfers_ft base ft = Ok j →
  (∀ k, k ∈ on → k ∈ pandas.columns base) ∧
  NoDup ((pandas.left_label base ft on <$> pandas.columns base) ++
         (pandas.right_label base ft on <$> filter (λ c, c ∉ on) (pandas.columns ft))) ∧
  pandas.columns j =
    (pandas.left_label base ft on <$> pandas.columns base) ++
    (pandas.right_label base ft on <$> filter (λ c, c ∉ on) (pandas.columns ft)) ∧
  ∃ g, pandas.rows j = g <$> mjoin (pandas.merge_row base ft on <$> pandas.rows ft) ∧
       ∀ r c, c ∈ pandas.columns j → pandas.cell (g r) c = filled c (pandas.cell r c).
Proof.
  intros on Hlen. unfold join_transfers_ft. rewrite bool_decide_eq_true_2 by done.
  intros (m & Hm & Hj)%bind_Ok.
  assert (j = pandas.fillna m [(TRANSFERS_COLUMN_MIN_TRANSFER_TIME, PyInt 0);
                               (TRANSFERS_COLUMN_TRANSFER_TYPE, PyInt 0)]) as ->
    by (by injection Hj).
  clear Hj. apply merge_right_Ok in Hm as (Hon & Hdup & Hcols & Hrows).
  rewrite fillna_columns. split; [done|]. split; [done|]. split; [done|].
  destruct (fillna_rows m) as (g & Hg1 & Hg2). exists g. by rewrite Hg1, Hrows.
Qed.

(** X14: the join drops no supplemental row: a finished load leaves at
    least as many rows as the supplemental file has, and exactly as many
    when there is no GTFS transfer. *)
Theorem no_supplemental_row_is_dropped (input_dir output_dir : string)
    (gtfs_schedule : Schedule) (s s' : state) (self : t) (f : pandas.csv) :
  files s !! os_path_join input_dir INPUT_TRANSFERS_FILE = Some f →
  pandas.records f ≠ [] →
  __init__ float_of_str input_dir output_dir gtfs_schedule s = (Ok self, s') →
  ∃ df, heap s' !! transfers_df self = Some df ∧
        length (pandas.records f) ≤ pandas.len df ∧
        (GetTransferList gtfs_schedule = [] → pandas.len df = length (pandas.records f)).
Proof.
  intros Hf Hrec (df0 & df & Hdf0 & Hdf & Hcases)%init_Ok. exists df. split; [done|].
  apply loaded_df_Ok in Hdf0 as (base & f' & j & Hbase & Hf' & _ & Hj & ->).
  assert (f' = f) as -> by congruence.
  assert (pandas.len (pandas.of_csv f) > 0) as Hlen.
  { unfold pandas.len, pandas.of_csv. cbn [pandas.rows]. rewrite length_fmap.
    destruct (pandas.records f); [done | simpl; lia]. }
  destruct (join_transfers_ft_rows base (pandas.of_csv f) j Hlen Hj)
    as (_ & _ & _ & g & Hrows & _).
  assert (pandas.len df = length (pandas.rows j)) as ->.
  { unfold pandas.len. destruct Hcases as [[_ ->]|(_ & _ & Hr & _)]; [|rewrite Hr];
      cbn [pandas.rows pandas.setitem_scalar]; by rewrite !length_fmap. }
  rewrite Hrows, length_fmap.
  assert (length (pandas.records f) = length (pandas.rows (pandas.of_csv f))) as ->.
  { unfold pandas.of_csv. cbn [pandas.rows]. by rewrite length_fmap. }
  split.
  - apply mjoin_length_ge. intros r. apply merge_row_length.
  - intros Hg. apply mjoin_length_eq. intros r. apply merge_row_length.
    unfold gtfs_transfers_df in Hbase. rewrite Hg in Hbase. by injection Hbase as <-.
Qed.

(** A label of the joined frame is a column of one side, as it is or with
    the suffix of its side. *)
Lemma joined_label (base ft : pandas.DataFrame) (on : list string) (c : string) :
  c ∈ (pandas.left_label base ft on <$> pandas.columns base) ++
      (pandas.right_label base ft on <$> filter (λ c, c ∉ on) (pandas.columns ft)) →
  (c ∈ pandas.columns base ∧ (c ∈ on ∨ c ∉ pandas.columns ft) ∧
   pandas.left_label base ft on c = c) ∨
  (c ∈ pandas.columns ft ∧ c ∉ on) ∨
  ∃ c' sfx, c = c' +:+ sfx ∧ (sfx = "_x" ∨ sfx = "_y").
Proof.
  intros [Hc|Hc]%elem_of_app.
  - apply list_elem_of_fmap in Hc as (c' & -> & Hc').
    unfold pandas.left_label, pandas.suffixed.
    case_bool_decide as Hk.
    + left. split; [done|]. split; [by left|]. by rewrite bool_decide_eq_true_2.
    + case_bool_decide as Ho.
      * right. right. exists c', "_x". split; [done | by left].
      * left. split; [done|]. rewrite bool_decide_eq_false_2, bool_decide_eq_false_2 by done.
        split; [|done]. right. intros Hft. apply Ho.
        unfold pandas.overlap. apply list_elem_of_filter. by split.
  - apply list_elem_of_fmap in Hc as (c' & -> & [Hk Hc']%list_elem_of_filter).
    unfold pandas.right_label, pandas.suffixed.
    rewrite bool_decide_eq_false_2 by done. case_bool_decide as Ho.
    + right. right. exists c', "_y". split; [done | by right].
    + right. by left.
Qed.

(** X15: with no GTFS transfer, a supplemental file with rows and without
    a [min_transfer_time] column does not load: line 164 raises [KeyError]
    (or the join has refused its labels); no file and no frame changes. *)
Theorem supplemental_transfers_alone_need_min_transfer_time (input_dir output_dir : string)
    (gtfs_schedule : Schedule) (s : state) (f : pandas.csv) :
  GetTransferList gtfs_schedule = [] →
  files s !! os_path_join input_dir INPUT_TRANSFERS_FILE = Some f →
  (∀ c, c ∈ required_columns → c ∈ pandas.header f) →
  pandas.records f ≠ [] →
  TRANSFERS_COLUMN_MIN_TRANSFER_TIME ∉ pandas.header f →
  ∃ e s', __init__ float_of_str input_dir output_dir gtfs_schedule s = (Raise e, s') ∧
          (e = KeyError TRANSFERS_COLUMN_MIN_TRANSFER_TIME ∨ e = MergeError) ∧
          files s' = files s ∧ heap s' = heap s.
Proof.
  intros Hg Hf Hreq Hrec Hmtt. rewrite init_run. unfold loaded_df, gtfs_transfers_df.
  rewrite Hg. cbn [fmap list_fmap length]. rewrite bool_decide_eq_false_2 by (simpl; lia).
  set (base := pandas.DataFrame_columns _).
  change (mret base ≫= ?k) with (k base). cbv beta.
  rewrite (read_transfers_ft_run float_of_str), Hf.
  rewrite bool_decide_eq_true_2 by by apply Forall_forall.
  cbn [fst]. change (Ok (pandas.of_csv f) ≫= ?k) with (k (pandas.of_csv f)). cbv beta.
  assert (pandas.len (pandas.of_csv f) > 0) as Hlen.
  { unfold pandas.len, pandas.of_csv. cbn [pandas.rows]. rewrite length_fmap.
    destruct (pandas.records f); [done | simpl; lia]. }
  destruct (join_transfers_ft base (pandas.of_csv f)) as [j|e] eqn:Hj.
  - change (Ok j ≫= ?k) with (k j). cbv beta.
    destruct (join_transfers_ft_rows base (pandas.of_csv f) j Hlen Hj)
      as (_ & _ & Hcols & g & Hrows & _).
    set (df0 := pandas.setitem_scalar j TRANSFERS_COLUMN_PENALTY (PyFloat 1)).
    unfold transfer_times. rewrite bool_decide_eq_true_2.
    2:{ unfold df0, pandas.len in *. cbn [pandas.rows pandas.setitem_scalar].
        rewrite length_fmap, Hrows, length_fmap.
        pose proof (mjoin_length_ge
          (pandas.merge_row base (pandas.of_csv f)
             [TRANSFERS_COLUMN_FROM_STOP; TRANSFERS_COLUMN_TO_STOP])
          (pandas.rows (pandas.of_csv f))) as Hge.
        specialize (Hge (λ r, proj1 (merge_row_length _ _ _ r))). lia. }
    rewrite run_lift. unfold pandas.getitem at 1. rewrite bool_decide_eq_false_2.
    { eexists _, _. split; [done|]. split; [by left | done]. }
    unfold df0. cbn [pandas.columns pandas.setitem_scalar].
    rewrite elem_of_add_label. intros [Hc|[=]]. rewrite Hcols in Hc.
    apply joined_label in Hc as [(Hc & _)|[[Hc _]|(c' & sfx & Hc & Hs)]].
    + unfold base in Hc. cbn [pandas.columns pandas.DataFrame_columns] in Hc.
      revert Hc. by_compute.
    + done.
    + symmetry in Hc. by apply min_transfer_time_no_suffix in Hc.
  - exists e, s. split; [done|]. split; [|done]. right.
    unfold join_transfers_ft in Hj. rewrite bool_decide_eq_true_2 in Hj by done.
    apply bind_Raise in Hj as [Hj|(m & _ & [=])].
    unfold pandas.merge_right in Hj.
    destruct (filter _ _) as [|k ks] eqn:Hkeys.
    + case_bool_decide; [done|]. by injection Hj as <-.
    + assert (k ∈ k :: ks) as Hk by by left. rewrite <- Hkeys in Hk.
      apply list_elem_of_filter in Hk as [Hk Hon]. exfalso.
      assert (k ∈ required_columns) as Hkr.
      { repeat (apply elem_of_cons in Hon as [->|Hon]; [by_compute|]).
        by apply elem_of_nil in Hon. }
      destruct Hk as [Hk|Hk]; [by apply Hk, Hreq|]. apply Hk.
      repeat (apply elem_of_cons in Hon as [->|Hon]; [by_compute|]).
      by apply elem_of_nil in Hon.
Qed.

Lemma eq_int_null (v : value) (k : Z) : isnull v = true → pandas.eq_int v k = false.
Proof.
  destruct v as [| | |x|]; simpl; try done. intros Hx%is_nan_spec.
  rewrite FloatAxioms.eqb_spec, Hx. done.
Qed.

(** The zeroing of lines 117-119 survives the join when the supplemental
    file brings no [transfer_type] and no [min_transfer_time] of its own. *)
Lemma joined_min_transfer_time (gtfs_schedule : Schedule) (base ft j : pandas.DataFrame)
    (o : gmap string value) :
  gtfs_transfers_df float_of_str gtfs_schedule = Ok base →
  join_transfers_ft base ft = Ok j →
  TRANSFERS_COLUMN_TRANSFER_TYPE ∉ pandas.columns ft →
  TRANSFERS_COLUMN_MIN_TRANSFER_TIME ∉ pandas.columns ft →
  TRANSFERS_COLUMN_MIN_TRANSFER_TIME ∈ pandas.columns j →
  o ∈ pandas.rows j →
  pandas.eq_int (pandas.cell o TRANSFERS_COLUMN_TRANSFER_TYPE) 2 = false →
  pandas.cell o TRANSFERS_COLUMN_MIN_TRANSFER_TIME = PyInt 0.
Proof.
  intros Hbase Hj Htt Hmtt Hc Ho Hne.
  destruct (decide (pandas.len ft > 0)) as [Hlen|Hlen].
  2:{ unfold join_transfers_ft in Hj. rewrite bool_decide_eq_false_2 in Hj by done.
      injection Hj as <-. by apply (gtfs_transfers_df_zeroed _ _ _ _ Hbase). }
  destruct (join_transfers_ft_rows base ft j Hlen Hj) as (Hon & Hdup & Hcols & g & Hrows & Hg).
  set (on := [TRANSFERS_COLUMN_FROM_STOP; TRANSFERS_COLUMN_TO_STOP]) in *.
  (* the column comes from the GTFS transfers *)
  assert (TRANSFERS_COLUMN_MIN_TRANSFER_TIME ∈ pandas.columns base ∧
          pandas.left_label base ft on TRANSFERS_COLUMN_MIN_TRANSFER_TIME =
            TRANSFERS_COLUMN_MIN_TRANSFER_TIME) as [Hc1 Hl1].
  { pose proof Hc as Hc'. rewrite Hcols in Hc'.
    apply joined_label in Hc' as [(? & _ & ?)|[[? _]|(c' & sfx & Hc' & Hs)]]; [done|done|].
    symmetry in Hc'. by apply min_transfer_time_no_suffix in Hc'. }
  assert (GetTransferList gtfs_schedule ≠ []) as Hlist.
  { intros Hnil. unfold gtfs_transfers_df in Hbase. rewrite Hnil in Hbase.
    injection Hbase as <-. revert Hc1. by_compute. }
  destruct (gtfs_transfers_df_rows _ _ Hbase Hlist) as (_ & _ & Hc2 & _).
  assert (pandas.left_label base ft on TRANSFERS_COLUMN_TRANSFER_TYPE =
            TRANSFERS_COLUMN_TRANSFER_TYPE) as Hl2.
  { unfold pandas.left_label, pandas.suffixed.
    rewrite bool_decide_eq_false_2 by by_compute.
    rewrite bool_decide_eq_false_2; [done|].
    unfold pandas.overlap. by intros [[? _] _]%list_elem_of_filter. }
  assert (TRANSFERS_COLUMN_TRANSFER_TYPE ∈ pandas.columns j) as Hc3.
  { rewrite Hcols. apply elem_of_app. left. rewrite <- Hl2 at 1.
    by apply list_elem_of_fmap_2. }
  rewrite Hrows in Ho. apply list_elem_of_fmap in Ho as (o' & -> & Ho').
  apply list_elem_of_join in Ho' as (block & Ho' & (r & -> & _)%list_elem_of_fmap).
  apply elem_of_merge_row in Ho' as (l & -> & Hl).
  rewrite Hg in Hne by done. rewrite Hg by done.
  assert (TRANSFERS_COLUMN_MIN_TRANSFER_TIME ∉ on) as Hk1 by by_compute.
  assert (TRANSFERS_COLUMN_TRANSFER_TYPE ∉ on) as Hk2 by by_compute.
  pose proof (join_rows_left base ft on Hon Hdup l r _ Hc1 Hk1) as E1.
  pose proof (join_rows_left base ft on Hon Hdup l r _ Hc2 Hk2) as E2.
  rewrite Hl1 in E1. rewrite Hl2 in E2. rewrite E1. rewrite E2 in Hne.
  destruct Hl as [->|(l' & -> & Hl')]; [done|]. simpl in *.
  assert (pandas.eq_int (pandas.cell l' TRANSFERS_COLUMN_TRANSFER_TYPE) 2 = false) as Hne'.
  { destruct (isnull (pandas.cell l' TRANSFERS_COLUMN_TRANSFER_TYPE)) eqn:Hnull.
    - by apply eq_int_null.
    - unfold filled in Hne. rewrite Hnull, andb_false_r in Hne. done. }
  by rewrite (gtfs_transfers_df_zeroed _ _ _ _ Hbase Hl' Hne').
Qed.

(** X16: when the supplemental file has no [transfer_type] and no
    [min_transfer_time] column of its own, a finished load leaves a
    [min_transfer_time] that is the number 0, and 0.0 minutes, in every row
    whose [transfer_type] is not 2. *)
Theorem min_transfer_time_is_zero_unless_type_2 (input_dir output_dir : string)
    (gtfs_schedule : Schedule) (s s' : state) (self : t) (f : pandas.csv) :
  files s !! os_path_join input_dir INPUT_TRANSFERS_FILE = Some f →
  TRANSFERS_COLUMN_TRANSFER_TYPE ∉ pandas.header f →
  TRANSFERS_COLUMN_MIN_TRANSFER_TIME ∉ pandas.header f →
  __init__ float_of_str input_dir output_dir gtfs_schedule s = (Ok self, s') →
  ∃ df, heap s' !! transfers_df self = Some df ∧
    ∀ r, r ∈ pandas.rows df →
      pandas.eq_int (pandas.cell r TRANSFERS_COLUMN_TRANSFER_TYPE) 2 = false →
      pandas.to_float (pandas.cell r TRANSFERS_COLUMN_MIN_TRANSFER_TIME) = Ok 0%float ∧
      pandas.cell r TRANSFERS_COLUMN_MIN_TRANSFER_TIME_MIN = PyFloat 0.
Proof.
  intros Hf Htt Hmtt (df0 & df & Hdf0 & Hdf & Hcases)%init_Ok. exists df. split; [done|].
  apply loaded_df_Ok in Hdf0 as (base & f' & j & Hbase & Hf' & _ & Hj & ->).
  assert (f' = f) as -> by congruence.
  destruct Hcases as [[Hlen ->]|(_ & Hm & Hrows & _ & _)].
  { unfold pandas.len in Hlen. intros r Hr.
    destruct (pandas.rows _); [by apply elem_of_nil in Hr | done]. }
  destruct Hm as (Hc & _). apply elem_of_add_label in Hc as [Hc|[=]].
  rewrite Hrows. intros r' (r & -> & Hr)%list_elem_of_fmap.
  apply list_elem_of_fmap in Hr as (o & -> & Ho).
  destruct (final_row_cells (<[TRANSFERS_COLUMN_PENALTY := PyFloat 1]> o))
    as (_ & -> & -> & -> & _).
  unfold min_transfer_time_min_of. rewrite !cell_insert_ne by done. intros Hne.
  rewrite (joined_min_transfer_time _ _ _ _ o Hbase Hj Htt Hmtt Hc Ho Hne).
  split; [done|]. by vm_compute.
Qed.

Lemma dict_get_set (d : dict) (k k' : string) (v : value) :
  dict_get (dict_set d k v) k' = if bool_decide (k = k') then Some v else dict_get d k'.
Proof.
  induction d as [|[k0 v0] d IH]; simpl.
  - by case_bool_decide.
  - destruct (decide (k0 = k)) as [->|Hne].
    + rewrite bool_decide_eq_true_2 by done. simpl. by case_bool_decide.
    + rewrite (bool_decide_eq_false_2 (k0 = k)) by done. simpl. rewrite IH.
      case_bool_decide as H1; [|done]. subst k'. by rewrite bool_decide_eq_false_2.
Qed.

(** Lines 102-105 copy the fields an object has. *)
Lemma transfer_dict_get (g : gtfs_transfer) (k : string) :
  k ∈ _FIELD_NAMES g →
  dict_get (foldl (λ transfer_dict fieldname,
                     match dict_get (__dict__ g) fieldname with
                     | Some v => dict_set transfer_dict fieldname v
                     | None => transfer_dict
                     end) [] (_FIELD_NAMES g)) k = dict_get (__dict__ g) k.
Proof.
  assert (∀ fields acc,
    dict_get (foldl (λ transfer_dict fieldname,
                       match dict_get (__dict__ g) fieldname with
                       | Some v => dict_set transfer_dict fieldname v
                       | None => transfer_dict
                       end) acc fields) k =
    if bool_decide (k ∈ fields) then
      match dict_get (__dict__ g) k with Some v => Some v | None => dict_get acc k end
    else dict_get acc k) as H.
  { induction fields as [|f fields IH]; intros acc; simpl; [done|]. rewrite IH.
    destruct (decide (k ∈ fields)) as [Hin|Hin].
    - rewrite !bool_decide_eq_true_2 by (done || by right).
      destruct (dict_get (__dict__ g) k) eqn:E; [done|].
      destruct (dict_get (__dict__ g) f) eqn:Ef; [|done].
      rewrite dict_get_set. rewrite bool_decide_eq_false_2; [done | congruence].
    - rewrite (bool_decide_eq_false_2 (k ∈ fields)) by done.
      destruct (decide (k = f)) as [->|Hne].
      + rewrite bool_decide_eq_true_2 by by left.
        destruct (dict_get (__dict__ g) f); [|done]. rewrite dict_get_set.
        by rewrite bool_decide_eq_true_2.
      + rewrite bool_decide_eq_false_2 by (rewrite elem_of_cons; tauto).
        destruct (dict_get (__dict__ g) f); [|done]. rewrite dict_get_set.
        by rewrite bool_decide_eq_false_2. }
  intros Hk. rewrite H, bool_decide_eq_true_2 by done.
  by destruct (dict_get (__dict__ g) k).
Qed.

(** The cell of a row of a frame made of dicts is what its dict has. *)
Lemma DataFrame_data_cell (data : list dict) (i : nat) (d : dict) (c : string) :
  data !! i = Some d → c ∈ pandas.columns (pandas.DataFrame_data data) →
  ∃ r, pandas.rows (pandas.DataFrame_data data) !! i = Some r ∧
       r !! c = Some (default NaN (dict_get d c)).
Proof.
  unfold pandas.DataFrame_data. cbn [pandas.columns pandas.rows]. intros Hd Hc.
  rewrite list_lookup_fmap, Hd. simpl. eexists. split; [done|].
  apply list_to_map_lookup_first.
  - apply list_elem_of_fmap. by exists c.
  - by intros v' (c' & [= <- ->] & _)%list_elem_of_fmap.
Qed.

(** The row lines 99-119 make of the transfer at position [i]: its
    [min_transfer_time], with the empty string read as "0", is made a float,
    and is kept only beside a [transfer_type] of 2. *)
Lemma gtfs_transfers_df_lookup (gtfs_schedule : Schedule) (base : pandas.DataFrame)
    (i : nat) (g : gtfs_transfer) (v0 : value) :
  gtfs_transfers_df float_of_str gtfs_schedule = Ok base →
  GetTransferList gtfs_schedule !! i = Some g →
  TRANSFERS_COLUMN_MIN_TRANSFER_TIME ∈ _FIELD_NAMES g →
  dict_get (__dict__ g) TRANSFERS_COLUMN_MIN_TRANSFER_TIME = Some v0 →
  ∃ r v1,
    pandas.rows base !! i = Some r ∧
    pandas.astype_float float_of_str
      [match v0 with
       | PyStr t => if bool_decide (t = EmptyString) then PyStr "0" else v0
       | _ => v0
       end] = Ok [v1] ∧
    pandas.cell r TRANSFERS_COLUMN_MIN_TRANSFER_TIME =
      if pandas.eq_int (pandas.cell r TRANSFERS_COLUMN_TRANSFER_TYPE) 2 then v1 else PyInt 0.
Proof.
  intros H Hg Hfield Hv0. unfold gtfs_transfers_df in H.
  set (transfer_dict := λ gtfs_transfer : gtfs_transfer, foldl _ [] _) in H.
  set (dicts := transfer_dict <$> GetTransferList gtfs_schedule) in H.
  assert (dicts !! i = Some (transfer_dict g)) as Hd.
  { unfold dicts. by rewrite list_lookup_fmap, Hg. }
  assert (dict_get (transfer_dict g) TRANSFERS_COLUMN_MIN_TRANSFER_TIME = Some v0) as Hget.
  { unfold transfer_dict. by rewrite transfer_dict_get. }
  case_bool_decide as Hn; [|apply lookup_lt_Some in Hd; lia].
  apply bind_Ok in H as (col & [Hc1 ->]%getitem_Ok & H).
  apply bind_Ok in H as (col' & Hcol' & H).
  apply bind_Ok in H as (tt & [Hc2 ->]%getitem_Ok & [= <-]).
  cbn [pandas.columns pandas.replace] in Hc1.
  destruct (DataFrame_data_cell dicts i _ _ Hd Hc1) as (r0 & Hr0 & Hcell).
  rewrite Hget in Hcell. simpl in Hcell.
  apply mapM_Ok_Forall2 in Hcol'. cbn [pandas.rows pandas.replace] in Hcol'.
  rewrite <- list_fmap_compose, Forall2_fmap_l in Hcol'.
  destruct (Forall2_lookup_l _ _ _ _ _ Hcol' Hr0) as (v1 & Hv1 & Hast).
  unfold pandas.loc_set_scalar, pandas.ne, pandas.setitem.
  cbn [pandas.rows pandas.columns pandas.replace].
  rewrite <- list_fmap_compose, zip_with_fmap_same.
  unfold pandas.DataFrame_data in Hr0. cbn [pandas.rows] in Hr0.
  rewrite list_lookup_fmap, lookup_zip_with, list_lookup_fmap, Hr0. simpl. rewrite Hv1. simpl.
  eexists _, v1. split; [done|].
  assert (pandas.cell
            match r0 !! TRANSFERS_COLUMN_MIN_TRANSFER_TIME with
            | Some (PyStr s) =>
                if bool_decide (s = EmptyString)
                then <[TRANSFERS_COLUMN_MIN_TRANSFER_TIME := PyStr "0"]> r0 else r0
            | _ => r0
            end TRANSFERS_COLUMN_MIN_TRANSFER_TIME =
          match v0 with
          | PyStr t => if bool_decide (t = EmptyString) then PyStr "0" else v0
          | _ => v0
          end) as Hrep.
  { rewrite Hcell. destruct v0 as [|t| | |]; try by (unfold pandas.cell; rewrite Hcell).
    case_bool_decide; [by rewrite cell_insert_eq | by unfold pandas.cell; rewrite Hcell]. }
  simpl in Hast. rewrite Hrep in Hast. split.
  - unfold pandas.astype_float. simpl. by rewrite Hast.
  - match goal with |- context [<[TRANSFERS_COLUMN_MIN_TRANSFER_TIME := v1]> ?r] =>
      set (r1 := <[TRANSFERS_COLUMN_MIN_TRANSFER_TIME := v1]> r) end.
    destruct (pandas.eq_int (pandas.cell r1 TRANSFERS_COLUMN_TRANSFER_TYPE) 2) eqn:E; simpl.
    + rewrite E. apply cell_insert_eq.
    + rewrite cell_insert_eq, cell_insert_ne by done. by rewrite E.
Qed.

(** X17: the frame of a non-empty GTFS transfer list has one row per
    transfer; in each row [min_transfer_time] is a number, and it is 0
    unless [transfer_type] is 2. *)
Theorem gtfs_transfers_frame (gtfs_schedule : Schedule) (base : pandas.DataFrame) :
  GetTransferList gtfs_schedule ≠ [] →
  gtfs_transfers_df float_of_str gtfs_schedule = Ok base →
  pandas.len base = length (GetTransferList gtfs_schedule) ∧
  ∀ r, r ∈ pandas.rows base →
    is_num (pandas.cell r TRANSFERS_COLUMN_MIN_TRANSFER_TIME) ∧
    (pandas.eq_int (pandas.cell r TRANSFERS_COLUMN_TRANSFER_TYPE) 2 = false →
     pandas.cell r TRANSFERS_COLUMN_MIN_TRANSFER_TIME = PyInt 0).
Proof.
  intros Hne Hbase.
  destruct (gtfs_transfers_df_rows _ _ Hbase Hne) as (Hlen & _ & _ & Hnum).
  split; [done|]. intros r Hr. split.
  - by apply (proj1 (Forall_forall _ _) Hnum).
  - by apply (gtfs_transfers_df_zeroed _ _ _ _ Hbase).
Qed.

(** X18: an empty [min_transfer_time] means 0: the row of a GTFS transfer
    whose [min_transfer_time] is the empty string has what [float("0")]
    gives when its [transfer_type] is 2, and 0 otherwise. *)
Theorem empty_min_transfer_time_is_zero (gtfs_schedule : Schedule) (base : pandas.DataFrame)
    (i : nat) (g : gtfs_transfer) :
  gtfs_transfers_df float_of_str gtfs_schedule = Ok base →
  GetTransferList gtfs_schedule !! i = Some g →
  TRANSFERS_COLUMN_MIN_TRANSFER_TIME ∈ _FIELD_NAMES g →
  dict_get (__dict__ g) TRANSFERS_COLUMN_MIN_TRANSFER_TIME = Some (PyStr EmptyString) →
  ∃ r zero,
    pandas.rows base !! i = Some r ∧ float_of_str "0" = Some zero ∧
    pandas.cell r TRANSFERS_COLUMN_MIN_TRANSFER_TIME =
      if pandas.eq_int (pandas.cell r TRANSFERS_COLUMN_TRANSFER_TYPE) 2
      then PyFloat zero else PyInt 0.
Proof.
  intros Hbase Hg Hfield Hv0.
  destruct (gtfs_transfers_df_lookup _ _ _ _ _ Hbase Hg Hfield Hv0) as (r & v1 & Hr & Hast & Hc).
  rewrite bool_decide_eq_true_2 in Hast by done.
  unfold pandas.astype_float in Hast. simpl in Hast.
  destruct (float_of_str "0") as [zero|]; [|done]. injection Hast as <-.
  by exists r, zero.
Qed.

(** X19: a GTFS [min_transfer_time] that is a text [float] refuses, other
    than the empty one, aborts the load before anything is read, logged or
    stored; the exception is not a [NetworkInputError]. *)
Theorem min_transfer_time_not_a_number (input_dir output_dir : string)
    (gtfs_schedule : Schedule) (s : state) (i : nat) (g : gtfs_transfer) (t : string) :
  GetTransferList gtfs_schedule !! i = Some g →
  TRANSFERS_COLUMN_MIN_TRANSFER_TIME ∈ _FIELD_NAMES g →
  dict_get (__dict__ g) TRANSFERS_COLUMN_MIN_TRANSFER_TIME = Some (PyStr t) →
  t ≠ EmptyString → float_of_str t = None →
  ∃ e, __init__ float_of_str input_dir output_dir gtfs_schedule s = (Raise e, s) ∧
       ∀ file msg, e ≠ NetworkInputError file msg.
Proof.
  intros Hg Hfield Hv0 Ht Hfloat. rewrite init_run. unfold loaded_df.
  destruct (gtfs_transfers_df _ _) as [base|e] eqn:Hbase.
  - destruct (gtfs_transfers_df_lookup _ _ _ _ _ Hbase Hg Hfield Hv0)
      as (r & v1 & _ & Hast & _).
    rewrite bool_decide_eq_false_2 in Hast by done.
    unfold pandas.astype_float in Hast. simpl in Hast. by rewrite Hfloat in Hast.
  - exists e. split; [done|].
    intros file msg ->.
    by apply gtfs_transfers_df_Raise in Hbase as [[? [=]]|[[=]|[=]]].
Qed.

End LoadEdges.

(** ** The exceptions of a load *)

Section LoadErrors.

Import Transfer.

(** Python's [float] on a string, [None] where it raises. *)
Variable float_of_str : string → option float.

Lemma to_float_Raise (v : value) (e : exn) : pandas.to_float v = Raise e → e = TypeError.
Proof. destruct v; simpl; try done; by intros [= <-]. Qed.

Lemma elementwise_Raise {B} (g : float → B) (s : list value) (e : exn) :
  mapM (λ v, f ← pandas.to_float v; mret (g f)) s = Raise e → e = TypeError.
Proof.
  intros (v & _ & Hv)%mapM_Raise.
  apply bind_Raise in Hv as [Hv|(x & _ & [=])]. by apply to_float_Raise in Hv.
Qed.

Lemma timedelta_Raise (v : value) (e : exn) : timedelta v = Raise e → raised_by_pandas e.
Proof.
  destruct v as [| |z|x|]; simpl; try by intros [= <-].
  - destruct (_ <? _)%Z; [done | by intros [= <-]].
  - destruct (is_nan x); [by intros [= <-]|].
    destruct (_ <? _)%float; [done | by intros [= <-]].
Qed.

(** Lines 161-186 raise [NetworkInputError] for rows that are too long, and
    otherwise only what pandas and [timedelta] raise. *)
Lemma transfer_times_Raise (df : pandas.DataFrame) (s s' : state) (e : exn) :
  transfer_times df s = (Raise e, s') →
  (pandas.len df > 0 ∧ has_minutes df ∧
   (∃ r, r ∈ pandas.rows df ∧ (780 <? walk_time_of r)%float = true) ∧
   e = NetworkInputError INPUT_TRANSFERS_FILE (too_long_msg (with_minutes df))) ∨
  raised_by_pandas e.
Proof.
  intros H. destruct (decide (pandas.len df > 0)) as [Hlen|Hlen].
  2:{ unfold transfer_times in H. by rewrite bool_decide_eq_false_2 in H. }
  assert (has_minutes df ∨ raised_by_pandas e) as [Hm|?]; [| |by right].
  { unfold transfer_times in H. rewrite bool_decide_eq_true_2 in H by done.
    rewrite run_lift in H.
    destruct (pandas.getitem df _) as [col|e1] eqn:E1.
    2:{ injection H as <- _. apply getitem_Raise in E1 as [-> _]. by right. }
    apply getitem_Ok in E1 as [Hc1 ->].
    rewrite run_lift in H.
    destruct (pandas.div _ _) as [col|e2] eqn:E2.
    2:{ injection H as <- _. apply elementwise_Raise in E2 as ->. by right. }
    apply div_Ok in E2 as [-> Hn1]. rewrite Forall_fmap in Hn1.
    rewrite <- list_fmap_compose, setitem_fmap, run_lift in H.
    destruct (pandas.getitem _ _) as [col|e3] eqn:E3.
    2:{ injection H as <- _. apply getitem_Raise in E3 as [-> _]. by right. }
    apply getitem_Ok in E3 as [Hc3 ->]. cbn [pandas.rows pandas.columns] in *.
    rewrite run_lift in H.
    destruct (pandas.mul _ _) as [col|e4] eqn:E4.
    2:{ injection H as <- _. apply elementwise_Raise in E4 as ->. by right. }
    apply mul_Ok in E4 as [-> Hn3]. rewrite !Forall_fmap in Hn3.
    left. split; [done|]. split; [|split; [done|]].
    - by apply elem_of_add_label in Hc3 as [?|[=]].
    - eapply Forall_impl; [exact Hn3|]. intros r Hr. simpl in Hr.
      by rewrite cell_insert_ne in Hr. }
  rewrite transfer_times_run in H by done.
  case_bool_decide as Hlong.
  - injection H as <- _. left. split; [done|]. split; [done|]. split; [|done].
    destruct (filter too_long (pandas.rows (with_minutes df))) as [|r2 rs] eqn:Hf;
      [simpl in Hlong; lia|].
    assert (r2 ∈ filter too_long (pandas.rows (with_minutes df))) as Hin
      by (rewrite Hf; by left).
    apply list_elem_of_filter in Hin as [Htoo Hin].
    unfold with_minutes in Hin. cbn [pandas.rows] in Hin.
    apply list_elem_of_fmap in Hin as (r1 & -> & Hin).
    apply list_elem_of_fmap in Hin as (r & -> & Hin).
    exists r. split; [done|]. unfold too_long in Htoo.
    destruct (with_minutes_cells r) as [Ht _]. simpl in Ht. by rewrite Ht in Htoo.
  - destruct (pandas.map _ _) as [col|e5] eqn:E5; [done|]. injection H as <- _.
    right. apply mapM_Raise in E5 as (v & _ & Hv). by apply timedelta_Raise in Hv.
Qed.

(** Why the frame of lines 97-156 is not made. *)
Lemma loaded_df_Raise (input_dir : string) (gtfs_schedule : Schedule) (s : state) (e : exn) :
  loaded_df float_of_str input_dir gtfs_schedule s = Raise e →
  raised_by_pandas e ∨
  (files s !! os_path_join input_dir INPUT_TRANSFERS_FILE = None ∧
   e = IOError (os_path_join input_dir INPUT_TRANSFERS_FILE)) ∨
  (e = AssertionError ∧
   ∃ f c, files s !! os_path_join input_dir INPUT_TRANSFERS_FILE = Some f ∧
          c ∈ required_columns ∧ c ∉ pandas.header f).
Proof.
  unfold loaded_df. intros H.
  apply bind_Raise in H as [H|(base & _ & H)].
  { left. by apply gtfs_transfers_df_Raise in H as [[c ->]|[->| ->]]. }
  apply bind_Raise in H as [H|(ft & _ & H)].
  { rewrite (read_transfers_ft_run float_of_str) in H.
    destruct (files s !! _) as [f|] eqn:Hf.
    - case_bool_decide as Hreq; [done|]. injection H as <-. right. right. split; [done|].
      apply not_Forall_Exists in Hreq; [|apply _].
      apply Exists_exists in Hreq as (c & Hc & Hn). by exists f, c.
    - injection H as <-. right. by left. }
  apply bind_Raise in H as [H|(j & _ & [=])]. left.
  unfold join_transfers_ft in H. case_bool_decide; [|done].
  apply bind_Raise in H as [H|(m & _ & [=])].
  unfold pandas.merge_right in H. destruct (filter _ _); [|by injection H as <-].
  case_bool_decide; [done|]. by injection H as <-.
Qed.

(** X20: the sanity check is the only place where the constructor raises
    [NetworkInputError]: when it does, the file named is
    [transfers_ft.txt], the message is the one of line 174, and some row
    of the joined frame has a walk time over 780 minutes. *)
Theorem network_input_error_is_the_sanity_check (input_dir output_dir : string)
    (gtfs_schedule : Schedule) (s s' : state) (file msg : string) :
  __init__ float_of_str input_dir output_dir gtfs_schedule s =
    (Raise (NetworkInputError file msg), s') →
  file = INPUT_TRANSFERS_FILE ∧
  ∃ df, loaded_df float_of_str input_dir gtfs_schedule s = Ok df ∧
        msg = too_long_msg (with_minutes df) ∧
        ∃ r, r ∈ pandas.rows df ∧ (780 <? walk_time_of r)%float = true.
Proof.
  rewrite init_run. destruct (loaded_df _ _ _ _) as [df|e] eqn:Hdf.
  - destruct (transfer_times _ _) as [[df'|e] s1] eqn:Htt; [done|]. intros [= -> <-].
    apply transfer_times_Raise in Htt as [(_ & _ & Hr & [= -> ->])|[]].
    split; [done|]. by exists df.
  - intros [= -> <-]. by apply loaded_df_Raise in Hdf as [[]|[[_ [=]]|[[=] _]]].
Qed.

(** X21: the constructor raises [AssertionError] only for a supplemental
    file that is there and lacks a required column, and then it has
    changed nothing. *)
Theorem assertion_error_is_a_missing_column (input_dir output_dir : string)
    (gtfs_schedule : Schedule) (s s' : state) :
  __init__ float_of_str input_dir output_dir gtfs_schedule s = (Raise AssertionError, s') →
  s' = s ∧
  ∃ f c, files s !! os_path_join input_dir INPUT_TRANSFERS_FILE = Some f ∧
         c ∈ required_columns ∧ c ∉ pandas.header f.
Proof.
  rewrite init_run. destruct (loaded_df _ _ _ _) as [df|e] eqn:Hdf.
  - destruct (transfer_times _ _) as [[df'|e] s1] eqn:Htt; [done|]. intros [= -> <-].
    by apply transfer_times_Raise in Htt as [(_ & _ & _ & [=])|[]].
  - intros [= -> <-]. split; [done|].
    by apply loaded_df_Raise in Hdf as [[]|[[_ [=]]|[_ ?]]].
Qed.

Lemma nan_walk_time (x : float) : is_nan x = true → is_nan (x * 60 / 3) = true.
Proof.
  rewrite !is_nan_spec, FloatAxioms.div_spec, FloatAxioms.mul_spec. by intros ->.
Qed.

(** X22: a row without a distance aborts the load: its walk time is NaN,
    which passes the sanity check and the floor, and [timedelta] refuses
    it. No file and no frame changes. *)
Theorem missing_distance_aborts_load (input_dir output_dir : string)
    (gtfs_schedule : Schedule) (s : state) (df : pandas.DataFrame) :
  loaded_df float_of_str input_dir gtfs_schedule s = Ok df →
  has_minutes df →
  (∃ r, r ∈ pandas.rows df ∧ isnull (pandas.cell r TRANSFERS_COLUMN_DISTANCE) = true) →
  ∃ e s', __init__ float_of_str input_dir output_dir gtfs_schedule s = (Raise e, s') ∧
          (raised_by_pandas e ∨ ∃ msg, e = NetworkInputError INPUT_TRANSFERS_FILE msg) ∧
          files s' = files s ∧ heap s' = heap s.
Proof.
  intros Hdf Hm (r & Hr & Hnull).
  assert (pandas.len df > 0) as Hlen.
  { unfold pandas.len. destruct (pandas.rows df); [by apply elem_of_nil in Hr | simpl; lia]. }
  rewrite init_run, Hdf, transfer_times_run by done.
  case_bool_decide as Hlong.
  { eexists _, _. split; [done|]. split; [right; by eexists | done]. }
  destruct (pandas.map _ _) as [col|e] eqn:Hcol.
  - exfalso.
    apply (mapM_Ok_fmap _ (λ v, PyTimedelta (num v)) (λ v, is_nan (num v) = false)) in Hcol
      as [_ Hnan]; [|apply timedelta_Ok].
    unfold floored, with_minutes in Hnan. cbn [pandas.rows] in Hnan.
    rewrite !Forall_fmap, Forall_forall in Hnan. specialize (Hnan r Hr). simpl in Hnan.
    destruct (with_floor_cells r) as [Hf _]. simpl in Hf. rewrite Hf in Hnan. simpl in Hnan.
    destruct Hm as (_ & _ & _ & Hn2). rewrite Forall_forall in Hn2. specialize (Hn2 r Hr).
    assert (is_nan (walk_time_of r) = true) as Hw.
    { unfold walk_time_of. apply nan_walk_time.
      destruct (pandas.cell r TRANSFERS_COLUMN_DISTANCE); simpl in *; done. }
    unfold floored_time_of in Hnan.
    destruct (walk_time_of r <? min_transfer_time_min_of r)%float eqn:E.
    + apply ltb_true_not_nan in E as [E _]. congruence.
    + congruence.
  - eexists _, _. split; [done|]. split; [|done]. left.
    apply mapM_Raise in Hcol as (v & _ & Hv). by apply timedelta_Raise in Hv.
Qed.

End LoadErrors.

(** ** Worked examples of the further properties *)

Section FurtherExamples.

Import Transfer.

Ltac by_vm := lazymatch goal with |- ?a = ?b => vm_cast_no_check (@eq_refl _ b) end.

Lemma required_columns_example_ft links c :
  c ∈ required_columns → c ∈ pandas.header (example_ft links).
Proof. revert c. apply Forall_forall. by_compute. Qed.

Lemma export_failure_writes_nothing_witness :
  ∃ c, c ∈ export_columns ∧ c ∉ pandas.columns empty_relation.
Proof.
  edestruct (export_failure_writes_nothing example_self (store_of empty_relation))
    as (_ & _ & H); [reflexivity | vm_compute; reflexivity | exact H].
Defined.

Lemma export_writes_exported_table_witness :
  files exported = <[output_path example_self := exported_table resolved_frame]> ∅.
Proof.
  apply (export_writes_exported_table example_self (store_of resolved_frame) exported
           resolved_frame); [done | by_vm].
Defined.

Lemma exported_values_are_not_missing_witness :
  files exported !! output_path example_self = Some (exported_table resolved_frame) ∧
  ∀ rec, rec ∈ pandas.records (exported_table resolved_frame) →
    ∃ from_stop to_stop attr_name attr_value,
      rec = [from_stop; to_stop; PyStr attr_name; attr_value] ∧ isnull attr_value = false.
Proof.
  assert (files exported !! output_path example_self = Some (exported_table resolved_frame))
    as H by by_vm.
  split; [exact H|].
  apply (exported_values_are_not_missing example_self (store_of resolved_frame) exported);
    [by_vm | exact H].
Defined.

Lemma walk_time_is_exported_witness :
  ∃ f, files exported !! output_path example_self = Some f ∧
    ∀ attr_name, attr_name ∈ ["walk_time_min"; TRANSFERS_COLUMN_TIME_MIN] →
      [pandas.cell (first_row resolved_frame) TRANSFERS_COLUMN_FROM_STOP_NUM;
       pandas.cell (first_row resolved_frame) TRANSFERS_COLUMN_TO_STOP_NUM;
       PyStr attr_name;
       pandas.cell (first_row resolved_frame) TRANSFERS_COLUMN_TIME_MIN] ∈ pandas.records f.
Proof.
  apply (walk_time_is_exported example_self (store_of resolved_frame) exported resolved_frame
           (first_row resolved_frame)).
  - reflexivity.
  - by_vm.
  - apply (list_elem_of_lookup_2 (pandas.rows resolved_frame) 0 (first_row resolved_frame)).
    by_vm.
  - by_vm.
  - by_vm.
Defined.

Lemma load_without_supplemental_file_witness :
  ∃ e, __init__ example_float "in" "out" two_transfers nothing_on_disk =
         (Raise e, nothing_on_disk) ∧
       (gtfs_transfers_df example_float two_transfers = Raise e ∨
        (e = IOError "in/transfers_ft.txt" ∧
         ∃ df, gtfs_transfers_df example_float two_transfers = Ok df)).
Proof.
  apply (load_without_supplemental_file example_float "in" "out" two_transfers nothing_on_disk).
  by_vm.
Defined.

Lemma empty_feed_loads_empty_relation_witness :
  ∃ self s',
    __init__ example_float "in" "out" {| GetTransferList := [] |} (on_disk (example_ft [])) =
      (Ok self, s') ∧
    heap s' !! transfers_df self = Some empty_relation ∧
    FastTripsLogger s' = [] ++ loaded_log empty_relation ++ final_log empty_relation ∧
    ∀ stops, add_numeric_stop_id self stops s' = (Ok self, s').
Proof.
  apply (empty_feed_loads_empty_relation example_float "in" "out" {| GetTransferList := [] |}
           (on_disk (example_ft [])) (example_ft [])).
  - done.
  - by_vm.
  - apply required_columns_example_ft.
  - done.
Defined.

Lemma loaded_transfer_penalty_is_one_witness :
  ∃ df, heap slow_transfer.2 !! transfers_df example_self = Some df ∧
        TRANSFERS_COLUMN_PENALTY ∈ pandas.columns df ∧
        ∀ r, r ∈ pandas.rows df → pandas.cell r TRANSFERS_COLUMN_PENALTY = PyFloat 1.
Proof.
  apply (loaded_transfer_penalty_is_one example_float "in" "out" one_slow_transfer
           (on_disk (example_ft [("A", "B", 0.5%float)]))).
  by_vm.
Defined.

Lemma loaded_times_agree_witness :
  ∃ df, heap slow_transfer.2 !! transfers_df example_self = Some df ∧
    ∀ r, r ∈ pandas.rows df →
      ∃ time_min min_transfer_time,
        pandas.cell r TRANSFERS_COLUMN_TIME_MIN = PyFloat time_min ∧
        pandas.cell r TRANSFERS_COLUMN_TIME = PyTimedelta time_min ∧
        is_nan time_min = false ∧
        pandas.to_float (pandas.cell r TRANSFERS_COLUMN_MIN_TRANSFER_TIME) = Ok min_transfer_time ∧
        pandas.cell r TRANSFERS_COLUMN_MIN_TRANSFER_TIME_MIN = PyFloat (min_transfer_time / 60).
Proof.
  apply (loaded_times_agree example_float "in" "out" one_slow_transfer
           (on_disk (example_ft [("A", "B", 0.5%float)]))).
  by_vm.
Defined.

Lemma gtfs_transfers_alone_need_dist_witness :
  __init__ example_float "in" "out" two_transfers (on_disk (example_ft [])) =
    (Raise (KeyError "dist"),
     logged (on_disk (example_ft []))
       (loaded_log (pandas.setitem_scalar two_transfers_A_B TRANSFERS_COLUMN_PENALTY (PyFloat 1)))).
Proof.
  apply (gtfs_transfers_alone_need_dist example_float "in" "out" two_transfers
           (on_disk (example_ft [])) (example_ft []) two_transfers_A_B).
  - done.
  - intros g Hg. apply elem_of_cons in Hg as [->|Hg]; [by_compute|].
    apply list_elem_of_singleton in Hg as ->. by_compute.
  - by_vm.
  - by_vm.
  - apply required_columns_example_ft.
  - done.
Defined.

Lemma supplemental_transfers_alone_need_min_transfer_time_witness :
  ∃ e s', __init__ example_float "in" "out" {| GetTransferList := [] |}
            (on_disk (example_ft [("A", "B", 0.5%float)])) = (Raise e, s') ∧
          (e = KeyError TRANSFERS_COLUMN_MIN_TRANSFER_TIME ∨ e = MergeError) ∧
          files s' = files (on_disk (example_ft [("A", "B", 0.5%float)])) ∧
          heap s' = heap (on_disk (example_ft [("A", "B", 0.5%float)])).
Proof.
  apply (supplemental_transfers_alone_need_min_transfer_time example_float "in" "out"
           {| GetTransferList := [] |} (on_disk (example_ft [("A", "B", 0.5%float)]))
           (example_ft [("A", "B", 0.5%float)])).
  - done.
  - by_vm.
  - apply required_columns_example_ft.
  - done.
  - by_compute.
Defined.

Lemma no_supplemental_row_is_dropped_witness :
  ∃ df, heap slow_transfer.2 !! transfers_df example_self = Some df ∧
        length (pandas.records (example_ft [("A", "B", 0.5%float)])) ≤ pandas.len df ∧
        (GetTransferList one_slow_transfer = [] →
         pandas.len df = length (pandas.records (example_ft [("A", "B", 0.5%float)]))).
Proof.
  apply (no_supplemental_row_is_dropped example_float "in" "out" one_slow_transfer
           (on_disk (example_ft [("A", "B", 0.5%float)]))).
  - by_vm.
  - done.
  - by_vm.
Defined.

Lemma min_transfer_time_is_zero_unless_type_2_witness :
  ∃ df, heap type_0_transfer.2 !! transfers_df example_self = Some df ∧
    (∃ r, r ∈ pandas.rows df ∧
          pandas.eq_int (pandas.cell r TRANSFERS_COLUMN_TRANSFER_TYPE) 2 = false) ∧
    ∀ r, r ∈ pandas.rows df →
      pandas.eq_int (pandas.cell r TRANSFERS_COLUMN_TRANSFER_TYPE) 2 = false →
      pandas.to_float (pandas.cell r TRANSFERS_COLUMN_MIN_TRANSFER_TIME) = Ok 0%float ∧
      pandas.cell r TRANSFERS_COLUMN_MIN_TRANSFER_TIME_MIN = PyFloat 0.
Proof.
  destruct (min_transfer_time_is_zero_unless_type_2 example_float "in" "out"
              {| GetTransferList := [example_transfer "A" "B" (PyInt 0) (PyInt 120)] |}
              (on_disk (example_ft [("A", "B", 0.5%float)])) type_0_transfer.2 example_self
              (example_ft [("A", "B", 0.5%float)])) as (df & Hdf & Hall).
  - by_vm.
  - by_compute.
  - by_compute.
  - by_vm.
  - assert (heap type_0_transfer.2 !! transfers_df example_self = Some type_0_loaded) as E
      by by_vm.
    assert (df = type_0_loaded) as -> by congruence.
    exists type_0_loaded. split; [exact E|]. split; [|exact Hall].
    exists (first_row type_0_loaded). split.
    + apply (list_elem_of_lookup_2 (pandas.rows type_0_loaded) 0 (first_row type_0_loaded)).
      by_vm.
    + by_vm.
Defined.

Lemma gtfs_transfers_frame_witness :
  pandas.len two_transfers_A_B = 2 ∧
  ∀ r, r ∈ pandas.rows two_transfers_A_B →
    is_num (pandas.cell r TRANSFERS_COLUMN_MIN_TRANSFER_TIME) ∧
    (pandas.eq_int (pandas.cell r TRANSFERS_COLUMN_TRANSFER_TYPE) 2 = false →
     pandas.cell r TRANSFERS_COLUMN_MIN_TRANSFER_TIME = PyInt 0).
Proof.
  apply (gtfs_transfers_frame example_float two_transfers two_transfers_A_B);
    [done | by_vm].
Defined.

Lemma empty_min_transfer_time_is_zero_witness :
  ∃ r zero,
    pandas.rows (from_Ok (pandas.DataFrame_columns [])
                   (gtfs_transfers_df example_float (transfer_with_min_transfer_time "")))
      !! 0 = Some r ∧
    example_float "0" = Some zero ∧
    pandas.cell r TRANSFERS_COLUMN_MIN_TRANSFER_TIME =
      if pandas.eq_int (pandas.cell r TRANSFERS_COLUMN_TRANSFER_TYPE) 2
      then PyFloat zero else PyInt 0.
Proof.
  apply (empty_min_transfer_time_is_zero example_float (transfer_with_min_transfer_time "") _ 0
           (example_transfer "A" "B" (PyInt 2) (PyStr ""))).
  - by_vm.
  - done.
  - by_compute.
  - done.
Defined.

Lemma min_transfer_time_not_a_number_witness :
  ∃ e, __init__ example_float "in" "out" (transfer_with_min_transfer_time "soon")
         (on_disk (example_ft [("A", "B", 0.5%float)])) =
         (Raise e, on_disk (example_ft [("A", "B", 0.5%float)])) ∧
       ∀ file msg, e ≠ NetworkInputError file msg.
Proof.
  apply (min_transfer_time_not_a_number example_float "in" "out"
           (transfer_with_min_transfer_time "soon") _ 0
           (example_transfer "A" "B" (PyInt 2) (PyStr "soon")) "soon").
  - done.
  - by_compute.
  - done.
  - done.
  - done.
Defined.

(** Without a [min_transfer_time] column the times in minutes cannot be
    computed: line 164 raises before the check of line 172 is reached, and a
    row of 1000 miles gives a [KeyError], not a [NetworkInputError]. *)
Lemma long_walk_is_a_key_error :
  long_walk_without_min_transfer_time.1 = Raise (KeyError "min_transfer_time").
Proof. by_vm. Qed.

Lemma network_input_error_is_the_sanity_check_witness :
  "transfers_ft.txt" = INPUT_TRANSFERS_FILE ∧
  ∃ df, loaded_df example_float "in"
          {| GetTransferList := [example_transfer "A" "B" (PyInt 0) (PyInt 0)] |}
          (on_disk (example_ft [("A", "B", 1000%float)])) = Ok df ∧
        too_long_msg (with_minutes long_walk_loaded) = too_long_msg (with_minutes df) ∧
        ∃ r, r ∈ pandas.rows df ∧ (780 <? walk_time_of r)%float = true.
Proof.
  apply (network_input_error_is_the_sanity_check example_float "in" "out" _ _ long_walk.2).
  by_vm.
Defined.

Lemma assertion_error_is_a_missing_column_witness :
  on_disk ft_without_dist = on_disk ft_without_dist ∧
  ∃ f c, files (on_disk ft_without_dist) !! os_path_join "in" INPUT_TRANSFERS_FILE = Some f ∧
         c ∈ required_columns ∧ c ∉ pandas.header f.
Proof.
  apply (assertion_error_is_a_missing_column example_float "in" "out"
           {| GetTransferList := [example_transfer "A" "B" (PyInt 0) (PyInt 0)] |}).
  by_vm.
Defined.

Lemma missing_distance_aborts_load_witness :
  ∃ e s', __init__ example_float "in" "out" one_slow_transfer no_distance = (Raise e, s') ∧
          (raised_by_pandas e ∨ ∃ msg, e = NetworkInputError INPUT_TRANSFERS_FILE msg) ∧
          files s' = files no_distance ∧ heap s' = heap no_distance.
Proof.
  apply (missing_distance_aborts_load example_float "in" "out" one_slow_transfer no_distance
           no_distance_loaded).
  - by_vm.
  - repeat split; vm_compute; repeat constructor.
  - exists (first_row no_distance_loaded). split.
    + apply (list_elem_of_lookup_2 (pandas.rows no_distance_loaded) 0
               (first_row no_distance_loaded)). by_vm.
    + by_vm.
Defined.

End FurtherExamples.
